(** * Telescope: timing phases, archive parsing, telemetry merge and report data

    A shallow embedding of the data pipeline of the Telescope page-load
    tester:

    - [Report]  embeds [processors/generate_visual_report.ts]
      ([calculateTimingPhases], [parseHarFile], [formatNumber], the
      layout-shift and network-row parts of [generateHtml]);
    - [Runner]  embeds the archive post-processing of [src/testRunner.ts]
      ([mergeEntries], [fillOutHar]);
    - [Types]   embeds the records of [src/types.ts] these functions read
      and write.

    Numbers.  Every number the pipeline handles is read from a JSON file
    or handed over by the browser as a finite double.  They are modelled
    as exact rationals [Q]; a field that may be missing is an [option].
    Numbers obtained by arithmetic are compared with [==]; [=] is used
    where the code copies a value or returns a literal.

    The code rounds the result of every operation to a double, the model
    does not.  Rounding keeps comparisons, maxima and minima, copies, the
    value of one operation on given operands, and the order of results
    (a larger operand gives a result that is not smaller).  It does not
    keep identities that span several operations: sums of percentages,
    differences that telescope, the grouping of a sum.  Where the model
    shows such an identity, the code shows it up to rounding. *)

From Stdlib Require Import ZArith QArith Qround Qminmax Qabs Lqa Lia.
From Stdlib Require Import Bool String Ascii List DecimalString.
From Stdlib Require Import DecimalN DecimalPos Orders Sorting Mergesort.
From Stdlib Require Import Permutation.
Import ListNotations.

Open Scope string_scope.
Open Scope Q_scope.

(** ** JavaScript primitives used by the sources *)

Module JS.

Definition number := Q.

Definition ltb (x y : number) : bool := negb (Qle_bool y x).
Definition leb (x y : number) : bool := Qle_bool x y.

(** Truthiness of a number: every number but 0 (NaN does not occur). *)
Definition truthy (x : number) : bool := negb (Qeq_bool x 0).

(** [x || 0] on a number field that may be missing. *)
Definition orZero (x : option number) : number :=
  match x with
  | Some v => if truthy v then v else 0
  | None => 0
  end.

(** [s || d] on a string: the empty string is falsy. *)
Definition orString (s d : string) : string :=
  match s with
  | EmptyString => d
  | _ => s
  end.

(** [Math.max(a, b, c)]. *)
Definition Math_max3 (a b c : number) : number := Qmax (Qmax a b) c.

(** [Math.floor]. *)
Definition Math_floor (x : number) : Z := Qfloor x.

(** [s.includes(sub)]. *)
Fixpoint includes (sub s : string) : bool :=
  String.prefix sub s
  || match s with
     | EmptyString => false
     | String _ t => includes sub t
     end.

Definition lower_ascii (c : ascii) : ascii :=
  let n := nat_of_ascii c in
  if (Nat.leb 65 n && Nat.leb n 90)%bool then ascii_of_nat (n + 32) else c.

(** [s.toLowerCase()], on the ASCII letters MIME types are made of. *)
Fixpoint toLowerCase (s : string) : string :=
  match s with
  | EmptyString => EmptyString
  | String c t => String (lower_ascii c) (toLowerCase t)
  end.

(** Decimal digits of a natural integer. *)
Definition digits (n : Z) : string :=
  NilZero.string_of_uint (N.to_uint (Z.to_N n)).

Fixpoint groupRev (l : list ascii) : list ascii :=
  match l with
  | a :: b :: c :: ((_ :: _) as rest) =>
      a :: b :: c :: ","%char :: groupRev rest
  | _ => l
  end.

(** [n.toLocaleString()] of an integer in the [en-US] locale: digits in
    groups of three separated by commas. *)
Definition toLocaleString (n : Z) : string :=
  let body :=
    string_of_list_ascii
      (rev (groupRev (rev (list_ascii_of_string (digits (Z.abs n)))))) in
  if (n <? 0)%Z then "-" ++ body else body.

Fixpoint zeros (k : nat) : string :=
  match k with
  | O => EmptyString
  | S k' => String "0"%char (zeros k')
  end.

(** [x.toFixed(d)] for |x| < 1e21: the sign is taken from [x], the
    magnitude is rounded to the nearest multiple of 10^-d, ties upwards. *)
Definition toFixed (d : nat) (x : number) : string :=
  let n := Qfloor (Qabs x * inject_Z (10 ^ Z.of_nat d) + (1 # 2)) in
  let s := digits n in
  let s := zeros (S d - String.length s) ++ s in
  let k := (String.length s - d)%nat in
  let body :=
    match d with
    | O => s
    | _ => substring 0 k s ++ "." ++ substring k d s
    end in
  if ltb x 0 then "-" ++ body else body.

(** A call either returns a value or throws. *)
Inductive outcome (A : Type) : Type :=
| Returned (a : A)
| Thrown (msg : string).
Arguments Returned {A} a.
Arguments Thrown {A} msg.

End JS.

(** ** Records of [src/types.ts] *)

Module Types.
Import JS.

(** [Partial<NavigationTiming>]: the fields [calculateTimingPhases] and
    [fillOutHar] read. *)
Record NavigationTiming := mkNavigationTiming {
  navigationStart : option number;
  domainLookupStart : option number;
  domainLookupEnd : option number;
  connectStart : option number;
  connectEnd : option number;
  secureConnectionStart : option number;
  requestStart : option number;
  responseStart : option number;
  responseEnd : option number;
  domLoading : option number;
  domInteractive : option number;
  domContentLoadedEventEnd : option number;
  domComplete : option number
}.

Record LCPEvent := mkLCPEvent {
  lcp_startTime : option number;
  lcp_url : string
}.

Record LayoutShiftSourceRect := mkRect {
  rect_x : option number;
  rect_y : option number;
  rect_width : option number;
  rect_height : option number;
  rect_top : option number;
  rect_right : option number;
  rect_bottom : option number;
  rect_left : option number
}.

Record LayoutShiftSource := mkSource {
  previousRect : option LayoutShiftSourceRect;
  currentRect : option LayoutShiftSourceRect
}.

Record LayoutShift := mkLayoutShift {
  shift_startTime : option number;
  shift_value : option number;
  sources : option (list LayoutShiftSource)
}.

Record Metrics := mkMetrics {
  navigationTiming : option NavigationTiming;
  largestContentfulPaint : option (list LCPEvent);
  layoutShifts : option (list LayoutShift)
}.

Record RequestTiming := mkRequestTiming {
  rt_startTime : number;
  rt_domainLookupStart : number;
  rt_domainLookupEnd : number;
  rt_connectStart : number;
  rt_secureConnectionStart : number;
  rt_connectEnd : number;
  rt_requestStart : number;
  rt_responseStart : number;
  rt_responseEnd : number
}.

Record RequestData := mkRequestData {
  rd_url : string;
  timing : RequestTiming;
  rawTimings : option bool
}.

Record HarRequest := mkHarRequest {
  url : string;
  method : string
}.

Record HarContent := mkHarContent {
  size : number;
  mimeType : string
}.

Record HarResponse := mkHarResponse {
  status : number;
  _transferSize : option number;
  content : HarContent
}.

Record HarEntry := mkHarEntry {
  request : HarRequest;
  response : HarResponse;
  time : number;
  startedDateTime : string;
  timings : option (list (string * number));
  _dns_start : option number;
  _dns_end : option number;
  _connect_start : option number;
  _connect_end : option number;
  _secure_start : option number;
  _secure_end : option number;
  _request_start : option number;
  _request_end : option number;
  _response_start : option number;
  _response_end : option number;
  _is_lcp : option bool
}.

Record HarPageTimings := mkHarPageTimings {
  _TTFB : option number;
  _LCP : option number
}.

Record HarPage := mkHarPage {
  pageTimings : HarPageTimings
}.

(** [HarData], with the [log] level flattened. *)
Record HarData := mkHarData {
  pages : list HarPage;
  har_entries : list HarEntry
}.

End Types.

(** ** [processors/generate_visual_report.ts] *)

Module Report.
Import JS Types.

Record RequestTimings := mkRequestTimings {
  rq_dns_time : number;
  rq_connect_time : number;
  rq_ssl_time : number;
  rq_send_time : number;
  rq_wait_time : number;
  rq_receive_time : number;
  rq_total_time : number;
  rq_dns_pct : number;
  rq_connect_pct : number;
  rq_ssl_pct : number;
  rq_send_pct : number;
  rq_wait_pct : number;
  rq_receive_pct : number;
  rq_response_start : number;
  rq_response_end : number
}.

(** [start_time] is [None] when the subtraction of the two dates is NaN
    (one of the date strings does not parse). *)
Record NetworkRequest := mkNetworkRequest {
  nr_url : string;
  nr_method : string;
  nr_status : number;
  nr_size : number;
  nr_type : string;
  nr_start_time : option number;
  nr_duration : number;
  nr_mime_type : string;
  nr_timings : RequestTimings
}.

Record TimingPhases := mkTimingPhases {
  dns_time : number;
  tcp_time : number;
  ssl_time : number;
  request_time : number;
  response_time : number;
  dom_processing : number;
  dom_content_loaded : number;
  complete_load : number;
  total_time : number;
  dns_pct : number;
  tcp_pct : number;
  ssl_pct : number;
  request_pct : number;
  response_pct : number;
  processing_pct : number;
  dom_content_pct : number;
  complete_pct : number
}.

Definition getResourceTypeFromMime (mimeType : option string) : string :=
  match mimeType with
  | None | Some EmptyString => "other"
  | Some m =>
      let mime := toLowerCase m in
      if includes "html" mime then "document"
      else if includes "css" mime || includes "stylesheet" mime
      then "stylesheet"
      else if includes "javascript" mime || includes "ecmascript" mime
      then "script"
      else if includes "image" mime || includes "svg" mime then "image"
      else if includes "font" mime || includes "woff" mime
              || includes "ttf" mime
      then "font"
      else if includes "json" mime then "json"
      else if includes "video" mime then "media"
      else "other"
  end.

(** [formatNumber(num: number | string)]. *)
Definition formatNumber (num : number + string) : string :=
  match num with
  | inl n => toLocaleString (Math_floor n)
  | inr s => s
  end.

Definition getRating (metricName : string) (value : number) : string :=
  if String.eqb metricName "LCP" then
    if leb value 2500 then "Good"
    else if leb value 4000 then "Needs Improvement"
    else "Poor"
  else if String.eqb metricName "CLS" then
    if leb value 0.1 then "Good"
    else if leb value 0.25 then "Needs Improvement"
    else "Poor"
  else if String.eqb metricName "TBT" then
    if leb value 200 then "Good"
    else if leb value 600 then "Needs Improvement"
    else "Poor"
  else "N/A".

Definition calculateCls (layoutShifts : list LayoutShift) : number :=
  fold_left (fun sum shift => sum + orZero (shift_value shift))
            layoutShifts 0.

(** [cond ? (num / den) * 100 : 0], the guarded percentage every phase
    computation of this file uses. *)
Definition pctIf (cond : bool) (num den : number) : number :=
  if cond then (num / den) * 100 else 0.

Definition calculateTimingPhases (navTiming : NavigationTiming)
  : TimingPhases :=
  let dnsTime :=
    orZero (domainLookupEnd navTiming)
    - orZero (domainLookupStart navTiming) in
  let tcpTime :=
    orZero (connectEnd navTiming) - orZero (connectStart navTiming) in
  let sslTime :=
    orZero (connectEnd navTiming)
    - orZero (secureConnectionStart navTiming) in
  let requestTime :=
    orZero (responseStart navTiming) - orZero (requestStart navTiming) in
  let responseTime :=
    orZero (responseEnd navTiming) - orZero (responseStart navTiming) in
  let domProcessing :=
    orZero (domInteractive navTiming) - orZero (domLoading navTiming) in
  let domContentLoaded :=
    orZero (domContentLoadedEventEnd navTiming)
    - orZero (domInteractive navTiming) in
  let completeLoad :=
    orZero (domComplete navTiming)
    - orZero (domContentLoadedEventEnd navTiming) in
  let totalTime :=
    orZero (domComplete navTiming) - orZero (navigationStart navTiming) in
  let dnsPct := pctIf (ltb 0 totalTime) dnsTime totalTime in
  let tcpPct := pctIf (ltb 0 totalTime) tcpTime totalTime in
  let sslPct := pctIf (ltb 0 totalTime) sslTime totalTime in
  let requestPct := pctIf (ltb 0 totalTime) requestTime totalTime in
  let responsePct := pctIf (ltb 0 totalTime) responseTime totalTime in
  let processingPct := pctIf (ltb 0 totalTime) domProcessing totalTime in
  let domContentPct :=
    pctIf (ltb 0 totalTime) domContentLoaded totalTime in
  let completePct := pctIf (ltb 0 totalTime) completeLoad totalTime in
  {| dns_time := dnsTime;
     tcp_time := tcpTime;
     ssl_time := sslTime;
     request_time := requestTime;
     response_time := responseTime;
     dom_processing := domProcessing;
     dom_content_loaded := domContentLoaded;
     complete_load := completeLoad;
     total_time := totalTime;
     dns_pct := dnsPct;
     tcp_pct := tcpPct;
     ssl_pct := sslPct;
     request_pct := requestPct;
     response_pct := responsePct;
     processing_pct := processingPct;
     dom_content_pct := domContentPct;
     complete_pct := completePct |}.

(** Sum of the eight page-level percentages. *)
Definition pct_sum (t : TimingPhases) : number :=
  dns_pct t + tcp_pct t + ssl_pct t + request_pct t + response_pct t
  + processing_pct t + dom_content_pct t + complete_pct t.

(** The boundaries of a navigation, as [calculateTimingPhases] reads them
    ([field || 0]), are times that follow the order of the load: lookup,
    connection with its TLS handshake, request and response, and the
    document events from [domLoading], which does not come before the
    first response byte, to [domComplete]. *)
Definition boundariesInOrder (navTiming : NavigationTiming) : Prop :=
  0 <= orZero (navigationStart navTiming)
  /\ orZero (navigationStart navTiming)
     <= orZero (domainLookupStart navTiming)
  /\ orZero (domainLookupStart navTiming)
     <= orZero (domainLookupEnd navTiming)
  /\ orZero (domainLookupEnd navTiming) <= orZero (connectStart navTiming)
  /\ orZero (connectStart navTiming)
     <= orZero (secureConnectionStart navTiming)
  /\ orZero (secureConnectionStart navTiming)
     <= orZero (connectEnd navTiming)
  /\ orZero (connectEnd navTiming) <= orZero (requestStart navTiming)
  /\ orZero (requestStart navTiming) <= orZero (responseStart navTiming)
  /\ orZero (responseStart navTiming) <= orZero (responseEnd navTiming)
  /\ orZero (responseEnd navTiming) <= orZero (domComplete navTiming)
  /\ orZero (responseStart navTiming) <= orZero (domLoading navTiming)
  /\ orZero (domLoading navTiming) <= orZero (domInteractive navTiming)
  /\ orZero (domInteractive navTiming)
     <= orZero (domContentLoadedEventEnd navTiming)
  /\ orZero (domContentLoadedEventEnd navTiming)
     <= orZero (domComplete navTiming).

(** *** [parseHarFile] *)

(** The archive as [JSON.parse] delivers it: [interface HarLog] of the
    report generator, whose [log] and [entries] may be missing. *)
Record HarLogBody := mkHarLogBody {
  entries : option (list HarEntry)
}.

Record HarLog := mkHarLog {
  log : option HarLogBody
}.

(** [(harData.log || {}).entries || []]. *)
Definition archiveEntries (harData : HarLog) : list HarEntry :=
  let log :=
    match log harData with Some l => l | None => mkHarLogBody None end in
  match entries log with Some es => es | None => [] end.

Section Parser.

(** The file system: the contents of the file at a path, if any. *)
Variable fs : string -> option string.
(** [JSON.parse] into the archive type; [None] is a [SyntaxError]. *)
Variable JSON_parse : string -> option HarLog.
(** Time value of [new Date(s)]; [None] is NaN (an invalid date). *)
Variable Date_getTime : string -> option number.

Definition existsSync (p : string) : bool :=
  match fs p with Some _ => true | None => false end.

Definition loadJsonFile (filepath : string) : outcome HarLog :=
  match fs filepath with
  | None => Thrown "ENOENT"
  | Some data =>
      match JSON_parse data with
      | Some v => Returned v
      | None => Thrown "SyntaxError"
      end
  end.

(** Body of the loop over the entries; [pageStart] is the start string
    of the first entry when it is a non-empty string.  [request],
    [response] and [content] are objects in [HarEntry], so the fallbacks
    [entry.request || {...}], [entry.response || {...}] and
    [response.content?.] leave them as they are; the fallbacks on their
    string and number fields are kept. *)
Definition parseEntry (pageStart : option string) (entry : HarEntry)
  : NetworkRequest :=
  let url := orString (url (request entry)) "" in
  let method := orString (method (request entry)) "GET" in
  let status := orZero (Some (status (response entry))) in
  let size := orZero (_transferSize (response entry)) in
  let size :=
    if negb (truthy size)
    then orZero (Some (Types.size (content (response entry))))
    else size in
  let mimeType := orString (mimeType (content (response entry))) "" in
  let resourceType := getResourceTypeFromMime (Some mimeType) in
  let startedStr := startedDateTime entry in
  let totalTime := orZero (Some (time entry)) in
  let relativeStart :=
    match startedStr, pageStart with
    | String _ _, Some ps =>
        match Date_getTime startedStr, Date_getTime ps with
        | Some started, Some page => Some (started - page)
        | _, _ => None
        end
    | _, _ => Some 0
    end in
  let dnsStart := orZero (_dns_start entry) in
  let dnsEnd := orZero (_dns_end entry) in
  let connectStart := orZero (_connect_start entry) in
  let connectEnd := orZero (_connect_end entry) in
  let secureStart := orZero (_secure_start entry) in
  let secureEnd := orZero (_secure_end entry) in
  let requestStart := orZero (_request_start entry) in
  let requestEnd := orZero (_request_end entry) in
  let responseStart := orZero (_response_start entry) in
  let responseEnd := orZero (_response_end entry) in
  let dns := dnsEnd - dnsStart in
  let connect := connectEnd - connectStart in
  let ssl := secureEnd - secureStart in
  let send := requestEnd - requestStart in
  let wait := responseStart - requestEnd in
  let receive := responseEnd - responseStart in
  let total := responseEnd - requestStart in
  let dnsPct := pctIf (ltb 0 total && ltb 0 dns) dns total in
  let connectPct := pctIf (ltb 0 total && ltb 0 connect) connect total in
  let sslPct := pctIf (ltb 0 total && ltb 0 ssl) ssl total in
  let sendPct := pctIf (ltb 0 total) send total in
  let waitPct := pctIf (ltb 0 total) wait total in
  let receivePct := pctIf (ltb 0 total) receive total in
  {| nr_url := url;
     nr_method := method;
     nr_status := status;
     nr_size := size;
     nr_type := resourceType;
     nr_start_time := relativeStart;
     nr_duration := totalTime;
     nr_mime_type := mimeType;
     nr_timings :=
       {| rq_dns_time := dns;
          rq_connect_time := connect;
          rq_ssl_time := ssl;
          rq_send_time := send;
          rq_wait_time := wait;
          rq_receive_time := receive;
          rq_total_time := total;
          rq_dns_pct := dnsPct;
          rq_connect_pct := connectPct;
          rq_ssl_pct := sslPct;
          rq_send_pct := sendPct;
          rq_wait_pct := waitPct;
          rq_receive_pct := receivePct;
          rq_response_start := responseStart;
          rq_response_end := responseEnd |} |}.

(** The statements after [loadJsonFile] inside the [try] block. *)
Definition parseHarData (harData : HarLog)
  : option (list NetworkRequest) :=
  let entries := archiveEntries harData in
  match entries with
  | [] => None
  | first :: _ =>
      let pageStart :=
        match startedDateTime first with
        | EmptyString => None
        | s => Some s
        end in
      Some (map (parseEntry pageStart) entries)
  end.

(** The [try] block of [parseHarFile]. *)
Definition parseHarTry (harPath : string)
  : outcome (option (list NetworkRequest)) :=
  match loadJsonFile harPath with
  | Thrown msg => Thrown msg
  | Returned harData => Returned (parseHarData harData)
  end.

(** [parseHarFile]: [None] is the [null] result; the [catch] clause
    logs the exception and returns [null]. *)
Definition parseHarFile (harPath : string)
  : outcome (option (list NetworkRequest)) :=
  if negb (existsSync harPath) then Returned None
  else
    match parseHarTry harPath with
    | Returned r => Returned r
    | Thrown _ => Returned None
    end.

End Parser.

(** *** The parts of [generateHtml] that build the report model *)

Definition emptyRect : LayoutShiftSourceRect :=
  mkRect None None None None None None None None.

(** [rect || {}]. *)
Definition rectOrEmpty (r : option LayoutShiftSourceRect)
  : LayoutShiftSourceRect :=
  match r with Some v => v | None => emptyRect end.

Definition defaultViewportWidth : number := 1920.
Definition defaultViewportHeight : number := 1536.

(** One round of the first loop over the sources of a shift. *)
Definition viewportStep (viewport : number * number)
    (source : LayoutShiftSource) : number * number :=
  let prevRect := rectOrEmpty (previousRect source) in
  let currRect := rectOrEmpty (currentRect source) in
  (Math_max3 (fst viewport)
             (orZero (rect_right prevRect)) (orZero (rect_right currRect)),
   Math_max3 (snd viewport)
             (orZero (rect_bottom prevRect))
             (orZero (rect_bottom currRect))).

(** [viewportWidth] and [viewportHeight] after the first loop: both are
    declared inside the loop over the shifts, so they start again from
    the default size at every shift. *)
Definition shiftViewport (srcs : list LayoutShiftSource)
  : number * number :=
  fold_left viewportStep srcs (defaultViewportWidth, defaultViewportHeight).

(** [viewport > 0 ? ((coord || 0) / viewport) * 100 : 0]. *)
Definition viewportPct (viewport : number) (coord : option number)
  : number :=
  pctIf (ltb 0 viewport) (orZero coord) viewport.

Record SourceVisual := mkSourceVisual {
  prevLeftPct : string;
  prevTopPct : string;
  prevWidthPct : string;
  prevHeightPct : string;
  prevX : Z;
  prevY : Z;
  prevWidth : Z;
  prevHeight : Z;
  currLeftPct : string;
  currTopPct : string;
  currWidthPct : string;
  currHeightPct : string;
  currX : Z;
  currY : Z;
  currWidth : Z;
  currHeight : Z
}.

(** One round of the second loop; [None] is the [continue]. *)
Definition sourceVisual (viewportWidth viewportHeight : number)
    (source : LayoutShiftSource) : option SourceVisual :=
  let prevRect := rectOrEmpty (previousRect source) in
  let currRect := rectOrEmpty (currentRect source) in
  if Qeq_bool (orZero (rect_width currRect)) 0
     || Qeq_bool (orZero (rect_height currRect)) 0
  then None
  else
    Some
      {| prevLeftPct :=
           toFixed 2 (viewportPct viewportWidth (rect_left prevRect));
         prevTopPct :=
           toFixed 2 (viewportPct viewportHeight (rect_top prevRect));
         prevWidthPct :=
           toFixed 2 (viewportPct viewportWidth (rect_width prevRect));
         prevHeightPct :=
           toFixed 2 (viewportPct viewportHeight (rect_height prevRect));
         prevX := Math_floor (orZero (rect_x prevRect));
         prevY := Math_floor (orZero (rect_y prevRect));
         prevWidth := Math_floor (orZero (rect_width prevRect));
         prevHeight := Math_floor (orZero (rect_height prevRect));
         currLeftPct :=
           toFixed 2 (viewportPct viewportWidth (rect_left currRect));
         currTopPct :=
           toFixed 2 (viewportPct viewportHeight (rect_top currRect));
         currWidthPct :=
           toFixed 2 (viewportPct viewportWidth (rect_width currRect));
         currHeightPct :=
           toFixed 2 (viewportPct viewportHeight (rect_height currRect));
         currX := Math_floor (orZero (rect_x currRect));
         currY := Math_floor (orZero (rect_y currRect));
         currWidth := Math_floor (orZero (rect_width currRect));
         currHeight := Math_floor (orZero (rect_height currRect)) |}.

Fixpoint filterMap {A B : Type} (f : A -> option B) (l : list A)
  : list B :=
  match l with
  | [] => []
  | a :: l' =>
      match f a with
      | Some b => b :: filterMap f l'
      | None => filterMap f l'
      end
  end.

Record LayoutVisual := mkLayoutVisual {
  lv_time : string;
  lv_value : string;
  lv_sources : nat;
  lv_sourceVisualData : list SourceVisual
}.

Definition shiftSources (shift : LayoutShift) : list LayoutShiftSource :=
  match sources shift with Some l => l | None => [] end.

(** Body of the loop over the layout shifts; [None] when nothing is
    pushed for the shift. *)
Definition shiftVisual (shift : LayoutShift) : option LayoutVisual :=
  let srcs := shiftSources shift in
  let viewport := shiftViewport srcs in
  let sourceVisualData :=
    filterMap (sourceVisual (fst viewport) (snd viewport)) srcs in
  match sourceVisualData with
  | [] => None
  | _ :: _ =>
      Some {| lv_time := toFixed 1 (orZero (shift_startTime shift));
              lv_value := toFixed 6 (orZero (shift_value shift));
              lv_sources := List.length sourceVisualData;
              lv_sourceVisualData := sourceVisualData |}
  end.

Definition layoutVisualData (shifts : list LayoutShift)
  : list LayoutVisual :=
  filterMap shiftVisual shifts.

(** The unit selection of a network row: the scaled size and its
    suffix, in the order the source tests the thresholds. *)
Definition sizeAndSuffix (entry_size : number) : number * string :=
  if ltb 1024 entry_size then (entry_size / 1024, " KB")
  else if ltb 1048576 entry_size then (entry_size / 1048576, " MB")
  else if ltb 1073741824 entry_size
  then (entry_size / 1073741824, " GB")
  else (entry_size, " B").

Definition sizeStr (entry_size : number) : string :=
  let r := sizeAndSuffix entry_size in
  formatNumber (inl (fst r)) ++ snd r.

(** A network waterfall row, restricted to the fields that do not depend
    on the time span of the run. *)
Record NetworkDataEntry := mkNetworkDataEntry {
  nd_fullUrl : string;
  nd_method : string;
  nd_size : string;
  nd_type : string
}.

Definition networkRow (entry : NetworkRequest) : NetworkDataEntry :=
  {| nd_fullUrl := nr_url entry;
     nd_method := nr_method entry;
     nd_size := sizeStr (nr_size entry);
     nd_type := nr_type entry |}.

Definition emptyNavigationTiming : NavigationTiming :=
  mkNavigationTiming None None None None None None None None None None
                     None None None.

Definition emptyLcpEntry : LCPEvent := mkLCPEvent None "".

(** [(metrics.largestContentfulPaint || [{}])[0] || {}]. *)
Definition lcpData (metrics : Metrics) : LCPEvent :=
  match largestContentfulPaint metrics with
  | Some (e :: _) => e
  | Some [] => emptyLcpEntry
  | None => emptyLcpEntry
  end.

Definition lcpTime (metrics : Metrics) : number :=
  orZero (lcp_startTime (lcpData metrics)).

Definition reportTiming (metrics : Metrics) : TimingPhases :=
  calculateTimingPhases
    (match navigationTiming metrics with
     | Some n => n
     | None => emptyNavigationTiming
     end).

(** [let ttfb = timing.response_time]. *)
Definition ttfbValue (metrics : Metrics) : number :=
  response_time (reportTiming metrics).

(** The data handed to the template, restricted to the web vitals, the
    layout-shift overlays and the network rows. *)
Record ReportModel := mkReportModel {
  ttfb : string;
  lcp : string;
  cls : string;
  tbt : string;
  lcpRating : string;
  clsRating : string;
  tbtRating : string;
  rm_layoutVisualData : list LayoutVisual;
  finalScreenshotTimestamp : number;
  hasNetworkRequests : bool;
  networkData : list NetworkDataEntry
}.

(** [generateHtml]; [harRequests] is what [parseHarFile] returned for
    the archive of the run ([None] when there is no archive). *)
Definition generateHtml (metrics : Metrics)
    (harRequests : option (list NetworkRequest)) : ReportModel :=
  let timing := reportTiming metrics in
  let lcpTime := lcpTime metrics in
  let layoutShifts :=
    match layoutShifts metrics with Some l => l | None => [] end in
  let clsScore := calculateCls layoutShifts in
  let ttfb := response_time timing in
  let tbt := 0 in
  let rows :=
    match harRequests with
    | Some (r :: rs) => map networkRow (r :: rs)
    | _ => []
    end in
  {| ttfb := toFixed 0 ttfb;
     lcp := toFixed 0 lcpTime;
     cls := toFixed 4 clsScore;
     tbt := toFixed 0 tbt;
     lcpRating := getRating "LCP" lcpTime;
     clsRating := getRating "CLS" clsScore;
     tbtRating := getRating "TBT" tbt;
     rm_layoutVisualData := layoutVisualData layoutShifts;
     finalScreenshotTimestamp := total_time timing;
     hasNetworkRequests :=
       match harRequests with Some (_ :: _) => true | _ => false end;
     networkData := rows |}.

End Report.

(** ** [src/testRunner.ts]: post-processing of the recorded archive *)

Module Runner.
Import JS Types.

(** [Array.prototype.findIndex]; [None] is the result -1. *)
Fixpoint findIndex {A : Type} (p : A -> bool) (l : list A) : option nat :=
  match l with
  | [] => None
  | a :: l' => if p a then Some O else option_map S (findIndex p l')
  end.

(** [l.splice(start, deleteCount, ...items)], as the array it leaves. *)
Definition splice {A : Type} (l : list A) (start deleteCount : nat)
    (items : list A) : list A :=
  firstn start l ++ items ++ skipn (start + deleteCount) l.

(** Truthiness of an optional boolean flag. *)
Definition flag (b : option bool) : bool :=
  match b with Some true => true | _ => false end.

(** [s == t] where [t] is a string or [null]. *)
Definition looseEq (s : string) (t : option string) : bool :=
  match t with Some u => String.eqb s u | None => false end.

(** The predicate handed to [findIndex]. *)
Definition matches (request : RequestData) (object : HarEntry) : bool :=
  String.eqb (url (Types.request object)) (rd_url request)
  && negb (flag (rawTimings request)).

(** The entry built for a matched sample. *)
Definition updatedObject (entry : HarEntry) (request : RequestData)
    (lcpURL : option string) : HarEntry :=
  let t := timing request in
  let connectEnd :=
    if ltb 0 (rt_secureConnectionStart t)
    then rt_secureConnectionStart t
    else rt_connectEnd t in
  let secureStart :=
    if truthy (rt_secureConnectionStart t)
    then rt_secureConnectionStart t
    else -1 in
  let secureEnd :=
    if truthy (rt_secureConnectionStart t)
    then rt_connectEnd t
    else -1 in
  {| Types.request := Types.request entry;
     response := response entry;
     time := time entry;
     startedDateTime := startedDateTime entry;
     timings := timings entry;
     _dns_start := Some (rt_domainLookupStart t);
     _dns_end := Some (rt_domainLookupEnd t);
     _connect_start := Some (rt_connectStart t);
     _connect_end := Some connectEnd;
     _secure_start := Some secureStart;
     _secure_end := Some secureEnd;
     _request_start := Some (rt_requestStart t);
     _request_end := Some (rt_responseStart t);
     _response_start := Some (rt_responseStart t);
     _response_end := Some (rt_responseEnd t);
     _is_lcp :=
       if looseEq (rd_url request) lcpURL then Some true
       else _is_lcp entry |}.

(** One round of the loop over [this.requests]. *)
Definition mergeStep (lcpURL : option string) (harEntries : list HarEntry)
    (request : RequestData) : list HarEntry :=
  match findIndex (matches request) harEntries with
  | Some indexToUpdate =>
      match nth_error harEntries indexToUpdate with
      | Some entry =>
          splice harEntries indexToUpdate 1
                 [updatedObject entry request lcpURL]
      | None => harEntries
      end
  | None => harEntries
  end.

(** [mergeEntries]; [requests] is [this.requests]. *)
Definition mergeEntries (requests : list RequestData)
    (harEntries : list HarEntry) (lcpURL : option string)
  : list HarEntry :=
  fold_left (mergeStep lcpURL) requests harEntries.

(** [navTiming.responseStart - navTiming.navigationStart]; [None] is
    NaN, the difference when one of the two fields is missing. *)
Definition TTFB (navTiming : NavigationTiming) : option number :=
  match responseStart navTiming, navigationStart navTiming with
  | Some rs, Some ns => Some (rs - ns)
  | _, _ => None
  end.

(** [lcpEvents[lcpEvents.length - 1]] under the guard
    [lcpEvents && lcpEvents.length > 0]. *)
Definition lcpEvent (metrics : option Metrics) : option LCPEvent :=
  match metrics with
  | None => None
  | Some m =>
      match largestContentfulPaint m with
      | None => None
      | Some lcpEvents =>
          nth_error lcpEvents (List.length lcpEvents - 1)
      end
  end.

Definition lcpURL (metrics : option Metrics) : option string :=
  match lcpEvent metrics with
  | Some lcp =>
      match lcp_url lcp with
      | EmptyString => None
      | u => Some u
      end
  | None => None
  end.

(** The page timings after the two assignments to [pages[0]]. *)
Definition filledPageTimings (metrics : option Metrics)
    (pt : HarPageTimings) : HarPageTimings :=
  let pt :=
    match metrics with
    | Some m =>
        match navigationTiming m with
        | Some navTiming =>
            {| _TTFB := TTFB navTiming; _LCP := _LCP pt |}
        | None => pt
        end
    | None => pt
    end in
  match lcpEvent metrics with
  | Some lcp => {| _TTFB := _TTFB pt; _LCP := lcp_startTime lcp |}
  | None => pt
  end.

Definition touchesPages (metrics : option Metrics) : bool :=
  match metrics with
  | Some m =>
      match navigationTiming m, lcpEvent metrics with
      | None, None => false
      | _, _ => true
      end
  | None => false
  end.

(** [fillOutHar], from the parsed archive to the archive written back;
    an assignment to [pages[0]] throws when the archive has no page. *)
Definition fillOutHar (metrics : option Metrics)
    (requests : list RequestData) (harData : HarData)
  : outcome HarData :=
  match pages harData with
  | [] =>
      if touchesPages metrics then Thrown "TypeError"
      else
        Returned
          {| pages := [];
             har_entries :=
               mergeEntries requests (har_entries harData)
                            (lcpURL metrics) |}
  | page :: rest =>
      Returned
        {| pages :=
             {| pageTimings :=
                  filledPageTimings metrics (pageTimings page) |}
             :: rest;
           har_entries :=
             mergeEntries requests (har_entries harData)
                          (lcpURL metrics) |}
  end.

End Runner.

(** ** The two programs chained: the runner writes the archive, the report
generator reads it back *)

Module Pipeline.
Import JS Types Report Runner.

(** The archive with the single entry [e] after [mergeEntries] has run
over the live samples [requests], as [parseHarFile] receives it. *)
Definition mergedArchive (requests : list RequestData) (e : HarEntry)
    (lcpURL : option string) : HarLog :=
  mkHarLog (Some (mkHarLogBody (Some (mergeEntries requests [e] lcpURL)))).

End Pipeline.

(** ** Statements of the specification given as definitions *)

Module Stated.
Import JS Types Report.


(** "Choose the largest unit (B/KB/MB/GB) whose threshold the value
    exceeds." *)
Definition largestUnit (entry_size : number) : string :=
  if ltb 1073741824 entry_size then " GB"
  else if ltb 1048576 entry_size then " MB"
  else if ltb 1024 entry_size then " KB"
  else " B".

End Stated.

(** ** Sample data *)

Module Samples.
Import JS Types Report Runner.

(** A navigation over HTTPS with increasing boundaries. *)
Definition nav_https : NavigationTiming :=
  {| navigationStart := Some 0;
     domainLookupStart := Some 0;
     domainLookupEnd := Some 10;
     connectStart := Some 10;
     connectEnd := Some 50;
     secureConnectionStart := Some 20;
     requestStart := Some 50;
     responseStart := Some 100;
     responseEnd := Some 150;
     domLoading := Some 100;
     domInteractive := Some 300;
     domContentLoadedEventEnd := Some 350;
     domComplete := Some 400 |}.

(** A record whose load never completed: no [domComplete]. *)
Definition nav_incomplete : NavigationTiming :=
  {| navigationStart := Some 5;
     domainLookupStart := Some 5;
     domainLookupEnd := Some 10;
     connectStart := Some 10;
     connectEnd := Some 50;
     secureConnectionStart := Some 20;
     requestStart := Some 50;
     responseStart := Some 100;
     responseEnd := Some 150;
     domLoading := Some 100;
     domInteractive := None;
     domContentLoadedEventEnd := None;
     domComplete := None |}.

Definition response_html : HarResponse :=
  {| status := 200;
     _transferSize := Some 2048;
     content := {| size := 5000; mimeType := "text/html" |} |}.

(** The entry of the end-to-end scenario: three boundaries, nothing
    else. *)
Definition entry_example : HarEntry :=
  {| request := {| url := "https://example.com/"; method := "GET" |};
     response := response_html;
     time := 100;
     startedDateTime := "2026-01-01T00:00:00.000Z";
     timings := None;
     _dns_start := None;
     _dns_end := None;
     _connect_start := None;
     _connect_end := None;
     _secure_start := None;
     _secure_end := None;
     _request_start := Some 100;
     _request_end := None;
     _response_start := Some 150;
     _response_end := Some 200;
     _is_lcp := None |}.

(** An entry with every boundary filled in. *)
Definition entry_full : HarEntry :=
  {| request := {| url := "https://example.com/app.js"; method := "GET" |};
     response := response_html;
     time := 150;
     startedDateTime := "2026-01-01T00:00:00.000Z";
     timings := None;
     _dns_start := Some 0;
     _dns_end := Some 10;
     _connect_start := Some 10;
     _connect_end := Some 30;
     _secure_start := Some 30;
     _secure_end := Some 50;
     _request_start := Some 50;
     _request_end := Some 60;
     _response_start := Some 100;
     _response_end := Some 150;
     _is_lcp := None |}.

(** An entry as the recorder writes it: no boundary at all. *)
Definition entry_bare (u : string) : HarEntry :=
  {| request := {| url := u; method := "GET" |};
     response := response_html;
     time := 20;
     startedDateTime := "2026-01-01T00:00:00.000Z";
     timings := None;
     _dns_start := None;
     _dns_end := None;
     _connect_start := None;
     _connect_end := None;
     _secure_start := None;
     _secure_end := None;
     _request_start := None;
     _request_end := None;
     _response_start := None;
     _response_end := None;
     _is_lcp := None |}.

(** A date decoder that knows one instant. *)
Definition date_getTime (s : string) : option number :=
  if String.eqb s "2026-01-01T00:00:00.000Z" then Some 1767225600000
  else None.

(** A directory with a good archive, an archive without entries and a
    file that is not JSON. *)
Definition disk (p : string) : option string :=
  if String.eqb p "pageload.har" then Some "<archive>"
  else if String.eqb p "empty.har" then Some "<no entries>"
  else if String.eqb p "broken.har" then Some "{"
  else None.

Definition json_parse (data : string) : option HarLog :=
  if String.eqb data "<archive>"
  then Some (mkHarLog (Some (mkHarLogBody
                               (Some [entry_full; entry_example]))))
  else if String.eqb data "<no entries>"
  then Some (mkHarLog (Some (mkHarLogBody (Some []))))
  else None.

(** Rectangles of a layout shift: one as wide as the default viewport,
one twice as wide. *)
Definition rect_full : LayoutShiftSourceRect :=
  {| rect_x := Some 0; rect_y := Some 0;
     rect_width := Some 1920; rect_height := Some 100;
     rect_top := Some 0; rect_right := Some 1920;
     rect_bottom := Some 100; rect_left := Some 0 |}.

Definition rect_wide : LayoutShiftSourceRect :=
  {| rect_x := Some 0; rect_y := Some 0;
     rect_width := Some 3840; rect_height := Some 100;
     rect_top := Some 0; rect_right := Some 3840;
     rect_bottom := Some 100; rect_left := Some 0 |}.

Definition shift_plain : LayoutShift :=
  {| shift_startTime := Some 120;
     shift_value := Some 0.02;
     sources := Some [ {| previousRect := Some rect_full;
                          currentRect := Some rect_full |} ] |}.

Definition shift_wide : LayoutShift :=
  {| shift_startTime := Some 80;
     shift_value := Some 0.01;
     sources := Some [ {| previousRect := Some rect_full;
                          currentRect := Some rect_wide |} ] |}.

(** Two candidates reported for the largest contentful paint. *)
Definition lcp_early : LCPEvent :=
  {| lcp_startTime := Some 800; lcp_url := "https://example.com/logo.png" |}.

Definition lcp_late : LCPEvent :=
  {| lcp_startTime := Some 2600; lcp_url := "https://example.com/hero.jpg" |}.

Definition metrics_two_lcp : Metrics :=
  {| navigationTiming := Some nav_https;
     largestContentfulPaint := Some [lcp_early; lcp_late];
     layoutShifts := Some [shift_wide; shift_plain] |}.

(** Timings as the browser driver reports them: over TLS, and over plain
HTTP, where the driver reports -1 for the missing secure-connection
start. *)
Definition timing_tls : RequestTiming :=
  {| rt_startTime := 1000;
     rt_domainLookupStart := 0;
     rt_domainLookupEnd := 5;
     rt_connectStart := 5;
     rt_secureConnectionStart := 20;
     rt_connectEnd := 50;
     rt_requestStart := 50;
     rt_responseStart := 90;
     rt_responseEnd := 120 |}.

Definition timing_plain : RequestTiming :=
  {| rt_startTime := 2000;
     rt_domainLookupStart := 0;
     rt_domainLookupEnd := 5;
     rt_connectStart := 5;
     rt_secureConnectionStart := -1;
     rt_connectEnd := 50;
     rt_requestStart := 50;
     rt_responseStart := 70;
     rt_responseEnd := 95 |}.

Definition sample (u : string) (t : RequestTiming) : RequestData :=
  {| rd_url := u; timing := t; rawTimings := None |}.

(** The archive of a run as the recorder leaves it: one page, two
requests. *)
Definition har_recorded : HarData :=
  {| pages := [ {| pageTimings := {| _TTFB := None; _LCP := None |} |} ];
     har_entries := [entry_bare "https://example.com/logo.png";
                     entry_bare "https://example.com/hero.jpg"] |}.

End Samples.

(** ** More JavaScript primitives: strings, NaN, sorting *)

Module JSMore.
Import JS.

(** [s.endsWith(suffix)]. *)
Definition endsWith (s suffix : string) : bool :=
  let n := String.length s in
  let m := String.length suffix in
  (Nat.leb m n && String.eqb (substring (n - m) m s) suffix)%bool.

(** [s.split(sep)] for a separator of one character; the result is never
empty. *)
Fixpoint split (sep : ascii) (s : string) : list string :=
  match s with
  | EmptyString => [EmptyString]
  | String c t =>
      if Ascii.eqb c sep then EmptyString :: split sep t
      else
        match split sep t with
        | p :: ps => String c p :: ps
        | [] => [String c EmptyString]
        end
  end.

(** [s.replace(pattern, replacement)] for a string pattern: the first
occurrence only. *)
Fixpoint replace (pattern replacement s : string) : string :=
  if String.prefix pattern s
  then replacement
       ++ substring (String.length pattern)
                    (String.length s - String.length pattern) s
  else
    match s with
    | EmptyString => EmptyString
    | String c t => String c (replace pattern replacement t)
    end.

(** A number that may be NaN; [None] is NaN. *)
Definition jsnumber := option number.

Definition nan_lift2 (f : number -> number -> number) (a b : jsnumber)
  : jsnumber :=
  match a, b with
  | Some x, Some y => Some (f x y)
  | _, _ => None
  end.

Definition nan_add : jsnumber -> jsnumber -> jsnumber := nan_lift2 Qplus.
Definition nan_sub : jsnumber -> jsnumber -> jsnumber := nan_lift2 Qminus.
Definition nan_mul : jsnumber -> jsnumber -> jsnumber := nan_lift2 Qmult.
(** Division, used where the divisor is positive. *)
Definition nan_div : jsnumber -> jsnumber -> jsnumber := nan_lift2 Qdiv.

(** [a > b]: false when one side is NaN. *)
Definition nan_gtb (a b : jsnumber) : bool :=
  match a, b with
  | Some x, Some y => ltb y x
  | _, _ => false
  end.

(** [Math.min(x, ...xs)] and [Math.max(...xs, last)]: NaN as soon as one
argument is NaN. *)
Definition Math_min (x : jsnumber) (xs : list jsnumber) : jsnumber :=
  fold_left (nan_lift2 Qmin) xs x.

Definition Math_max (xs : list jsnumber) (last : jsnumber) : jsnumber :=
  fold_right (nan_lift2 Qmax) last xs.

(** [x.toFixed(d)] of a number that may be NaN. *)
Definition nan_toFixed (d : nat) (x : jsnumber) : string :=
  match x with
  | Some v => toFixed d v
  | None => "NaN"
  end.

(** [Number.parseInt(s)] on a string of decimal digits, for the integers
a double holds exactly (up to 2^53); above, the code rounds and this
definition does not. *)
Definition parseInt (s : string) : N :=
  match NilZero.uint_of_string s with
  | Some d => N.of_uint d
  | None => 0%N
  end.

Definition isDigit (c : ascii) : bool :=
  let n := nat_of_ascii c in (Nat.leb 48 n && Nat.leb n 57)%bool.

(** Line terminators, which [.] does not match in a regular expression. *)
Definition isLineTerminator (c : ascii) : bool :=
  let n := nat_of_ascii c in (Nat.eqb n 10 || Nat.eqb n 13)%bool.

Fixpoint takeWhile {A : Type} (p : A -> bool) (l : list A) : list A :=
  match l with
  | [] => []
  | a :: l' => if p a then a :: takeWhile p l' else []
  end.

(** The longest run of digits a string ends with. *)
Definition trailingDigits (s : string) : string :=
  string_of_list_ascii
    (rev (takeWhile isDigit (rev (list_ascii_of_string s)))).

End JSMore.

(** [files.sort()] on strings: ascending order of the character codes. *)
Module StringOrder <: Orders.TotalLeBool.
Definition t := string.
Definition leb : t -> t -> bool := String.leb.
Definition leb_total : forall x y : t, leb x y = true \/ leb y x = true :=
  String.leb_total.
End StringOrder.

Module StringSort := Mergesort.Sort StringOrder.

(** ** [processors/generate_visual_report.ts]: files of the run, network
waterfall *)

Module ReportMore.
Import JS JSMore Types Report.

(** The body of [findVideoFile] for a list of extensions; [dir] is the
listing [fs.readdirSync(basePath)]. *)
Fixpoint findByExtensions (extensions : list string) (dir : list string)
  : option string :=
  match extensions with
  | [] => None
  | ext :: extensions' =>
      match filter (fun f => endsWith f ("." ++ ext)) dir with
      | f :: _ => Some f
      | [] => findByExtensions extensions' dir
      end
  end.

Definition findVideoFile (dir : list string) : option string :=
  findByExtensions ["webm"; "mp4"] dir.

Record FilmstripImage := mkFilmstripImage {
  fi_path : string;
  fi_filename : string
}.

(** [findFilmstripImages]; [filmstrip] is the listing of the directory
[filmstrip] of the run, [None] when the directory does not exist. *)
Definition findFilmstripImages (filmstrip : option (list string))
  : list FilmstripImage :=
  match filmstrip with
  | None => []
  | Some listing =>
      let files :=
        StringSort.sort
          (filter (fun f => endsWith f ".png" || endsWith f ".jpg")
                  listing) in
      map (fun filename =>
             {| fi_path := "filmstrip/" ++ filename;
                fi_filename := filename |})
          files
  end.

(** The [timestamp] of a filmstrip image in [generateHtml]. *)
Definition filmstripTimestamp (filename : string) : string :=
  replace "_" "." (replace "frame_" "" (replace ".png" "" filename)) ++ "ms".

Record FilmstripData := mkFilmstripData {
  imagePath : string;
  timestamp : string
}.

Definition filmstripData (filmstrip : option (list string))
  : list FilmstripData :=
  map (fun img =>
         {| imagePath := fi_path img;
            timestamp := filmstripTimestamp (fi_filename img) |})
      (findFilmstripImages filmstrip).

(** The label of a network row: [filename] in the callback of
[harRequests.map]. *)
Definition rowFilename (entry_url : string) : string :=
  let urlParts :=
    split "/"%char (hd EmptyString (split "?"%char entry_url)) in
  let len := List.length urlParts in
  let filename :=
    match nth (len - 1) urlParts EmptyString with
    | EmptyString =>
        if Nat.ltb 1 len then nth (len - 2) urlParts EmptyString
        else entry_url
    | last => last
    end in
  substring 0 60 filename.

(** [entry.start_time + entry.duration]. *)
Definition endTime (entry : NetworkRequest) : jsnumber :=
  nan_add (nr_start_time entry) (Some (nr_duration entry)).

(** [startTime], the minimum of the start times of a non-empty list of
requests. *)
Definition waterfallStart (first : NetworkRequest)
    (others : list NetworkRequest) : jsnumber :=
  Math_min (nr_start_time first) (map nr_start_time others).

(** [maxEndTime]: the largest end time (or 0) minus [startTime]. *)
Definition waterfallSpan (first : NetworkRequest)
    (others : list NetworkRequest) : jsnumber :=
  nan_sub (Math_max (map endTime (first :: others)) (Some 0))
          (waterfallStart first others).

(** [maxEndTime > 0 ? (offset / maxEndTime) * 100 : 0]. *)
Definition startPctOf (startTime maxEndTime : jsnumber)
    (entry : NetworkRequest) : jsnumber :=
  let offset := nan_sub (nr_start_time entry) startTime in
  if nan_gtb maxEndTime (Some 0)
  then nan_mul (nan_div offset maxEndTime) (Some 100)
  else Some 0.

(** [maxEndTime > 0 ? (entry.duration / maxEndTime) * 100 : 0]. *)
Definition durationPctOf (maxEndTime : jsnumber) (entry : NetworkRequest)
  : jsnumber :=
  if nan_gtb maxEndTime (Some 0)
  then nan_mul (nan_div (Some (nr_duration entry)) maxEndTime) (Some 100)
  else Some 0.

(** A network waterfall row, restricted to its label and its place on
the time axis. *)
Record NetworkBar := mkNetworkBar {
  nb_url : string;
  nb_fullUrl : string;
  nb_startTime : string;
  nb_duration : string;
  nb_startPct : string;
  nb_durationPct : string
}.

Definition networkBar (startTime maxEndTime : jsnumber)
    (entry : NetworkRequest) : NetworkBar :=
  {| nb_url := rowFilename (nr_url entry);
     nb_fullUrl := nr_url entry;
     nb_startTime := nan_toFixed 0 (nr_start_time entry);
     nb_duration := toFixed 0 (nr_duration entry);
     nb_startPct := nan_toFixed 2 (startPctOf startTime maxEndTime entry);
     nb_durationPct := nan_toFixed 2 (durationPctOf maxEndTime entry) |}.

(** The rows of [networkData], for what [parseHarFile] returned. *)
Definition networkBars (harRequests : option (list NetworkRequest))
  : list NetworkBar :=
  match harRequests with
  | Some (first :: others) =>
      map (networkBar (waterfallStart first others)
                      (waterfallSpan first others))
          (first :: others)
  | _ => []
  end.

End ReportMore.

(** ** [src/testRunner.ts] and [src/helpers.ts]: filmstrip frames and test
identifiers *)

Module RunnerMore.
Import JS JSMore Types.

Record FilmstripFrame := mkFilmstripFrame {
  num : N;
  filename : string;
  ms : Z
}.

(** [filename.match(/(?<num>\d+).jpg$/)]: the group [num] of the match,
if any.  The name has to end with one character that is not a line
terminator followed by [jpg]; [num] is the longest run of digits before
that character. *)
Definition matchNum (filename : string) : option string :=
  let n := String.length filename in
  if negb (String.eqb (substring (n - 3) 3 filename) "jpg") then None
  else
    match get (n - 4) filename with
    | None => None
    | Some c =>
        if (Nat.ltb n 4 || isLineTerminator c)%bool then None
        else
          match trailingDigits (substring 0 (n - 4) filename) with
          | EmptyString => None
          | run => Some run
          end
    end.

(** [this.options.frameRate || 1]. *)
Definition frameRateOf (frameRate : option number) : number :=
  match frameRate with
  | Some r => if truthy r then r else 1
  | None => 1
  end.

(** The callback of [filmstripFiles.map]; [filename] is the path of the
frame relative to the results directory. *)
Definition frameOf (frameRate : number) (filename : string)
  : FilmstripFrame :=
  let num :=
    parseInt (match matchNum filename with Some s => s | None => "0" end) in
  {| num := num;
     filename := filename;
     ms := Math_floor (inject_Z (Z.of_N num * 1000) / frameRate) |}.

(** [frames.sort((a, b) => a.num - b.num)]: a stable sort on [num]. *)
Fixpoint insertFrame (f : FilmstripFrame) (l : list FilmstripFrame)
  : list FilmstripFrame :=
  match l with
  | [] => [f]
  | g :: l' =>
      if (num f <=? num g)%N then f :: g :: l' else g :: insertFrame f l'
  end.

Definition sortFrames (l : list FilmstripFrame) : list FilmstripFrame :=
  fold_right insertFrame [] l.

(** [resultAssets.filmstrip] as [createFilmStrip] computes it from the
frames the video tool extracted. *)
Definition createFilmStrip (frameRate : option number)
    (filmstripFiles : list string) : list FilmstripFrame :=
  sortFrames (map (frameOf (frameRateOf frameRate)) filmstripFiles).

(** [('0' + x).slice(-2)]. *)
Definition pad2 (x : nat) : string :=
  let s := "0" ++ digits (Z.of_nat x) in
  substring (String.length s - 2) 2 s.

(** [generateTestID], for the fields of the current date ([month] as
[getMonth()] returns it, from 0) and the random UUID. *)
Definition generateTestID (year month date hour minute second : nat)
    (uuid : string) : string :=
  digits (Z.of_nat year) ++ "_" ++ pad2 (month + 1) ++ "_" ++ pad2 date
  ++ "_" ++ pad2 hour ++ "_" ++ pad2 minute ++ "_" ++ pad2 second
  ++ "_" ++ uuid.

End RunnerMore.

(** ** A view of the merge, entry by entry *)

Module MergeView.
Import JS Types Runner.

(** Whether [findIndex] returns the position [i] of the entries [l] for
the sample [s]. *)
Definition selects (l : list HarEntry) (i : nat) (s : RequestData) : bool :=
  match findIndex (matches s) l with
  | Some j => Nat.eqb j i
  | None => false
  end.

(** The fields of an entry the merge copies over. *)
Definition carried (e : HarEntry)
  : HarRequest * HarResponse * number * string
    * option (list (string * number)) :=
  (request e, response e, time e, startedDateTime e, timings e).

End MergeView.

(** ** More sample data *)

Module MoreSamples.
Import JS JSMore Types Report Runner.

(** Three requests of one run: the page, a script asked for twice. *)
Definition archive3 : list HarEntry :=
  [Samples.entry_bare "https://example.com/";
   Samples.entry_bare "https://example.com/app.js";
   Samples.entry_bare "https://example.com/app.js"].

Definition samples3 : list RequestData :=
  [Samples.sample "https://example.com/app.js" Samples.timing_tls;
   Samples.sample "https://example.com/" Samples.timing_plain;
   Samples.sample "https://example.com/app.js" Samples.timing_plain].

End MoreSamples.

(** * Properties *)

(** ** Arithmetic of the JavaScript primitives *)

Module JSFacts.
Import JS.

Lemma ltb_spec (x y : number) : ltb x y = true <-> x < y.
Proof.
  unfold ltb. rewrite negb_true_iff.
  destruct (Qle_bool y x) eqn:E.
  - apply Qle_bool_iff in E. split; [discriminate | intro H; lra].
  - split; [intros _ | reflexivity].
    apply Qnot_le_lt. intro H. apply Qle_bool_iff in H. congruence.
Qed.

Lemma ltb_false (x y : number) : ltb x y = false <-> y <= x.
Proof.
  unfold ltb. rewrite negb_false_iff. apply Qle_bool_iff.
Qed.

Lemma truthy_false (x : number) : truthy x = false <-> x == 0.
Proof.
  unfold truthy. rewrite negb_false_iff. apply Qeq_bool_iff.
Qed.

Lemma orZero_Some (v : number) : orZero (Some v) == v.
Proof.
  unfold orZero. destruct (truthy v) eqn:E; [reflexivity |].
  apply truthy_false in E. symmetry. exact E.
Qed.

Lemma orZero_None : orZero None = 0.
Proof. reflexivity. Qed.

End JSFacts.

(** ** Page-level timing phases *)

Module TimingFacts.
Import JS Types Report JSFacts.

Lemma pctIf_false (num den : number) : pctIf false num den = 0.
Proof. reflexivity. Qed.

Lemma pctIf_true (num den : number) : pctIf true num den = num / den * 100.
Proof. reflexivity. Qed.

(** A guarded percentage of a part of the total lies between 0 and 100. *)
Lemma pctIf_range (x total : number) :
  0 <= x -> x <= total ->
  0 <= pctIf (ltb 0 total) x total /\ pctIf (ltb 0 total) x total <= 100.
Proof.
  intros H0 Hle. destruct (ltb 0 total) eqn:E.
  - apply ltb_spec in E. rewrite pctIf_true.
    assert (Hlo : 0 <= x / total) by (apply Qle_shift_div_l; lra).
    assert (Hhi : x / total <= 1) by (apply Qle_shift_div_r; lra).
    split; lra.
  - rewrite pctIf_false. split; lra.
Qed.

(** Guarded percentages of one total keep the order of their parts. *)
Lemma pctIf_mono (x y total : number) :
  x <= y -> pctIf (ltb 0 total) x total <= pctIf (ltb 0 total) y total.
Proof.
  intros Hle. destruct (ltb 0 total) eqn:E.
  - apply ltb_spec in E. rewrite !pctIf_true.
    assert (Hq : x / total <= y / total).
    { unfold Qdiv. apply Qmult_le_compat_r; [exact Hle |].
      apply Qinv_le_0_compat. lra. }
    lra.
  - rewrite !pctIf_false. lra.
Qed.

Lemma pct_zero_total (nav : NavigationTiming) :
  total_time (calculateTimingPhases nav) <= 0 ->
  let t := calculateTimingPhases nav in
  dns_pct t = 0 /\ tcp_pct t = 0 /\ ssl_pct t = 0 /\ request_pct t = 0
  /\ response_pct t = 0 /\ processing_pct t = 0
  /\ dom_content_pct t = 0 /\ complete_pct t = 0.
Proof.
  intros Hle.
  cbn [calculateTimingPhases dns_pct tcp_pct ssl_pct request_pct
       response_pct processing_pct dom_content_pct complete_pct
       total_time] in *.
  apply ltb_false in Hle. rewrite Hle. repeat split; reflexivity.
Qed.

End TimingFacts.

Module C2.
Import JS Types Report JSFacts TimingFacts.

(** C2, as stated, fails: for the HTTPS navigation [Samples.nav_https],
    whose boundaries increase along the load, the eight percentages add
    up to 120: the ssl phase lies inside the tcp phase and DOM
    processing starts before the response ends. *)
Lemma timing_pct_sum_exceeds_100 :
  pct_sum (calculateTimingPhases Samples.nav_https) == 120
  /\ ~ (forall nav : NavigationTiming,
           pct_sum (calculateTimingPhases nav) <= 100).
Proof.
  assert (E : pct_sum (calculateTimingPhases Samples.nav_https) == 120)
    by (vm_compute; reflexivity).
  split; [exact E |].
  intro H. specialize (H Samples.nav_https). rewrite E in H. lra.
Qed.

(** C2, amended: when the total load time is 0 or negative every
    page-level percentage is exactly 0; when it is positive each
    percentage is its own phase duration divided by the total, times 100;
    and for a record whose boundaries follow the order of the load each
    single percentage lies between 0 and 100, the ssl percentage being
    at most the tcp percentage, inside which it is counted.  Nothing
    bounds the sum of the eight. *)
Theorem timing_percentages (nav : NavigationTiming) :
  (total_time (calculateTimingPhases nav) <= 0 ->
   dns_pct (calculateTimingPhases nav) = 0
   /\ tcp_pct (calculateTimingPhases nav) = 0
   /\ ssl_pct (calculateTimingPhases nav) = 0
   /\ request_pct (calculateTimingPhases nav) = 0
   /\ response_pct (calculateTimingPhases nav) = 0
   /\ processing_pct (calculateTimingPhases nav) = 0
   /\ dom_content_pct (calculateTimingPhases nav) = 0
   /\ complete_pct (calculateTimingPhases nav) = 0)
  /\ (0 < total_time (calculateTimingPhases nav) ->
      let t := calculateTimingPhases nav in
      dns_pct t = dns_time t / total_time t * 100
      /\ tcp_pct t = tcp_time t / total_time t * 100
      /\ ssl_pct t = ssl_time t / total_time t * 100
      /\ request_pct t = request_time t / total_time t * 100
      /\ response_pct t = response_time t / total_time t * 100
      /\ processing_pct t = dom_processing t / total_time t * 100
      /\ dom_content_pct t = dom_content_loaded t / total_time t * 100
      /\ complete_pct t = complete_load t / total_time t * 100)
  /\ (boundariesInOrder nav ->
      let t := calculateTimingPhases nav in
      (0 <= dns_pct t /\ dns_pct t <= 100)
      /\ (0 <= tcp_pct t /\ tcp_pct t <= 100)
      /\ (0 <= ssl_pct t /\ ssl_pct t <= 100)
      /\ (0 <= request_pct t /\ request_pct t <= 100)
      /\ (0 <= response_pct t /\ response_pct t <= 100)
      /\ (0 <= processing_pct t /\ processing_pct t <= 100)
      /\ (0 <= dom_content_pct t /\ dom_content_pct t <= 100)
      /\ (0 <= complete_pct t /\ complete_pct t <= 100)
      /\ ssl_pct t <= tcp_pct t).
Proof.
  split; [| split].
  - intro Hle. exact (pct_zero_total nav Hle).
  - intros Hpos t. subst t.
    cbn [calculateTimingPhases dns_pct tcp_pct ssl_pct request_pct
         response_pct processing_pct dom_content_pct complete_pct
         dns_time tcp_time ssl_time request_time response_time
         dom_processing dom_content_loaded complete_load total_time] in *.
    apply ltb_spec in Hpos. rewrite Hpos. repeat split; reflexivity.
  - intros Hord t. subst t.
    destruct Hord as (H0 & H1 & H2 & H3 & H4 & H5 & H6 & H7 & H8 & H9
                      & H10 & H11 & H12 & H13).
    cbn [calculateTimingPhases dns_pct tcp_pct ssl_pct request_pct
         response_pct processing_pct dom_content_pct complete_pct
         total_time].
    repeat match goal with
           | |- _ /\ _ => split
           end;
      try (apply pctIf_range; lra);
      try (apply pctIf_mono; lra).
Qed.

(** On [Samples.nav_incomplete], whose total is -5, and on
[Samples.nav_https], whose total is 400 and whose boundaries are in
order. *)
Lemma timing_percentages_witness :
  (dns_pct (calculateTimingPhases Samples.nav_incomplete) = 0
   /\ tcp_pct (calculateTimingPhases Samples.nav_incomplete) = 0
   /\ ssl_pct (calculateTimingPhases Samples.nav_incomplete) = 0
   /\ request_pct (calculateTimingPhases Samples.nav_incomplete) = 0
   /\ response_pct (calculateTimingPhases Samples.nav_incomplete) = 0
   /\ processing_pct (calculateTimingPhases Samples.nav_incomplete) = 0
   /\ dom_content_pct (calculateTimingPhases Samples.nav_incomplete) = 0
   /\ complete_pct (calculateTimingPhases Samples.nav_incomplete) = 0)
  /\ tcp_pct (calculateTimingPhases Samples.nav_https)
     = tcp_time (calculateTimingPhases Samples.nav_https)
       / total_time (calculateTimingPhases Samples.nav_https) * 100
  /\ tcp_pct (calculateTimingPhases Samples.nav_https) <= 100
  /\ ssl_pct (calculateTimingPhases Samples.nav_https)
     <= tcp_pct (calculateTimingPhases Samples.nav_https).
Proof.
  assert (Hord : boundariesInOrder Samples.nav_https).
  { unfold boundariesInOrder. repeat split; vm_compute; discriminate. }
  split; [| split; [| split]].
  - apply (proj1 (timing_percentages Samples.nav_incomplete)).
    vm_compute. discriminate.
  - refine (proj1 (proj2 (proj1 (proj2 (timing_percentages
                                          Samples.nav_https)) _))).
    vm_compute. reflexivity.
  - exact (proj2 (proj1 (proj2 (proj2 (proj2 (timing_percentages
                                                Samples.nav_https)) Hord)))).
  - exact (proj2 (proj2 (proj2 (proj2 (proj2 (proj2 (proj2 (proj2
            (proj2 (proj2 (timing_percentages Samples.nav_https))
                   Hord))))))))).
Defined.

End C2.

(** ** The archive parser *)

Module ParserFacts.
Import JS Types Report JSFacts TimingFacts.

Lemma orString_empty (s : string) : orString s "" = s.
Proof. destruct s; reflexivity. Qed.

Lemma parseEntry_url (g : string -> option number) (ps : option string)
    (e : HarEntry) :
  nr_url (parseEntry g ps e) = url (request e).
Proof. cbn. apply orString_empty. Qed.

Lemma map_parseEntry_urls (g : string -> option number)
    (ps : option string) (es : list HarEntry) :
  Forall2 (fun e r => nr_url r = url (request e))
          es (map (parseEntry g ps) es).
Proof.
  induction es as [| e es IH]; cbn [map]; constructor.
  - apply parseEntry_url.
  - exact IH.
Qed.

Lemma parseHarData_empty (g : string -> option number) (har : HarLog) :
  archiveEntries har = [] -> parseHarData g har = None.
Proof. unfold parseHarData. intros ->. reflexivity. Qed.

Lemma parseHarData_records (g : string -> option number) (har : HarLog) :
  archiveEntries har <> [] ->
  exists ps, parseHarData g har
             = Some (map (parseEntry g ps) (archiveEntries har)).
Proof.
  unfold parseHarData. destruct (archiveEntries har) as [| e es].
  - intros H. contradiction H. reflexivity.
  - intros _. eexists. reflexivity.
Qed.

End ParserFacts.

Module C9.
Import JS Types Report ParserFacts.

(** C9: [parseHarFile] never throws; it returns [null] when the file is
    absent, when its contents are not parsable JSON and when the
    archive has no entries; otherwise it returns one record per entry,
    in the order of the entries. *)
Theorem parseHarFile_null_or_records
    (fs : string -> option string)
    (JSON_parse : string -> option HarLog)
    (Date_getTime : string -> option number) (harPath : string) :
  (exists r, parseHarFile fs JSON_parse Date_getTime harPath = Returned r)
  /\ (fs harPath = None ->
      parseHarFile fs JSON_parse Date_getTime harPath = Returned None)
  /\ (forall data, fs harPath = Some data -> JSON_parse data = None ->
      parseHarFile fs JSON_parse Date_getTime harPath = Returned None)
  /\ (forall data har,
        fs harPath = Some data -> JSON_parse data = Some har ->
        archiveEntries har = [] ->
        parseHarFile fs JSON_parse Date_getTime harPath = Returned None)
  /\ (forall data har,
        fs harPath = Some data -> JSON_parse data = Some har ->
        archiveEntries har <> [] ->
        exists rs,
          parseHarFile fs JSON_parse Date_getTime harPath
          = Returned (Some rs)
          /\ List.length rs = List.length (archiveEntries har)
          /\ Forall2 (fun e r => nr_url r = url (request e))
                     (archiveEntries har) rs).
Proof.
  unfold parseHarFile, parseHarTry, loadJsonFile, existsSync.
  repeat split.
  - destruct (fs harPath) as [data |]; cbn; [| eexists; reflexivity].
    destruct (JSON_parse data); eexists; reflexivity.
  - intros ->. reflexivity.
  - intros data -> ->. reflexivity.
  - intros data har -> -> Hnil. cbn.
    rewrite (parseHarData_empty Date_getTime har Hnil). reflexivity.
  - intros data har -> -> Hne. cbn.
    destruct (parseHarData_records Date_getTime har Hne) as [ps ->].
    eexists. split; [reflexivity |]. split.
    + apply length_map.
    + apply map_parseEntry_urls.
Qed.

(** On the directory [Samples.disk]: a missing file, a file that is not
JSON, an archive without entries and an archive with two entries. *)
Lemma parseHarFile_null_or_records_witness :
  parseHarFile Samples.disk Samples.json_parse Samples.date_getTime
               "missing.har" = Returned None
  /\ parseHarFile Samples.disk Samples.json_parse Samples.date_getTime
                  "broken.har" = Returned None
  /\ parseHarFile Samples.disk Samples.json_parse Samples.date_getTime
                  "empty.har" = Returned None
  /\ exists rs,
       parseHarFile Samples.disk Samples.json_parse Samples.date_getTime
                    "pageload.har" = Returned (Some rs)
       /\ List.length rs = 2%nat.
Proof.
  split; [| split; [| split]].
  - apply (proj1 (proj2 (parseHarFile_null_or_records
                           Samples.disk Samples.json_parse
                           Samples.date_getTime "missing.har"))).
    reflexivity.
  - apply (proj1 (proj2 (proj2 (parseHarFile_null_or_records
                                  Samples.disk Samples.json_parse
                                  Samples.date_getTime "broken.har")))
             "{"); reflexivity.
  - apply (proj1 (proj2 (proj2 (proj2 (parseHarFile_null_or_records
                                  Samples.disk Samples.json_parse
                                  Samples.date_getTime "empty.har"))))
             "<no entries>"
             (mkHarLog (Some (mkHarLogBody (Some []))))); reflexivity.
  - destruct (proj2 (proj2 (proj2 (proj2 (parseHarFile_null_or_records
                                  Samples.disk Samples.json_parse
                                  Samples.date_getTime "pageload.har"))))
                "<archive>"
                (mkHarLog (Some (mkHarLogBody
                   (Some [Samples.entry_full; Samples.entry_example]))))
                eq_refl eq_refl)
      as [rs [Hrs [Hlen _]]].
    + discriminate.
    + exists rs. split; [exact Hrs | exact Hlen].
Defined.

End C9.

Module C7.
Import JS Types Report JSFacts TimingFacts.

Lemma and_ltb_false_r (a b : number) :
  b <= 0 -> (ltb 0 a && ltb 0 b)%bool = false.
Proof. intros Hb. apply andb_false_iff. right. apply ltb_false, Hb. Qed.

(** C7: in the record [parseHarFile] builds for an entry, the send,
    wait and receive percentages are duration / total * 100 whenever
    total > 0; the DNS, connect and SSL percentages are
    duration / total * 100 when total > 0 and their own duration is
    positive, and 0 when their own duration is 0 or negative; every
    percentage is 0 when total is 0 or negative. *)
Theorem request_percentages
    (Date_getTime : string -> option number) (pageStart : option string)
    (entry : HarEntry) :
  (0 < rq_total_time (nr_timings (parseEntry Date_getTime pageStart entry))
   ->
   rq_send_pct (nr_timings (parseEntry Date_getTime pageStart entry))
   = rq_send_time (nr_timings (parseEntry Date_getTime pageStart entry))
     / rq_total_time (nr_timings (parseEntry Date_getTime pageStart entry))
     * 100
   /\ rq_wait_pct (nr_timings (parseEntry Date_getTime pageStart entry))
      = rq_wait_time (nr_timings (parseEntry Date_getTime pageStart entry))
        / rq_total_time
            (nr_timings (parseEntry Date_getTime pageStart entry))
        * 100
   /\ rq_receive_pct (nr_timings (parseEntry Date_getTime pageStart entry))
      = rq_receive_time
          (nr_timings (parseEntry Date_getTime pageStart entry))
        / rq_total_time
            (nr_timings (parseEntry Date_getTime pageStart entry))
        * 100
   /\ (0 < rq_dns_time
             (nr_timings (parseEntry Date_getTime pageStart entry)) ->
       rq_dns_pct (nr_timings (parseEntry Date_getTime pageStart entry))
       = rq_dns_time (nr_timings (parseEntry Date_getTime pageStart entry))
         / rq_total_time
             (nr_timings (parseEntry Date_getTime pageStart entry))
         * 100)
   /\ (0 < rq_connect_time
             (nr_timings (parseEntry Date_getTime pageStart entry)) ->
       rq_connect_pct
         (nr_timings (parseEntry Date_getTime pageStart entry))
       = rq_connect_time
           (nr_timings (parseEntry Date_getTime pageStart entry))
         / rq_total_time
             (nr_timings (parseEntry Date_getTime pageStart entry))
         * 100)
   /\ (0 < rq_ssl_time
             (nr_timings (parseEntry Date_getTime pageStart entry)) ->
       rq_ssl_pct (nr_timings (parseEntry Date_getTime pageStart entry))
       = rq_ssl_time (nr_timings (parseEntry Date_getTime pageStart entry))
         / rq_total_time
             (nr_timings (parseEntry Date_getTime pageStart entry))
         * 100))
  /\ (rq_total_time (nr_timings (parseEntry Date_getTime pageStart entry))
      <= 0 ->
      rq_dns_pct (nr_timings (parseEntry Date_getTime pageStart entry)) = 0
      /\ rq_connect_pct
           (nr_timings (parseEntry Date_getTime pageStart entry)) = 0
      /\ rq_ssl_pct
           (nr_timings (parseEntry Date_getTime pageStart entry)) = 0
      /\ rq_send_pct
           (nr_timings (parseEntry Date_getTime pageStart entry)) = 0
      /\ rq_wait_pct
           (nr_timings (parseEntry Date_getTime pageStart entry)) = 0
      /\ rq_receive_pct
           (nr_timings (parseEntry Date_getTime pageStart entry)) = 0)
  /\ (rq_dns_time (nr_timings (parseEntry Date_getTime pageStart entry))
      <= 0 ->
      rq_dns_pct (nr_timings (parseEntry Date_getTime pageStart entry)) = 0)
  /\ (rq_connect_time
        (nr_timings (parseEntry Date_getTime pageStart entry)) <= 0 ->
      rq_connect_pct
        (nr_timings (parseEntry Date_getTime pageStart entry)) = 0)
  /\ (rq_ssl_time (nr_timings (parseEntry Date_getTime pageStart entry))
      <= 0 ->
      rq_ssl_pct (nr_timings (parseEntry Date_getTime pageStart entry)) = 0).
Proof.
  cbn [parseEntry nr_timings rq_total_time rq_send_pct rq_wait_pct
       rq_receive_pct rq_dns_pct rq_connect_pct rq_ssl_pct rq_send_time
       rq_wait_time rq_receive_time rq_dns_time rq_connect_time
       rq_ssl_time].
  split; [| split; [| split; [| split]]].
  - intros Hpos. apply ltb_spec in Hpos as Hb. rewrite Hb.
    repeat split; try reflexivity.
    + intros Hd. apply ltb_spec in Hd. rewrite Hd. reflexivity.
    + intros Hd. apply ltb_spec in Hd. rewrite Hd. reflexivity.
    + intros Hd. apply ltb_spec in Hd. rewrite Hd. reflexivity.
  - intros Hle. apply ltb_false in Hle as Hb. rewrite Hb.
    cbn [andb]. repeat split; reflexivity.
  - intros Hd. rewrite (and_ltb_false_r _ _ Hd). reflexivity.
  - intros Hd. rewrite (and_ltb_false_r _ _ Hd). reflexivity.
  - intros Hd. rewrite (and_ltb_false_r _ _ Hd). reflexivity.
Qed.

(** On [Samples.entry_full], with a positive total and positive DNS,
connect and SSL durations, and on [Samples.entry_bare], whose total
is 0. *)
Lemma request_percentages_witness :
  (rq_send_pct (nr_timings (parseEntry Samples.date_getTime None
                                       Samples.entry_full)) == 10
   /\ rq_wait_pct (nr_timings (parseEntry Samples.date_getTime None
                                          Samples.entry_full)) == 40
   /\ rq_dns_pct (nr_timings (parseEntry Samples.date_getTime None
                                         Samples.entry_full)) == 10)
  /\ rq_receive_pct (nr_timings (parseEntry Samples.date_getTime None
                                   (Samples.entry_bare "u"))) = 0
  /\ rq_ssl_pct (nr_timings (parseEntry Samples.date_getTime None
                               (Samples.entry_bare "u"))) = 0.
Proof.
  pose proof (request_percentages Samples.date_getTime None
                                     Samples.entry_full) as Hfull.
  pose proof (request_percentages Samples.date_getTime None
                                     (Samples.entry_bare "u")) as Hbare.
  destruct Hfull as [Hpos _].
  destruct Hbare as [_ [Hzero [_ [_ Hssl]]]].
  split; [| split].
  - destruct Hpos as [Hsend [Hwait [_ [Hdns _]]]].
    + vm_compute. reflexivity.
    + split; [| split].
      * rewrite Hsend. vm_compute. reflexivity.
      * rewrite Hwait. vm_compute. reflexivity.
      * rewrite Hdns; vm_compute; reflexivity.
  - destruct Hzero as [_ [_ [_ [_ [_ Hrecv]]]]].
    + vm_compute. discriminate.
    + exact Hrecv.
  - apply Hssl. vm_compute. discriminate.
Defined.

End C7.

(** ** The end-to-end scenario *)

Module C3.
Import JS Types Report Runner Pipeline JSFacts.

(** C3, as stated, fails: the entry has no request-end boundary, the
missing boundary counts as 0, and the wait phase runs from it to the
response start: wait_time is 150, not 50 (and send_time is -100). *)
Lemma example_wait_time_is_150 :
  exists r,
    parseHarData Samples.date_getTime
                 (mergedArchive [] Samples.entry_example None) = Some [r]
    /\ rq_wait_time (nr_timings r) == 150
    /\ rq_send_time (nr_timings r) == -100
    /\ ~ rq_wait_time (nr_timings r) == 50.
Proof.
  eexists. split; [reflexivity |].
  split; [vm_compute; reflexivity |].
  split; [vm_compute; reflexivity |].
  vm_compute. discriminate.
Qed.

(** C3, amended: for an archive with exactly one entry with url
"https://example.com/", request start 100, response start 150,
response end 200 and no DNS/connect/secure boundary, merged with no
live sample, the record has receive_time=50, total_time=100, dns_time=0,
dns_pct=0, and wait_time = 150 minus the request-end boundary of the
entry, that is 150 when the entry carries no request-end boundary. *)
Theorem example_archive_record
    (Date_getTime : string -> option number)
    (m : string) (resp : HarResponse) (t : number) (started : string)
    (tm : option (list (string * number))) (requestEnd : option number)
    (isLcp : option bool) (lcpURL : option string) :
  exists r,
    parseHarData Date_getTime
      (mergedArchive []
         (mkHarEntry (mkHarRequest "https://example.com/" m) resp t started
                     tm None None None None None None
                     (Some 100) requestEnd (Some 150) (Some 200) isLcp)
         lcpURL)
    = Some [r]
    /\ nr_url r = "https://example.com/"
    /\ rq_wait_time (nr_timings r) == 150 - orZero requestEnd
    /\ (requestEnd = None -> rq_wait_time (nr_timings r) == 150)
    /\ rq_receive_time (nr_timings r) == 50
    /\ rq_total_time (nr_timings r) == 100
    /\ rq_dns_time (nr_timings r) == 0
    /\ rq_dns_pct (nr_timings r) = 0.
Proof.
  eexists. split; [reflexivity |].
  cbn [parseEntry nr_url nr_timings rq_wait_time rq_receive_time
       rq_total_time rq_dns_time rq_dns_pct request url _dns_start _dns_end
       _request_start _request_end _response_start _response_end].
  split; [reflexivity |].
  split; [vm_compute orZero at 1; lra |].
  split; [intros ->; vm_compute; reflexivity |].
  split; [vm_compute; reflexivity |].
  split; [vm_compute; reflexivity |].
  split; [vm_compute; reflexivity |].
  vm_compute. reflexivity.
Qed.

(** On [Samples.entry_example], which has no request-end boundary. *)
Lemma example_archive_record_witness :
  exists r,
    parseHarData Samples.date_getTime
                 (mergedArchive [] Samples.entry_example None) = Some [r]
    /\ rq_wait_time (nr_timings r) == 150.
Proof.
  destruct (example_archive_record
              Samples.date_getTime "GET" Samples.response_html 100
              "2026-01-01T00:00:00.000Z" None None None None)
    as [r [Hr [_ [_ [Hwait _]]]]].
  exists r. split; [exact Hr | apply Hwait; reflexivity].
Defined.

End C3.


(** ** Network rows: the size column *)

Module C4.
Import JS Types Report.

(** C4 fails on the code: the thresholds are tested in ascending order in
an if / else-if chain, so every size above 1024 takes the KB branch and
the MB and GB branches are never reached.  Formatting 2048 and 500 gives
"2 KB" and "500 B", but formatting 1572864 gives "1,536 KB", where the
unit rule of the claim selects MB. *)
Theorem size_unit_stops_at_KB :
  (forall entry_size : number,
      snd (sizeAndSuffix entry_size) = " KB"
      \/ snd (sizeAndSuffix entry_size) = " B")
  /\ sizeStr 2048 = "2 KB"
  /\ sizeStr 500 = "500 B"
  /\ sizeStr 1572864 = "1,536 KB"
  /\ Stated.largestUnit 1572864 = " MB".
Proof.
  split.
  - intro entry_size. unfold sizeAndSuffix.
    destruct (ltb 1024 entry_size) eqn:E1; [left; reflexivity |].
    apply JSFacts.ltb_false in E1.
    assert (E2 : ltb 1048576 entry_size = false)
      by (apply JSFacts.ltb_false; lra).
    assert (E3 : ltb 1073741824 entry_size = false)
      by (apply JSFacts.ltb_false; lra).
    rewrite E2, E3. right. reflexivity.
  - repeat split; vm_compute; reflexivity.
Qed.

End C4.

(** ** Web vitals of the report *)

Module C8.
Import JS Types Report.

(** C8 fails on the code: the TTFB of the report is
[timing.response_time], the time from the first to the last byte of the
response (responseEnd - responseStart); [fillOutHar] computes the TTFB
of the same navigation record as responseStart - navigationStart.  For
[Samples.nav_https] the report shows 50 and [fillOutHar] writes 100 into
the archive. *)
Theorem report_ttfb_is_response_duration :
  (forall (nav : NavigationTiming) (lcps : option (list LCPEvent))
          (shifts : option (list LayoutShift))
          (har : option (list NetworkRequest)),
      ttfbValue (mkMetrics (Some nav) lcps shifts)
      = orZero (responseEnd nav) - orZero (responseStart nav)
      /\ ttfb (generateHtml (mkMetrics (Some nav) lcps shifts) har)
         = toFixed 0 (orZero (responseEnd nav) - orZero (responseStart nav)))
  /\ ttfb (generateHtml Samples.metrics_two_lcp None) = "50"
  /\ Runner.TTFB Samples.nav_https = Some 100
  /\ (exists out page rest,
         Runner.fillOutHar (Some Samples.metrics_two_lcp) []
                           Samples.har_recorded = Returned out
         /\ pages out = page :: rest
         /\ _TTFB (pageTimings page) = Some 100).
Proof.
  split; [intros; split; reflexivity |].
  split; [vm_compute; reflexivity |].
  split; [vm_compute; reflexivity |].
  eexists. eexists. eexists.
  split; [reflexivity |]. split; [reflexivity |].
  vm_compute. reflexivity.
Qed.

End C8.

(** ** The merge of live samples into the archive *)

Module MergeFacts.
Import JS Types Runner JSFacts.

Lemma truthy_true (x : number) : truthy x = true <-> ~ x == 0.
Proof.
  unfold truthy. rewrite negb_true_iff. split.
  - intros E H. apply Qeq_bool_iff in H. congruence.
  - intros H. destruct (Qeq_bool x 0) eqn:E; [| reflexivity].
    apply Qeq_bool_iff in E. contradiction.
Qed.

Lemma updatedObject_request (e : HarEntry) (s : RequestData)
    (lcpURL : option string) :
  request (updatedObject e s lcpURL) = request e.
Proof. reflexivity. Qed.

Lemma matches_true (s : RequestData) (e : HarEntry) :
  url (request e) = rd_url s -> flag (rawTimings s) = false ->
  matches s e = true.
Proof.
  intros Hu Hf. unfold matches. rewrite Hu, Hf, String.eqb_refl. reflexivity.
Qed.

Lemma matches_url (s : RequestData) (e : HarEntry) :
  matches s e = true -> url (request e) = rd_url s.
Proof.
  unfold matches. intros H. apply andb_true_iff in H as [H _].
  apply String.eqb_eq, H.
Qed.

(** A sample whose URL is the URL of the head entry replaces the head
entry, whatever the head entry already holds. *)
Lemma mergeStep_head (lcpURL : option string) (e : HarEntry)
    (rest : list HarEntry) (s : RequestData) :
  url (request e) = rd_url s -> flag (rawTimings s) = false ->
  mergeStep lcpURL (e :: rest) s = updatedObject e s lcpURL :: rest.
Proof.
  intros Hu Hf. unfold mergeStep. cbn [findIndex].
  rewrite (matches_true s e Hu Hf). reflexivity.
Qed.

Lemma findIndex_Some {A : Type} (p : A -> bool) (l : list A) (i : nat) :
  findIndex p l = Some i ->
  exists a, nth_error l i = Some a /\ p a = true.
Proof.
  revert i. induction l as [| a l IH]; intros i H; cbn in H.
  - discriminate.
  - destruct (p a) eqn:E.
    + injection H as <-. exists a. split; [reflexivity | exact E].
    + destruct (findIndex p l) as [j |]; cbn in H; [| discriminate].
      injection H as <-. exact (IH j eq_refl).
Qed.

Lemma In_firstn {A : Type} (n : nat) (l : list A) (y : A) :
  In y (firstn n l) -> In y l.
Proof.
  intros H. rewrite <- (firstn_skipn n l). apply in_or_app. left. exact H.
Qed.

Lemma In_skipn {A : Type} (n : nat) (l : list A) (y : A) :
  In y (skipn n l) -> In y l.
Proof.
  intros H. rewrite <- (firstn_skipn n l). apply in_or_app. right. exact H.
Qed.

Lemma In_splice_one {A : Type} (l : list A) (i : nat) (x y : A) :
  In y (splice l i 1 [x]) -> y = x \/ In y l.
Proof.
  unfold splice. intros H. apply in_app_or in H as [H | H].
  - right. exact (In_firstn _ _ _ H).
  - cbn [app] in H. destruct H as [H | H]; [left; symmetry; exact H |].
    right. exact (In_skipn _ _ _ H).
Qed.

(** An entry of the list after one round is an entry of the list before
it, or the update of a matching entry. *)
Lemma In_mergeStep (lcpURL : option string) (l : list HarEntry)
    (s : RequestData) (e : HarEntry) :
  In e (mergeStep lcpURL l s) ->
  In e l
  \/ exists e0, In e0 l /\ matches s e0 = true
                /\ e = updatedObject e0 s lcpURL.
Proof.
  unfold mergeStep. destruct (findIndex (matches s) l) as [i |] eqn:Ei.
  - destruct (findIndex_Some _ _ _ Ei) as [e0 [Hn Hm]]. rewrite Hn.
    intros H. apply In_splice_one in H as [H | H]; [| left; exact H].
    right. exists e0. split; [exact (nth_error_In _ _ Hn) |].
    split; [exact Hm | exact H].
  - intros H. left. exact H.
Qed.

(** An entry flagged after the merge has the LCP URL, or its URL was
already flagged in the archive. *)
Lemma flagged_after_merge (lcpURL : option string)
    (requests : list RequestData) :
  forall (l : list HarEntry) (e : HarEntry),
    In e (mergeEntries requests l lcpURL) -> _is_lcp e = Some true ->
    lcpURL = Some (url (request e))
    \/ exists e0, In e0 l /\ url (request e0) = url (request e)
                  /\ _is_lcp e0 = Some true.
Proof.
  unfold mergeEntries.
  induction requests as [| s requests IH]; intros l e Hin Hflag.
  - right. exists e. cbn in Hin. auto.
  - cbn [fold_left] in Hin.
    destruct (IH _ _ Hin Hflag) as [H | [e1 [Hin1 [Hurl1 Hflag1]]]];
      [left; exact H |].
    apply In_mergeStep in Hin1 as [Hin1 | [e0 [Hin0 [Hm Heq]]]].
    + right. exists e1. auto.
    + subst e1. cbn [updatedObject _is_lcp request] in Hflag1, Hurl1.
      destruct (looseEq (rd_url s) lcpURL) eqn:El.
      * left. unfold looseEq in El. destruct lcpURL as [u |];
          [| discriminate].
        apply String.eqb_eq in El. subst u.
        rewrite <- Hurl1, (matches_url _ _ Hm). reflexivity.
      * right. exists e0. auto.
Qed.

End MergeFacts.

Module C1.
Import JS Types Runner MergeFacts.

(** C1 fails on the code: the predicate of [findIndex] tests the URL and
the [rawTimings] flag of the live sample, which nothing sets; it never
looks at whether the archive entry was already updated.  Samples for the
URL of the first entry therefore all update the first entry, one over
the other, and the entries after it, same URL or not, stay as they
were. *)
Theorem same_url_samples_all_update_first_entry
    (lcpURL : option string) (samples : list RequestData)
    (e0 : HarEntry) (rest : list HarEntry) :
  Forall (fun s => rd_url s = url (request e0)
                   /\ flag (rawTimings s) = false) samples ->
  mergeEntries samples (e0 :: rest) lcpURL
  = fold_left (fun e s => updatedObject e s lcpURL) samples e0 :: rest.
Proof.
  unfold mergeEntries. revert e0.
  induction samples as [| s samples IH]; intros e0 Hall.
  - reflexivity.
  - inversion Hall as [| s' l' [Hu Hf] Hall']; subst.
    cbn [fold_left].
    rewrite (mergeStep_head lcpURL e0 rest s);
      [| symmetry; exact Hu | exact Hf].
    apply IH. exact Hall'.
Qed.

(** Two entries and two samples for one URL: the first entry ends up with
the timings of the second sample, the second entry with none. *)
Lemma same_url_samples_all_update_first_entry_witness :
  mergeEntries
    [Samples.sample "https://example.com/a.js" Samples.timing_tls;
     Samples.sample "https://example.com/a.js" Samples.timing_plain]
    [Samples.entry_bare "https://example.com/a.js";
     Samples.entry_bare "https://example.com/a.js"]
    None
  = [updatedObject
       (updatedObject
          (Samples.entry_bare "https://example.com/a.js")
          (Samples.sample "https://example.com/a.js" Samples.timing_tls)
          None)
       (Samples.sample "https://example.com/a.js" Samples.timing_plain)
       None;
     Samples.entry_bare "https://example.com/a.js"].
Proof.
  apply (same_url_samples_all_update_first_entry
           None
           [Samples.sample "https://example.com/a.js" Samples.timing_tls;
            Samples.sample "https://example.com/a.js" Samples.timing_plain]
           (Samples.entry_bare "https://example.com/a.js")
           [Samples.entry_bare "https://example.com/a.js"]).
  repeat constructor.
Defined.

End C1.

Module C6.
Import JS Types Runner JSFacts MergeFacts.

(** The parts of C6 the code keeps: a positive secure-connection start
becomes the connect end and opens the secure phase, which ends at the
connect end of the sample; a secure-connection start of 0 gives -1 for
both secure boundaries. *)
Lemma secure_boundaries_positive (e : HarEntry) (s : RequestData)
    (lcpURL : option string) :
  0 < rt_secureConnectionStart (timing s) ->
  _connect_end (updatedObject e s lcpURL)
  = Some (rt_secureConnectionStart (timing s))
  /\ _secure_start (updatedObject e s lcpURL)
     = Some (rt_secureConnectionStart (timing s))
  /\ _secure_end (updatedObject e s lcpURL) = Some (rt_connectEnd (timing s)).
Proof.
  intros Hpos. cbn [updatedObject _connect_end _secure_start _secure_end].
  apply ltb_spec in Hpos as Hb. rewrite Hb.
  assert (Ht : truthy (rt_secureConnectionStart (timing s)) = true)
    by (apply truthy_true; intro Hz; rewrite Hz in Hpos; lra).
  rewrite Ht. repeat split; reflexivity.
Qed.

Lemma secure_boundaries_zero (e : HarEntry) (s : RequestData)
    (lcpURL : option string) :
  rt_secureConnectionStart (timing s) == 0 ->
  _connect_end (updatedObject e s lcpURL) = Some (rt_connectEnd (timing s))
  /\ _secure_start (updatedObject e s lcpURL) = Some (-1)
  /\ _secure_end (updatedObject e s lcpURL) = Some (-1).
Proof.
  intros Hz. cbn [updatedObject _connect_end _secure_start _secure_end].
  assert (Hb : ltb 0 (rt_secureConnectionStart (timing s)) = false)
    by (apply ltb_false; lra).
  apply truthy_false in Hz. rewrite Hb, Hz. repeat split; reflexivity.
Qed.

(** C6 fails on the code: connect-end is chosen with the test
[secureConnectionStart > 0], secure-start and secure-end with the
truthiness of [secureConnectionStart].  For a sample without a
secure connection, whose secure-connection start the browser driver
reports as -1, the two tests disagree: the enriched entry gets the
connect end of the sample as its secure-end, not -1, and a secure phase
from -1 to the connect end. *)
Theorem negative_secure_start_sets_secure_end
    (e : HarEntry) (s : RequestData) (lcpURL : option string) :
  url (request e) = rd_url s -> flag (rawTimings s) = false ->
  rt_secureConnectionStart (timing s) < 0 ->
  exists e',
    mergeEntries [s] [e] lcpURL = [e']
    /\ _connect_end e' = Some (rt_connectEnd (timing s))
    /\ _secure_start e' = Some (rt_secureConnectionStart (timing s))
    /\ _secure_end e' = Some (rt_connectEnd (timing s)).
Proof.
  intros Hu Hf Hneg. exists (updatedObject e s lcpURL).
  split.
  - unfold mergeEntries. cbn [fold_left].
    apply mergeStep_head; assumption.
  - cbn [updatedObject _connect_end _secure_start _secure_end].
    assert (Hb : ltb 0 (rt_secureConnectionStart (timing s)) = false)
      by (apply ltb_false; lra).
    assert (Ht : truthy (rt_secureConnectionStart (timing s)) = true)
      by (apply truthy_true; intro Hz; rewrite Hz in Hneg; lra).
    rewrite Hb, Ht. repeat split; reflexivity.
Qed.

(** A request over plain HTTP: secure-start -1, secure-end 50. *)
Lemma negative_secure_start_sets_secure_end_witness :
  exists e',
    mergeEntries
      [Samples.sample "http://example.com/" Samples.timing_plain]
      [Samples.entry_bare "http://example.com/"] None = [e']
    /\ _connect_end e' = Some 50
    /\ _secure_start e' = Some (-1)
    /\ _secure_end e' = Some 50.
Proof.
  apply (negative_secure_start_sets_secure_end
           (Samples.entry_bare "http://example.com/")
           (Samples.sample "http://example.com/" Samples.timing_plain)
           None).
  - reflexivity.
  - reflexivity.
  - vm_compute. reflexivity.
Defined.

End C6.

Module C10.
Import JS Types Report Runner MergeFacts.

Lemma nth_error_last {A : Type} (l : list A) (a : A) :
  nth_error (l ++ [a]) (List.length (l ++ [a]) - 1) = Some a.
Proof.
  rewrite length_app. cbn [List.length].
  replace (List.length l + 1 - 1)%nat with (List.length l) by lia.
  rewrite nth_error_app2 by lia. rewrite Nat.sub_diag. reflexivity.
Qed.

(** C10: with at least two LCP events, [fillOutHar] takes the LCP URL,
and the LCP time it stores in the archive, from the last event, and
every entry it flags as LCP has that URL, while the LCP time of the
report is the start time of the first event. *)
Theorem lcp_url_from_last_time_from_first
    (first last : LCPEvent) (mid : list LCPEvent)
    (nav : option NavigationTiming) (shifts : option (list LayoutShift)) :
  Runner.lcpEvent
    (Some (mkMetrics nav (Some (first :: mid ++ [last])) shifts))
  = Some last
  /\ Runner.lcpURL
       (Some (mkMetrics nav (Some (first :: mid ++ [last])) shifts))
     = match lcp_url last with
       | EmptyString => None
       | u => Some u
       end
  /\ (forall requests harData out,
         fillOutHar
           (Some (mkMetrics nav (Some (first :: mid ++ [last])) shifts))
           requests harData = Returned out ->
         (exists page rest,
             pages out = page :: rest
             /\ _LCP (pageTimings page) = lcp_startTime last)
         /\ (forall e,
                (forall e0, In e0 (har_entries harData) ->
                            _is_lcp e0 = None) ->
                In e (har_entries out) -> _is_lcp e = Some true ->
                url (request e) = lcp_url last))
  /\ Report.lcpTime (mkMetrics nav (Some (first :: mid ++ [last])) shifts)
     = orZero (lcp_startTime first)
  /\ (forall har,
         lcp (generateHtml
                (mkMetrics nav (Some (first :: mid ++ [last])) shifts) har)
         = toFixed 0 (orZero (lcp_startTime first))).
Proof.
  assert (Hlast : Runner.lcpEvent
                    (Some (mkMetrics nav (Some (first :: mid ++ [last]))
                                     shifts)) = Some last).
  { unfold lcpEvent. cbn [largestContentfulPaint].
    exact (nth_error_last (first :: mid) last). }
  assert (Hurl : Runner.lcpURL
                   (Some (mkMetrics nav (Some (first :: mid ++ [last]))
                                    shifts))
                 = match lcp_url last with
                   | EmptyString => None
                   | u => Some u
                   end).
  { unfold lcpURL. rewrite Hlast. reflexivity. }
  split; [exact Hlast |]. split; [exact Hurl |].
  split; [| split].
  - intros requests harData out Hout. unfold fillOutHar in Hout.
    destruct (pages harData) as [| page rest].
    + unfold touchesPages in Hout. rewrite Hlast in Hout.
      cbn [navigationTiming] in Hout. destruct nav; discriminate Hout.
    + injection Hout as <-. cbn [pages har_entries pageTimings]. split.
      * eexists. eexists. split; [reflexivity |].
        unfold filledPageTimings. rewrite Hlast. reflexivity.
      * intros e Hnone Hin Hflag.
        destruct (flagged_after_merge _ _ _ _ Hin Hflag)
          as [H | [e0 [Hin0 [_ Hflag0]]]].
        -- rewrite Hurl in H. destruct (lcp_url last); [discriminate |].
           injection H as H. symmetry. exact H.
        -- rewrite (Hnone e0 Hin0) in Hflag0. discriminate.
  - reflexivity.
  - intros har. reflexivity.
Qed.

(** Two events: the entry flagged in the archive is the hero image of the
last event, the time of the report is the 800 ms of the first. *)
Lemma lcp_url_from_last_time_from_first_witness :
  (exists out e,
      fillOutHar (Some Samples.metrics_two_lcp)
                 [Samples.sample "https://example.com/hero.jpg"
                                 Samples.timing_tls]
                 Samples.har_recorded = Returned out
      /\ In e (har_entries out) /\ _is_lcp e = Some true
      /\ url (request e) = lcp_url Samples.lcp_late)
  /\ lcp (generateHtml Samples.metrics_two_lcp None) = "800".
Proof.
  destruct (lcp_url_from_last_time_from_first
              Samples.lcp_early Samples.lcp_late []
              (Some Samples.nav_https)
              (Some [Samples.shift_wide; Samples.shift_plain]))
    as [_ [_ [Hfill [_ Hlcp]]]].
  split; [| exact (Hlcp None)].
  destruct (Hfill [Samples.sample "https://example.com/hero.jpg"
                                  Samples.timing_tls]
                  Samples.har_recorded _ eq_refl) as [_ Hflag].
  eexists. eexists. split; [reflexivity |].
  assert (Hin : In (updatedObject
                      (Samples.entry_bare "https://example.com/hero.jpg")
                      (Samples.sample "https://example.com/hero.jpg"
                                      Samples.timing_tls)
                      (Some "https://example.com/hero.jpg"))
                   (har_entries
                      {| pages :=
                           [ {| pageTimings :=
                                  filledPageTimings
                                    (Some Samples.metrics_two_lcp)
                                    {| _TTFB := None; _LCP := None |} |} ];
                         har_entries :=
                           mergeEntries
                             [Samples.sample "https://example.com/hero.jpg"
                                             Samples.timing_tls]
                             (har_entries Samples.har_recorded)
                             (lcpURL (Some Samples.metrics_two_lcp)) |})).
  { right. left. reflexivity. }
  split; [exact Hin |]. split; [reflexivity |].
  apply Hflag.
  - intros e0 [<- | [<- | []]]; reflexivity.
  - exact Hin.
  - reflexivity.
Defined.

End C10.

(** ** Layout-shift overlays: the viewport *)

Module ViewportFacts.
Import JS Types Report JSFacts.

Lemma max3_ge_1 (a b c : number) : a <= Math_max3 a b c.
Proof.
  unfold Math_max3. eapply Qle_trans; [apply Q.le_max_l |].
  apply Q.le_max_l.
Qed.

Lemma max3_ge_2 (a b c : number) : b <= Math_max3 a b c.
Proof.
  unfold Math_max3. eapply Qle_trans; [apply Q.le_max_r |].
  apply Q.le_max_l.
Qed.

Lemma max3_ge_3 (a b c : number) : c <= Math_max3 a b c.
Proof. unfold Math_max3. apply Q.le_max_r. Qed.


Section MaxFold.

Variable S : Type.
Variables f g : S -> number.

Lemma maxFold_ge_init (l : list S) :
  forall a, a <= fold_left (fun a s => Math_max3 a (f s) (g s)) l a.
Proof.
  induction l as [| s l IH]; intros a; cbn [fold_left].
  - apply Qle_refl.
  - eapply Qle_trans; [apply (max3_ge_1 a (f s) (g s)) | apply IH].
Qed.

Lemma maxFold_ge_elem (l : list S) :
  forall a s, In s l ->
    f s <= fold_left (fun a s => Math_max3 a (f s) (g s)) l a
    /\ g s <= fold_left (fun a s => Math_max3 a (f s) (g s)) l a.
Proof.
  induction l as [| s' l IH]; intros a s Hin; cbn [fold_left].
  - destruct Hin.
  - destruct Hin as [<- | Hin]; [| apply IH, Hin].
    split.
    + eapply Qle_trans; [apply (max3_ge_2 a (f s') (g s')) |].
      apply maxFold_ge_init.
    + eapply Qle_trans; [apply (max3_ge_3 a (f s') (g s')) |].
      apply maxFold_ge_init.
Qed.


End MaxFold.

Lemma fold_viewport_fst (srcs : list LayoutShiftSource) :
  forall w h,
    fst (fold_left viewportStep srcs (w, h))
    = fold_left
        (fun a s =>
           Math_max3 a (orZero (rect_right (rectOrEmpty (previousRect s))))
                     (orZero (rect_right (rectOrEmpty (currentRect s)))))
        srcs w.
Proof.
  induction srcs as [| s srcs IH]; intros w h; cbn [fold_left].
  - reflexivity.
  - unfold viewportStep at 2. cbn [fst snd]. apply IH.
Qed.

Lemma fold_viewport_snd (srcs : list LayoutShiftSource) :
  forall w h,
    snd (fold_left viewportStep srcs (w, h))
    = fold_left
        (fun a s =>
           Math_max3 a (orZero (rect_bottom (rectOrEmpty (previousRect s))))
                     (orZero (rect_bottom (rectOrEmpty (currentRect s)))))
        srcs h.
Proof.
  induction srcs as [| s srcs IH]; intros w h; cbn [fold_left].
  - reflexivity.
  - unfold viewportStep at 2. cbn [fst snd]. apply IH.
Qed.


Lemma filterMap_In {A B : Type} (f : A -> option B) (l : list A) (b : B) :
  In b (filterMap f l) -> exists a, In a l /\ f a = Some b.
Proof.
  induction l as [| a l IH]; cbn [filterMap]; intros H.
  - destruct H.
  - destruct (f a) as [b' |] eqn:E.
    + destruct H as [<- | H].
      * exists a. split; [left; reflexivity | exact E].
      * destruct (IH H) as [a' [Hin Ha']]. exists a'. split;
          [right; exact Hin | exact Ha'].
    + destruct (IH H) as [a' [Hin Ha']]. exists a'. split;
        [right; exact Hin | exact Ha'].
Qed.

End ViewportFacts.

Module C5.
Import JS Types Report JSFacts ViewportFacts.




End C5.

(** * Further properties of the code *)

(** ** The merge, entry by entry *)

Module MergeMoreFacts.
Import JS Types Runner MergeView MergeFacts.

Lemma findIndex_None {A : Type} (p : A -> bool) (l : list A) :
  findIndex p l = None -> Forall (fun a => p a = false) l.
Proof.
  induction l as [| a l IH]; cbn [findIndex]; intros H.
  - constructor.
  - destruct (p a) eqn:E; [discriminate |].
    destruct (findIndex p l); [discriminate |].
    constructor; [exact E | apply IH; reflexivity].
Qed.

Lemma findIndex_split {A : Type} (p : A -> bool) (l : list A) (i : nat) :
  findIndex p l = Some i ->
  exists l1 a l2,
    l = (l1 ++ a :: l2)%list /\ List.length l1 = i /\ p a = true
    /\ Forall (fun x => p x = false) l1.
Proof.
  revert i. induction l as [| a l IH]; cbn [findIndex]; intros i H.
  - discriminate.
  - destruct (p a) eqn:E.
    + injection H as <-. exists [], a, l. repeat split; [exact E |].
      constructor.
    + destruct (findIndex p l) as [j |]; [| discriminate].
      injection H as <-.
      destruct (IH j eq_refl) as [l1 [b [l2 [-> [<- [Hb Hall]]]]]].
      exists (a :: l1), b, l2. repeat split; [exact Hb |].
      constructor; assumption.
Qed.

Lemma findIndex_app {A : Type} (p : A -> bool) (l1 l2 : list A) (a : A) :
  Forall (fun x => p x = false) l1 -> p a = true ->
  findIndex p (l1 ++ a :: l2) = Some (List.length l1).
Proof.
  induction 1 as [| x l1 Hx _ IH]; intros Ha; cbn [app findIndex].
  - rewrite Ha. reflexivity.
  - rewrite Hx, (IH Ha). reflexivity.
Qed.

Lemma splice_middle {A : Type} (l1 l2 : list A) (a x : A) :
  splice (l1 ++ a :: l2) (List.length l1) 1 [x] = (l1 ++ x :: l2)%list.
Proof.
  unfold splice.
  rewrite firstn_app, firstn_all, Nat.sub_diag. cbn [firstn].
  rewrite app_nil_r. f_equal. cbn [app]. f_equal.
  rewrite skipn_app, skipn_all2 by lia.
  replace (List.length l1 + 1 - List.length l1)%nat with 1%nat by lia.
  reflexivity.
Qed.

(** What one round of the loop does to the list. *)
Lemma mergeStep_none (lcpURL : option string) (l : list HarEntry)
    (s : RequestData) :
  findIndex (matches s) l = None -> mergeStep lcpURL l s = l.
Proof. unfold mergeStep. intros ->. reflexivity. Qed.

Lemma mergeStep_some (lcpURL : option string) (l : list HarEntry)
    (s : RequestData) (i : nat) :
  findIndex (matches s) l = Some i ->
  exists l1 e l2,
    l = (l1 ++ e :: l2)%list /\ List.length l1 = i /\ matches s e = true
    /\ mergeStep lcpURL l s = (l1 ++ updatedObject e s lcpURL :: l2)%list.
Proof.
  intros H. destruct (findIndex_split _ _ _ H)
    as [l1 [e [l2 [Hl [Hlen [He Hall]]]]]].
  exists l1, e, l2. repeat split; try assumption.
  unfold mergeStep. rewrite H. subst l i.
  rewrite nth_error_app2 by lia. rewrite Nat.sub_diag. cbn [nth_error].
  apply splice_middle.
Qed.

Lemma mergeStep_carried (lcpURL : option string) (l : list HarEntry)
    (s : RequestData) :
  map carried (mergeStep lcpURL l s) = map carried l.
Proof.
  destruct (findIndex (matches s) l) as [i |] eqn:E.
  - destruct (mergeStep_some lcpURL l s i E)
      as [l1 [e [l2 [-> [_ [_ ->]]]]]].
    rewrite !map_app. reflexivity.
  - rewrite (mergeStep_none lcpURL l s E). reflexivity.
Qed.

Lemma mergeEntries_carried (lcpURL : option string)
    (rs : list RequestData) :
  forall l, map carried (mergeEntries rs l lcpURL) = map carried l.
Proof.
  unfold mergeEntries. induction rs as [| s rs IH]; intros l.
  - reflexivity.
  - cbn [fold_left]. rewrite IH. apply mergeStep_carried.
Qed.

Lemma carried_matches (s : RequestData) (a b : HarEntry) :
  carried a = carried b -> matches s a = matches s b.
Proof.
  unfold carried, matches. intros H. injection H as Hreq _ _ _ _.
  rewrite Hreq. reflexivity.
Qed.

Lemma findIndex_carried (s : RequestData) (l l' : list HarEntry) :
  map carried l = map carried l' ->
  findIndex (matches s) l = findIndex (matches s) l'.
Proof.
  revert l'. induction l as [| a l IH]; intros [| b l'] H;
    try discriminate; [reflexivity |].
  cbn [map] in H.
  assert (Hab : carried a = carried b) by congruence.
  assert (Hrest : map carried l = map carried l') by congruence.
  cbn [findIndex].
  rewrite (carried_matches s a b Hab), (IH l' Hrest). reflexivity.
Qed.

Lemma selects_carried (l l' : list HarEntry) (i : nat) (s : RequestData) :
  map carried l = map carried l' -> selects l i s = selects l' i s.
Proof.
  intros H. unfold selects. rewrite (findIndex_carried s l l' H).
  reflexivity.
Qed.

Lemma nth_error_mergeStep (lcpURL : option string) (l : list HarEntry)
    (s : RequestData) (i : nat) (e : HarEntry) :
  nth_error l i = Some e ->
  nth_error (mergeStep lcpURL l s) i
  = Some (if selects l i s then updatedObject e s lcpURL else e).
Proof.
  intros Hn. unfold selects.
  destruct (findIndex (matches s) l) as [j |] eqn:E.
  - destruct (mergeStep_some lcpURL l s j E)
      as [l1 [e0 [l2 [Hl [Hlen [_ ->]]]]]].
    subst l j. destruct (Nat.eqb_spec (List.length l1) i) as [<- | Hne].
    + rewrite nth_error_app2 in Hn |- * by lia.
      rewrite Nat.sub_diag in Hn |- *. cbn [nth_error] in Hn |- *.
      injection Hn as <-. reflexivity.
    + destruct (Nat.lt_ge_cases i (List.length l1)) as [Hlt | Hge].
      * rewrite nth_error_app1 in Hn |- * by lia. exact Hn.
      * rewrite nth_error_app2 in Hn |- * by lia.
        destruct (i - List.length l1)%nat as [| k] eqn:Ek; [lia |].
        cbn [nth_error] in Hn |- *. exact Hn.
  - rewrite (mergeStep_none lcpURL l s E). exact Hn.
Qed.

(** Each entry receives, in their order, the samples that select its
position. *)
Lemma nth_error_mergeEntries (lcpURL : option string)
    (rs : list RequestData) :
  forall (l : list HarEntry) (i : nat) (e : HarEntry),
    nth_error l i = Some e ->
    nth_error (mergeEntries rs l lcpURL) i
    = Some (fold_left (fun e s => updatedObject e s lcpURL)
                      (filter (selects l i) rs) e).
Proof.
  unfold mergeEntries. induction rs as [| s rs IH]; intros l i e Hn.
  - exact Hn.
  - cbn [fold_left filter].
    rewrite (IH _ i _ (nth_error_mergeStep lcpURL l s i e Hn)).
    rewrite (filter_ext (selects (mergeStep lcpURL l s) i) (selects l i))
      by (intro s'; apply selects_carried, mergeStep_carried).
    destruct (selects l i s); reflexivity.
Qed.

Lemma selects_matches (l : list HarEntry) (i : nat) (s : RequestData)
    (e : HarEntry) :
  nth_error l i = Some e -> selects l i s = true -> matches s e = true.
Proof.
  unfold selects. intros Hn H.
  destruct (findIndex (matches s) l) as [j |] eqn:E; [| discriminate].
  apply Nat.eqb_eq in H. subst j.
  destruct (findIndex_Some _ _ _ E) as [a [Ha Hp]].
  rewrite Hn in Ha. injection Ha as <-. exact Hp.
Qed.

Lemma selects_first (l : list HarEntry) (i j : nat) (s : RequestData)
    (e : HarEntry) :
  selects l i s = true -> (j < i)%nat -> nth_error l j = Some e ->
  matches s e = false.
Proof.
  unfold selects. intros H Hlt Hn.
  destruct (findIndex (matches s) l) as [k |] eqn:E; [| discriminate].
  apply Nat.eqb_eq in H. subst k.
  destruct (findIndex_split _ _ _ E) as [l1 [a [l2 [-> [Hlen [_ Hall]]]]]].
  rewrite nth_error_app1 in Hn by lia.
  rewrite Forall_forall in Hall. apply Hall. exact (nth_error_In _ _ Hn).
Qed.

Lemma fold_updated_carried (lcpURL : option string)
    (ss : list RequestData) :
  forall e,
    carried (fold_left (fun e s => updatedObject e s lcpURL) ss e)
    = carried e.
Proof.
  induction ss as [| s ss IH]; intros e; cbn [fold_left].
  - reflexivity.
  - rewrite IH. reflexivity.
Qed.

(** A sample that selects a position has the URL of the entry there, no
[rawTimings] flag, and no earlier entry has that URL. *)
Lemma selected_sample (l : list HarEntry) (i : nat) (e : HarEntry)
    (s : RequestData) :
  nth_error l i = Some e -> selects l i s = true ->
  rd_url s = url (request e) /\ flag (rawTimings s) = false
  /\ forall j e', (j < i)%nat -> nth_error l j = Some e' ->
                  url (request e') <> url (request e).
Proof.
  intros Hn Hsel.
  pose proof (selects_matches l i s e Hn Hsel) as Hm.
  pose proof (matches_url s e Hm) as Hu.
  split; [symmetry; exact Hu |]. split.
  - unfold matches in Hm. apply andb_true_iff in Hm as [_ Hf].
    apply negb_true_iff in Hf. exact Hf.
  - intros j e' Hlt Hj Heq.
    pose proof (selects_first l i j s e' Hsel Hlt Hj) as Hfalse.
    unfold matches in Hm, Hfalse. rewrite Heq, Hu in Hfalse.
    apply andb_true_iff in Hm as [_ Hf].
    rewrite String.eqb_refl, Hf in Hfalse. discriminate.
Qed.

Lemma selected_samples (rs : list RequestData) (l : list HarEntry)
    (i : nat) (e : HarEntry) :
  nth_error l i = Some e ->
  forall s, In s (filter (selects l i) rs) ->
    rd_url s = url (request e) /\ flag (rawTimings s) = false
    /\ forall j e', (j < i)%nat -> nth_error l j = Some e' ->
                    url (request e') <> url (request e).
Proof.
  intros Hn s Hs. apply filter_In in Hs as [_ Hsel].
  exact (selected_sample l i e s Hn Hsel).
Qed.

End MergeMoreFacts.

Module MergeMore.
Import JS Types Runner MergeView MergeFacts MergeMoreFacts.

Lemma mergeEntries_length (lcpURL : option string) (rs : list RequestData)
    (l : list HarEntry) :
  List.length (mergeEntries rs l lcpURL) = List.length l.
Proof.
  rewrite <- (length_map carried (mergeEntries rs l lcpURL)).
  rewrite mergeEntries_carried. apply length_map.
Qed.

Lemma original_entry (lcpURL : option string) (rs : list RequestData)
    (l : list HarEntry) (i : nat) (e' : HarEntry) :
  nth_error (mergeEntries rs l lcpURL) i = Some e' ->
  exists e, nth_error l i = Some e.
Proof.
  intros H. destruct (nth_error l i) as [e |] eqn:E; [eauto |].
  apply nth_error_None in E. rewrite <- (mergeEntries_length lcpURL rs) in E.
  apply nth_error_None in E. congruence.
Qed.

(** X1.  The merge keeps the archive in shape: as many entries, in the
same order, each with the request, response, time, start date and
[timings] it had; only the internal timing fields and the LCP flag
change. *)
Theorem merge_keeps_archive_shape (rs : list RequestData)
    (l : list HarEntry) (lcpURL : option string) :
  List.length (mergeEntries rs l lcpURL) = List.length l
  /\ map carried (mergeEntries rs l lcpURL) = map carried l
  /\ map (fun e => url (request e)) (mergeEntries rs l lcpURL)
     = map (fun e => url (request e)) l.
Proof.
  split; [apply mergeEntries_length |].
  split; [apply mergeEntries_carried |].
  pose proof (mergeEntries_carried lcpURL rs l) as H.
  apply (f_equal (map (fun c => url (fst (fst (fst (fst c))))))) in H.
  rewrite !map_map in H. exact H.
Qed.

(** X2.  The entry at a position of the merged archive is the entry of
the recorded archive updated, one after the other and in their order,
with the samples for which [findIndex] selects that position: the
samples with its URL, and only if no earlier entry has that URL. *)
Theorem merge_entry_by_entry (rs : list RequestData) (l : list HarEntry)
    (lcpURL : option string) (i : nat) (e : HarEntry) :
  nth_error l i = Some e ->
  nth_error (mergeEntries rs l lcpURL) i
  = Some (fold_left (fun e s => updatedObject e s lcpURL)
                    (filter (selects l i) rs) e)
  /\ (forall s, In s (filter (selects l i) rs) ->
        rd_url s = url (request e) /\ flag (rawTimings s) = false
        /\ forall j e', (j < i)%nat -> nth_error l j = Some e' ->
                        url (request e') <> url (request e)).
Proof.
  intros Hn. split.
  - apply nth_error_mergeEntries. exact Hn.
  - intros s Hs. exact (selected_samples rs l i e Hn s Hs).
Qed.

(** On the archive [MoreSamples.archive3]: the first script entry takes
both script samples, the TLS one first. *)
Lemma merge_entry_by_entry_witness :
  nth_error (mergeEntries MoreSamples.samples3 MoreSamples.archive3 None) 1
  = Some (updatedObject
            (updatedObject
               (Samples.entry_bare "https://example.com/app.js")
               (Samples.sample "https://example.com/app.js"
                               Samples.timing_tls) None)
            (Samples.sample "https://example.com/app.js"
                            Samples.timing_plain) None).
Proof.
  exact (proj1 (merge_entry_by_entry
                  MoreSamples.samples3 MoreSamples.archive3 None 1
                  (Samples.entry_bare "https://example.com/app.js")
                  eq_refl)).
Defined.

(** X3.  An entry is left exactly as recorded when an earlier entry has
the same URL, or when every sample has another URL or carries the
[rawTimings] flag. *)
Theorem merge_leaves_entry_untouched (rs : list RequestData)
    (l : list HarEntry) (lcpURL : option string) (i : nat) (e : HarEntry) :
  nth_error l i = Some e ->
  (exists j e', (j < i)%nat /\ nth_error l j = Some e'
                /\ url (request e') = url (request e))
  \/ (forall s, In s rs ->
        rd_url s <> url (request e) \/ flag (rawTimings s) = true) ->
  nth_error (mergeEntries rs l lcpURL) i = Some e.
Proof.
  intros Hn Hcase.
  pose proof (nth_error_mergeEntries lcpURL rs l i e Hn) as Hres.
  pose proof (selected_samples rs l i e Hn) as Hsel.
  rewrite Hres.
  destruct (filter (selects l i) rs) as [| s ss] eqn:E; [reflexivity |].
  exfalso.
  assert (Hin : In s (filter (selects l i) rs)) by (rewrite E; left;
                                                    reflexivity).
  destruct (Hsel s (or_introl eq_refl)) as [Hu [Hf Hfirst]].
  destruct Hcase as [[j [e' [Hlt [Hj Heq]]]] | Hall].
  - exact (Hfirst j e' Hlt Hj Heq).
  - apply filter_In in Hin as [Hin _].
    destruct (Hall s Hin) as [Hne | Hflag]; [exact (Hne Hu) | congruence].
Qed.

(** On [MoreSamples.archive3]: the second script entry follows an entry
with its URL and stays as recorded. *)
Lemma merge_leaves_entry_untouched_witness :
  nth_error (mergeEntries MoreSamples.samples3 MoreSamples.archive3 None) 2
  = Some (Samples.entry_bare "https://example.com/app.js").
Proof.
  apply (merge_leaves_entry_untouched
           MoreSamples.samples3 MoreSamples.archive3 None 2
           (Samples.entry_bare "https://example.com/app.js") eq_refl).
  left. exists 1%nat, (Samples.entry_bare "https://example.com/app.js").
  split; [lia |]. split; reflexivity.
Defined.

Lemma updated_same_carried (s : RequestData) (lcpURL : option string)
    (y z : HarEntry) :
  carried y = carried z ->
  (looseEq (rd_url s) lcpURL = false -> _is_lcp y = _is_lcp z) ->
  updatedObject y s lcpURL = updatedObject z s lcpURL.
Proof.
  unfold carried, updatedObject. intros H Hflag.
  injection H as -> -> -> -> ->.
  destruct (looseEq (rd_url s) lcpURL); [reflexivity |].
  rewrite (Hflag eq_refl). reflexivity.
Qed.

Lemma fold_updated_flag (lcpURL : option string) (ss : list RequestData) :
  forall e,
    (forall s, In s ss -> looseEq (rd_url s) lcpURL = false) ->
    _is_lcp (fold_left (fun e s => updatedObject e s lcpURL) ss e)
    = _is_lcp e.
Proof.
  induction ss as [| s ss IH]; intros e Hall; cbn [fold_left].
  - reflexivity.
  - rewrite IH by (intros s' Hs'; apply Hall; right; exact Hs').
    cbn [updatedObject _is_lcp].
    rewrite (Hall s (or_introl eq_refl)). reflexivity.
Qed.

(** Updating an entry twice with the same samples, all for one URL, is
updating it once. *)
Lemma fold_updated_twice (lcpURL : option string) (u : string)
    (ss : list RequestData) (e : HarEntry) :
  (forall s, In s ss -> rd_url s = u) ->
  fold_left (fun e s => updatedObject e s lcpURL) ss
            (fold_left (fun e s => updatedObject e s lcpURL) ss e)
  = fold_left (fun e s => updatedObject e s lcpURL) ss e.
Proof.
  induction ss as [| s ss' _] using rev_ind; [reflexivity |].
  - intros Hall. rewrite !fold_left_app. cbn [fold_left].
    apply updated_same_carried.
    + rewrite fold_updated_carried.
      change (carried (fold_left (fun e s => updatedObject e s lcpURL)
                                 ss' e)
              = carried (fold_left (fun e s => updatedObject e s lcpURL)
                                   ss' e)).
      reflexivity.
    + intros Hloose.
      assert (Hss' : forall s', In s' ss' ->
                                looseEq (rd_url s') lcpURL = false).
      { intros s' Hs'. rewrite (Hall s') by (apply in_or_app; left;
                                              exact Hs').
        rewrite <- (Hall s) by (apply in_or_app; right; left; reflexivity).
        exact Hloose. }
      rewrite !(fold_updated_flag lcpURL ss') by exact Hss'.
      cbn [updatedObject _is_lcp]. rewrite Hloose.
      rewrite (fold_updated_flag lcpURL ss') by exact Hss'. reflexivity.
Qed.

(** X4.  Merging the same samples into an archive that is already merged
changes nothing. *)
Theorem merge_idempotent (rs : list RequestData) (l : list HarEntry)
    (lcpURL : option string) :
  mergeEntries rs (mergeEntries rs l lcpURL) lcpURL
  = mergeEntries rs l lcpURL.
Proof.
  apply nth_error_ext. intros i.
  destruct (nth_error l i) as [e |] eqn:Hn.
  - pose proof (nth_error_mergeEntries lcpURL rs l i e Hn) as Hres.
  pose proof (selected_samples rs l i e Hn) as Hsel.
    rewrite (nth_error_mergeEntries lcpURL rs _ i _ Hres), Hres. f_equal.
    rewrite (filter_ext (selects (mergeEntries rs l lcpURL) i)
                        (selects l i))
      by (intro s; apply selects_carried, mergeEntries_carried).
    apply (fold_updated_twice lcpURL (url (request e))).
    intros s Hs. exact (proj1 (Hsel s Hs)).
  - apply nth_error_None in Hn.
    assert (H1 : nth_error (mergeEntries rs l lcpURL) i = None)
      by (apply nth_error_None; rewrite mergeEntries_length; exact Hn).
    rewrite H1. apply nth_error_None.
    rewrite !mergeEntries_length. exact Hn.
Qed.

(** X5.  When no entry of the recorded archive carries the LCP flag, at
most one entry of the merged archive carries it, and its URL is the LCP
URL. *)
Theorem merge_flags_at_most_one (rs : list RequestData)
    (l : list HarEntry) (lcpURL : option string) (i j : nat)
    (ei ej : HarEntry) :
  (forall e0, In e0 l -> _is_lcp e0 = None) ->
  nth_error (mergeEntries rs l lcpURL) i = Some ei ->
  nth_error (mergeEntries rs l lcpURL) j = Some ej ->
  _is_lcp ei = Some true -> _is_lcp ej = Some true ->
  i = j /\ lcpURL = Some (url (request ei)).
Proof.
  intros Hnone Hi Hj Hfi Hfj.
  assert (Hurl : forall k ek,
             nth_error (mergeEntries rs l lcpURL) k = Some ek ->
             _is_lcp ek = Some true ->
             lcpURL = Some (url (request ek))
             /\ exists e s, nth_error l k = Some e
                  /\ url (request e) = url (request ek)
                  /\ In s rs /\ selects l k s = true).
  { intros k ek Hk Hfk.
    destruct (flagged_after_merge lcpURL rs l ek (nth_error_In _ _ Hk) Hfk)
      as [H | [e0 [Hin0 [_ Hf0]]]];
      [| rewrite (Hnone e0 Hin0) in Hf0; discriminate].
    split; [exact H |].
    destruct (original_entry lcpURL rs l k ek Hk) as [e He].
    pose proof (nth_error_mergeEntries lcpURL rs l k e He) as Hres.
    rewrite Hk in Hres. injection Hres as Hres.
    destruct (filter (selects l k) rs) as [| s ss] eqn:E.
    - cbn [fold_left] in Hres. subst ek.
      rewrite (Hnone e (nth_error_In _ _ He)) in Hfk. discriminate.
    - assert (Hin : In s (filter (selects l k) rs))
        by (rewrite E; left; reflexivity).
      apply filter_In in Hin as [Hin Hsel].
      exists e, s. split; [exact He |]. split; [| auto].
      pose proof (f_equal carried Hres) as Hc.
      rewrite fold_updated_carried in Hc. unfold carried in Hc.
      injection Hc as Hreq _ _ _ _. rewrite Hreq. reflexivity. }
  destruct (Hurl i ei Hi Hfi) as [Hli [e1 [s1 [He1 [Hu1 [_ Hs1]]]]]].
  destruct (Hurl j ej Hj Hfj) as [Hlj [e2 [s2 [He2 [Hu2 [_ Hs2]]]]]].
  split; [| exact Hli].
  assert (Hsame : url (request e1) = url (request e2)) by congruence.
  pose proof (selects_matches l i s1 e1 He1 Hs1) as Hm1.
  pose proof (selects_matches l j s2 e2 He2 Hs2) as Hm2.
  destruct (Nat.lt_trichotomy i j) as [Hlt | [Heq | Hgt]]; [| exact Heq |].
  - pose proof (selects_first l j i s2 e1 Hs2 Hlt He1) as Hfalse.
    unfold matches in Hm2, Hfalse. rewrite Hsame in Hfalse. congruence.
  - pose proof (selects_first l i j s1 e2 Hs1 Hgt He2) as Hfalse.
    unfold matches in Hm1, Hfalse. rewrite <- Hsame in Hfalse. congruence.
Qed.

End MergeMore.

(** On [MoreSamples.archive3] with the script as LCP resource: the entry
at position 1 is the one flagged. *)
Module MergeMoreInstances.
Import JS Types Runner MergeView.

Lemma merge_flags_at_most_one_witness :
  1%nat = 1%nat
  /\ Some "https://example.com/app.js"
     = Some (url (request
                    (updatedObject
                       (updatedObject
                          (Samples.entry_bare "https://example.com/app.js")
                          (Samples.sample "https://example.com/app.js"
                                          Samples.timing_tls)
                          (Some "https://example.com/app.js"))
                       (Samples.sample "https://example.com/app.js"
                                       Samples.timing_plain)
                       (Some "https://example.com/app.js")))).
Proof.
  apply (MergeMore.merge_flags_at_most_one
           MoreSamples.samples3 MoreSamples.archive3
           (Some "https://example.com/app.js") 1 1
           (updatedObject
              (updatedObject
                 (Samples.entry_bare "https://example.com/app.js")
                 (Samples.sample "https://example.com/app.js"
                                 Samples.timing_tls)
                 (Some "https://example.com/app.js"))
              (Samples.sample "https://example.com/app.js"
                              Samples.timing_plain)
              (Some "https://example.com/app.js"))
           (updatedObject
              (updatedObject
                 (Samples.entry_bare "https://example.com/app.js")
                 (Samples.sample "https://example.com/app.js"
                                 Samples.timing_tls)
                 (Some "https://example.com/app.js"))
              (Samples.sample "https://example.com/app.js"
                              Samples.timing_plain)
              (Some "https://example.com/app.js"))).
  - intros e0 [<- | [<- | [<- | []]]]; reflexivity.
  - reflexivity.
  - reflexivity.
  - reflexivity.
  - reflexivity.
Defined.

End MergeMoreInstances.

(** ** From the merged archive to the records of the report *)

Module ParseMore.
Import JS Types Report Runner JSFacts TimingFacts.

(** X6.  For an entry whose request and response boundaries, as
[parseHarFile] reads them ([field || 0]), are in order, send, wait and
receive of its record each lie between 0 and the total time, and the
send, wait and receive percentages each lie between 0 and 100. *)
Theorem parsed_phases_within_total (g : string -> option number)
    (ps : option string) (entry : HarEntry) :
  orZero (_request_start entry) <= orZero (_request_end entry) ->
  orZero (_request_end entry) <= orZero (_response_start entry) ->
  orZero (_response_start entry) <= orZero (_response_end entry) ->
  let t := nr_timings (parseEntry g ps entry) in
  (0 <= rq_send_time t /\ rq_send_time t <= rq_total_time t)
  /\ (0 <= rq_wait_time t /\ rq_wait_time t <= rq_total_time t)
  /\ (0 <= rq_receive_time t /\ rq_receive_time t <= rq_total_time t)
  /\ (0 <= rq_send_pct t /\ rq_send_pct t <= 100)
  /\ (0 <= rq_wait_pct t /\ rq_wait_pct t <= 100)
  /\ (0 <= rq_receive_pct t /\ rq_receive_pct t <= 100).
Proof.
  intros Hsend Hwait Hreceive t. subst t.
  cbn [parseEntry nr_timings rq_send_time rq_wait_time rq_receive_time
       rq_total_time rq_send_pct rq_wait_pct rq_receive_pct].
  split; [split; lra |]. split; [split; lra |]. split; [split; lra |].
  split; [apply pctIf_range; lra |].
  split; apply pctIf_range; lra.
Qed.

Lemma parsed_phases_within_total_witness :
  0 <= rq_wait_time (nr_timings (parseEntry Samples.date_getTime None
                                            Samples.entry_full))
  /\ rq_wait_pct (nr_timings (parseEntry Samples.date_getTime None
                                         Samples.entry_full))
     <= 100.
Proof.
  assert (H := parsed_phases_within_total Samples.date_getTime None
                 Samples.entry_full).
  cbv zeta in H.
  refine ((fun H' => conj (proj1 (proj1 (proj2 H')))
                          (proj2 (proj1 (proj2 (proj2 (proj2 (proj2 H')))))))
            (H _ _ _)); vm_compute; discriminate.
Defined.

(** X7.  For an entry the merge has enriched, the record of the report
has no wait phase: the merge writes the response start into both
[_request_end] and [_response_start], so wait_time and wait_pct are 0
and the time up to the first byte of the response is counted as
send_time. *)
Theorem merged_entry_has_no_wait (g : string -> option number)
    (ps : option string) (e : HarEntry) (s : RequestData)
    (lcpURL : option string) :
  rq_wait_time (nr_timings (parseEntry g ps (updatedObject e s lcpURL)))
  == 0
  /\ rq_wait_pct (nr_timings (parseEntry g ps (updatedObject e s lcpURL)))
     == 0
  /\ rq_send_time (nr_timings (parseEntry g ps (updatedObject e s lcpURL)))
     == rt_responseStart (timing s) - rt_requestStart (timing s)
  /\ rq_receive_time
       (nr_timings (parseEntry g ps (updatedObject e s lcpURL)))
     == rt_responseEnd (timing s) - rt_responseStart (timing s)
  /\ rq_total_time (nr_timings (parseEntry g ps (updatedObject e s lcpURL)))
     == rt_responseEnd (timing s) - rt_requestStart (timing s).
Proof.
  cbn [parseEntry nr_timings rq_wait_time rq_wait_pct rq_send_time
       rq_receive_time rq_total_time updatedObject _request_start
       _request_end _response_start _response_end].
  split; [ring |]. split.
  - unfold pctIf.
    destruct (ltb 0 (orZero (Some (rt_responseEnd (timing s)))
                     - orZero (Some (rt_requestStart (timing s))))) eqn:E;
      [| reflexivity].
    apply ltb_spec in E. field. intro Hz. rewrite Hz in E. lra.
  - repeat split; rewrite !orZero_Some; reflexivity.
Qed.

(** X8.  For an enriched entry whose sample has a positive
secure-connection start, the record's connect phase stops where the TLS
handshake starts: connect_time is the secure-connection start minus
connectStart and ssl_time is connectEnd minus the secure-connection
start.  When the secure-connection start is 0, ssl_time and ssl_pct are
0 and connect_time is connectEnd minus connectStart. *)
Theorem merged_entry_splits_connection (g : string -> option number)
    (ps : option string) (e : HarEntry) (s : RequestData)
    (lcpURL : option string) :
  (0 < rt_secureConnectionStart (timing s) ->
   rq_ssl_time (nr_timings (parseEntry g ps (updatedObject e s lcpURL)))
   == rt_connectEnd (timing s) - rt_secureConnectionStart (timing s)
   /\ rq_connect_time
        (nr_timings (parseEntry g ps (updatedObject e s lcpURL)))
      == rt_secureConnectionStart (timing s) - rt_connectStart (timing s))
  /\ (rt_secureConnectionStart (timing s) == 0 ->
      rq_ssl_time (nr_timings (parseEntry g ps (updatedObject e s lcpURL)))
      == 0
      /\ rq_ssl_pct
           (nr_timings (parseEntry g ps (updatedObject e s lcpURL))) = 0
      /\ rq_connect_time
           (nr_timings (parseEntry g ps (updatedObject e s lcpURL)))
         == rt_connectEnd (timing s) - rt_connectStart (timing s)).
Proof.
  cbn [parseEntry nr_timings rq_ssl_time rq_ssl_pct rq_connect_time
       updatedObject _connect_start _connect_end _secure_start
       _secure_end].
  split.
  - intros Hpos. apply ltb_spec in Hpos as Hb. rewrite Hb.
    assert (Ht : truthy (rt_secureConnectionStart (timing s)) = true)
      by (apply MergeFacts.truthy_true; intro Hz; rewrite Hz in Hpos; lra).
    rewrite Ht. cbv iota. split; rewrite !orZero_Some; reflexivity.
  - intros Hz.
    assert (Hb0 : ltb 0 (rt_secureConnectionStart (timing s)) = false)
      by (apply ltb_false; lra).
    apply truthy_false in Hz. rewrite Hb0, Hz. cbv iota.
    split; [ring |]. split; [| rewrite !orZero_Some; ring].
    unfold pctIf.
    match goal with
    | |- (if (?a && ?b)%bool then _ else _) = _ =>
        destruct (a && b)%bool eqn:E; [| reflexivity];
        apply andb_true_iff in E; destruct E as [_ E];
        vm_compute in E; discriminate E
    end.
Qed.

Lemma merged_entry_splits_connection_witness :
  rq_ssl_time
    (nr_timings (parseEntry Samples.date_getTime None
                   (updatedObject
                      (Samples.entry_bare "https://example.com/")
                      (Samples.sample "https://example.com/"
                                      Samples.timing_tls) None)))
  == 50 - 20
  /\ rq_connect_time
       (nr_timings (parseEntry Samples.date_getTime None
                      (updatedObject
                         (Samples.entry_bare "https://example.com/")
                         (Samples.sample "https://example.com/"
                                         Samples.timing_tls) None)))
     == 20 - 5.
Proof.
  apply (proj1 (merged_entry_splits_connection
                  Samples.date_getTime None
                  (Samples.entry_bare "https://example.com/")
                  (Samples.sample "https://example.com/"
                                  Samples.timing_tls) None)).
  vm_compute. reflexivity.
Defined.

End ParseMore.

Module StartTimes.
Import JS Types Report JSFacts.

Lemma nonempty_string (s : string) :
  s <> EmptyString -> exists c t, s = String c t.
Proof.
  destruct s as [| c t]; [intros H; contradiction H; reflexivity |].
  intros _. exists c, t. reflexivity.
Qed.

(** X9.  The start date of the first entry is time zero of the report:
when it parses, the first record starts at 0 and every entry whose start
date parses starts at the difference of the two dates; when it does not
parse, the start time of every record with a start date is NaN. *)
Theorem first_entry_is_time_zero (g : string -> option number)
    (har : HarLog) (e : HarEntry) (es : list HarEntry) :
  archiveEntries har = e :: es ->
  startedDateTime e <> EmptyString ->
  exists r rs,
    parseHarData g har = Some (r :: rs)
    /\ (forall t0, g (startedDateTime e) = Some t0 ->
          (exists q, nr_start_time r = Some q /\ q == 0)
          /\ Forall2
               (fun e' r' =>
                  forall t, startedDateTime e' <> EmptyString ->
                            g (startedDateTime e') = Some t ->
                            exists q, nr_start_time r' = Some q
                                      /\ q == t - t0)
               es rs)
    /\ (g (startedDateTime e) = None ->
          nr_start_time r = None
          /\ Forall2
               (fun e' r' =>
                  startedDateTime e' <> EmptyString ->
                  nr_start_time r' = None)
               es rs).
Proof.
  intros Har Hne. unfold parseHarData. rewrite Har.
  destruct (nonempty_string _ Hne) as [c [t Hs]].
  eexists. eexists. split; [reflexivity |].
  rewrite Hs. rewrite <- Hs. split.
  - intros t0 Ht0. split.
    + cbn [parseEntry nr_start_time]. rewrite Hs. rewrite <- Hs.
      rewrite Ht0. eexists. split; [reflexivity | ring].
    + clear Har. induction es as [| e' es IH]; cbn [map]; constructor;
        [| exact IH].
      intros t' Hne' Ht'. cbn [parseEntry nr_start_time].
      destruct (nonempty_string _ Hne') as [c' [t'' Hs']].
      rewrite Hs'. rewrite <- Hs'. rewrite Ht', Ht0.
      eexists. split; reflexivity.
  - intros Hnone. split.
    + cbn [parseEntry nr_start_time]. rewrite Hs. rewrite <- Hs.
      rewrite Hnone. reflexivity.
    + clear Har. induction es as [| e' es IH]; cbn [map]; constructor;
        [| exact IH].
      intros Hne'. cbn [parseEntry nr_start_time].
      destruct (nonempty_string _ Hne') as [c' [t'' Hs']].
      rewrite Hs'. rewrite <- Hs'. rewrite Hnone.
      destruct (g (startedDateTime e')); reflexivity.
Qed.

(** On the archive of [Samples.json_parse], whose entries start at the
same instant: the first record starts at 0. *)
Lemma first_entry_is_time_zero_witness :
  exists r rs,
    parseHarData Samples.date_getTime
      (mkHarLog (Some (mkHarLogBody
                         (Some [Samples.entry_full; Samples.entry_example]))))
    = Some (r :: rs)
    /\ exists q, nr_start_time r = Some q /\ q == 0.
Proof.
  destruct (first_entry_is_time_zero
              Samples.date_getTime
              (mkHarLog (Some (mkHarLogBody
                         (Some [Samples.entry_full; Samples.entry_example]))))
              Samples.entry_full [Samples.entry_example] eq_refl)
    as [r [rs [Hr [Hsome _]]]].
  - discriminate.
  - exists r, rs. split; [exact Hr |].
    exact (proj1 (Hsome 1767225600000 eq_refl)).
Defined.

End StartTimes.

(** ** Classification, ratings and scores of the report *)

Module ClassifyFacts.
Import JS Types Report JSFacts.

Lemma lower_ascii_idempotent (c : ascii) :
  lower_ascii (lower_ascii c) = lower_ascii c.
Proof.
  destruct c as [[] [] [] [] [] [] [] []]; reflexivity.
Qed.

Lemma toLowerCase_idempotent (s : string) :
  toLowerCase (toLowerCase s) = toLowerCase s.
Proof.
  induction s as [| c s IH]; cbn [toLowerCase]; [reflexivity |].
  rewrite lower_ascii_idempotent, IH. reflexivity.
Qed.

Lemma toLowerCase_app (a b : string) :
  toLowerCase (a ++ b) = (toLowerCase a ++ toLowerCase b)%string.
Proof.
  induction a as [| c a IH]; cbn [toLowerCase append]; [reflexivity |].
  rewrite IH. reflexivity.
Qed.

Lemma prefix_app (a b : string) : String.prefix a (a ++ b) = true.
Proof.
  induction a as [| c a IH]; cbn [append String.prefix].
  - destruct b; reflexivity.
  - destruct (ascii_dec c c) as [_ | Hne]; [exact IH |].
    contradiction Hne. reflexivity.
Qed.

Lemma includes_app (sub pre post : string) :
  includes sub (pre ++ sub ++ post) = true.
Proof.
  induction pre as [| c pre IH].
  - cbn [append]. destruct (sub ++ post)%string eqn:E; cbn [includes];
      rewrite <- E, prefix_app; reflexivity.
  - cbn [append includes]. rewrite IH. apply orb_true_r.
Qed.

End ClassifyFacts.

Module ReportScores.
Import JS Types Report JSFacts ClassifyFacts.

(** X10.  The resource type does not depend on the letter case of the
MIME type, and a missing or empty MIME type is classified [other]. *)
Theorem resource_type_ignores_case (m : string) :
  getResourceTypeFromMime (Some (toLowerCase m))
  = getResourceTypeFromMime (Some m)
  /\ getResourceTypeFromMime None = "other"
  /\ getResourceTypeFromMime (Some "") = "other".
Proof.
  split; [| split; reflexivity].
  destruct m as [| c m]; [reflexivity |].
  cbn [toLowerCase]. unfold getResourceTypeFromMime.
  change (String (lower_ascii c) (toLowerCase m))
    with (toLowerCase (String c m)).
  rewrite toLowerCase_idempotent. reflexivity.
Qed.

(** X11.  A MIME type that contains [html], in any letter case and
whatever else it contains, is classified [document]: the test for
[html] comes first. *)
Theorem html_is_document (pre mid post : string) :
  toLowerCase mid = "html" ->
  getResourceTypeFromMime (Some (pre ++ mid ++ post)) = "document".
Proof.
  intros Hmid.
  assert (Hinc : includes "html" (toLowerCase (pre ++ mid ++ post)) = true).
  { rewrite !toLowerCase_app, Hmid. apply includes_app. }
  unfold getResourceTypeFromMime.
  destruct (pre ++ mid ++ post)%string as [| c t] eqn:E.
  - cbn in Hinc. discriminate.
  - rewrite Hinc. reflexivity.
Qed.

Lemma html_is_document_witness :
  getResourceTypeFromMime (Some "application/xHTML+xml; charset=utf-8")
  = "document".
Proof.
  apply (html_is_document "application/x" "HTML" "+xml; charset=utf-8").
  reflexivity.
Defined.

Lemma leb_true (x y : number) : leb x y = true <-> x <= y.
Proof. unfold leb. apply Qle_bool_iff. Qed.

Lemma leb_false (x y : number) : leb x y = false -> y < x.
Proof.
  intros H. apply Qnot_le_lt. intro Hle. apply leb_true in Hle. congruence.
Qed.

(** X12.  Ratings are monotone in the value: when a value is rated
Good, every smaller value of the same metric is rated Good, and when a
value is rated Poor, every larger value is rated Poor. *)
Theorem rating_monotone (metricName : string) (v1 v2 : number) :
  v1 <= v2 ->
  (getRating metricName v2 = "Good" -> getRating metricName v1 = "Good")
  /\ (getRating metricName v1 = "Poor" -> getRating metricName v2 = "Poor").
Proof.
  intros Hle. unfold getRating.
  destruct (String.eqb metricName "LCP");
    [| destruct (String.eqb metricName "CLS");
       [| destruct (String.eqb metricName "TBT")]];
    try (split; discriminate);
    repeat match goal with
      | |- context [leb ?x ?y] =>
          let E := fresh "E" in destruct (leb x y) eqn:E
      end;
    split; intros H; try discriminate H; try reflexivity; exfalso;
    repeat match goal with
      | E : leb _ _ = true |- _ => apply leb_true in E
      | E : leb _ _ = false |- _ => apply leb_false in E
      end;
    lra.
Qed.

Lemma rating_monotone_witness :
  getRating "LCP" 1000 = "Good".
Proof.
  refine (proj1 (rating_monotone "LCP" 1000 2500 _) _).
  - vm_compute. discriminate.
  - reflexivity.
Defined.

Lemma calculateCls_from_nonneg (l : list LayoutShift) :
  (forall s, In s l -> 0 <= orZero (shift_value s)) ->
  forall a, 0 <= a ->
    0 <= fold_left (fun sum shift => sum + orZero (shift_value shift)) l a.
Proof.
  induction l as [| s l IH]; intros Hall a Ha; cbn [fold_left].
  - exact Ha.
  - apply IH.
    + intros s' Hs'. apply Hall. right. exact Hs'.
    + assert (H1 : 0 <= orZero (shift_value s))
        by (apply Hall; left; reflexivity).
      lra.
Qed.

(** X13.  The CLS score is a running total in the order of the list: a
shift appended to a list adds its value to the score of the list, and
nothing when it has no value; the score is not negative when no value
is, and appending a shift whose value is not negative does not lower
it. *)
Theorem cls_is_running_total (a : list LayoutShift) (s : LayoutShift) :
  calculateCls (a ++ [s]) = calculateCls a + orZero (shift_value s)
  /\ (shift_value s = None -> calculateCls (a ++ [s]) == calculateCls a)
  /\ ((forall x, In x a -> 0 <= orZero (shift_value x)) ->
      0 <= calculateCls a)
  /\ (0 <= orZero (shift_value s) ->
      calculateCls a <= calculateCls (a ++ [s])).
Proof.
  assert (Hsnoc : calculateCls (a ++ [s])
                  = calculateCls a + orZero (shift_value s)).
  { unfold calculateCls. rewrite fold_left_app. reflexivity. }
  split; [exact Hsnoc |]. split; [| split].
  - intros Hnone. rewrite Hsnoc, Hnone. cbn [orZero]. ring.
  - intros Hall. unfold calculateCls.
    apply calculateCls_from_nonneg; [exact Hall | lra].
  - intros Hs. rewrite Hsnoc. lra.
Qed.

Lemma cls_is_running_total_witness :
  0 <= calculateCls [Samples.shift_wide]
  /\ calculateCls [Samples.shift_wide]
     <= calculateCls [Samples.shift_wide; Samples.shift_plain].
Proof.
  split.
  - apply (proj1 (proj2 (proj2 (cls_is_running_total
                                  [Samples.shift_wide]
                                  Samples.shift_plain)))).
    intros s [<- | []]; vm_compute; discriminate.
  - apply (proj2 (proj2 (proj2 (cls_is_running_total
                                  [Samples.shift_wide]
                                  Samples.shift_plain)))).
    vm_compute. discriminate.
Defined.

End ReportScores.

(** ** The network waterfall *)

Module WaterfallFacts.
Import JS JSMore Types Report ReportMore JSFacts.

Lemma nan_lift2_Some (f : number -> number -> number) (a b : jsnumber)
    (r : number) :
  nan_lift2 f a b = Some r ->
  exists x y, a = Some x /\ b = Some y /\ r = f x y.
Proof.
  destruct a as [x |], b as [y |]; cbn; intros H; try discriminate.
  injection H as <-. eauto.
Qed.

(** A minimum that is not NaN is below each of its arguments, none of
which is NaN. *)
Lemma Math_min_Some (xs : list jsnumber) :
  forall (x : jsnumber) (m : number),
    Math_min x xs = Some m ->
    (exists x0, x = Some x0 /\ m <= x0)
    /\ forall y, In y xs -> exists y0, y = Some y0 /\ m <= y0.
Proof.
  unfold Math_min. induction xs as [| z xs IH]; intros x m H;
    cbn [fold_left] in H.
  - split; [exists m; split; [exact H | apply Qle_refl] |].
    intros y [].
  - destruct (IH _ _ H) as [[w [Hw Hmw]] Hrest].
    destruct (nan_lift2_Some _ _ _ _ Hw) as [x0 [z0 [-> [-> ->]]]].
    split.
    + exists x0. split; [reflexivity |].
      eapply Qle_trans; [exact Hmw | apply Q.le_min_l].
    + intros y [<- | Hy]; [| exact (Hrest y Hy)].
      exists z0. split; [reflexivity |].
      eapply Qle_trans; [exact Hmw | apply Q.le_min_r].
Qed.

(** A maximum that is not NaN is above each of its arguments. *)
Lemma Math_max_Some (xs : list jsnumber) (last : jsnumber) :
  forall M : number,
    Math_max xs last = Some M ->
    (exists l0, last = Some l0 /\ l0 <= M)
    /\ forall y, In y xs -> exists y0, y = Some y0 /\ y0 <= M.
Proof.
  unfold Math_max. induction xs as [| z xs IH]; intros M H;
    cbn [fold_right] in H.
  - split; [exists M; split; [exact H | apply Qle_refl] |].
    intros y [].
  - destruct (nan_lift2_Some _ _ _ _ H) as [z0 [w [-> [Hw ->]]]].
    destruct (IH _ Hw) as [[l0 [Hl Hl0]] Hrest].
    split.
    + exists l0. split; [exact Hl |].
      eapply Qle_trans; [exact Hl0 | apply Q.le_max_r].
    + intros y [<- | Hy].
      * exists z0. split; [reflexivity | apply Q.le_max_l].
      * destruct (Hrest y Hy) as [y0 [-> Hy0]]. exists y0.
        split; [reflexivity |].
        eapply Qle_trans; [exact Hy0 | apply Q.le_max_r].
Qed.

Lemma nan_gtb_Some (a : jsnumber) :
  nan_gtb a (Some 0) = true -> exists x, a = Some x /\ 0 < x.
Proof.
  destruct a as [x |]; cbn [nan_gtb]; [| discriminate].
  intros H. apply ltb_spec in H. eauto.
Qed.

End WaterfallFacts.

Module Waterfall.
Import JS JSMore Types Report ReportMore JSFacts WaterfallFacts.

(** X14.  Every bar of the network waterfall starts on the time axis:
for each request of a run, the start and duration percentages are
numbers (never NaN: when a start date of the run did not parse, both are
0) and the start percentage is not negative; for a request whose
duration is not negative the start percentage is at most 100 and the
duration percentage is not negative. *)
Theorem waterfall_bar_starts_on_axis (first : NetworkRequest)
    (others : list NetworkRequest) (entry : NetworkRequest) :
  In entry (first :: others) ->
  exists p d,
    startPctOf (waterfallStart first others) (waterfallSpan first others)
               entry = Some p
    /\ durationPctOf (waterfallSpan first others) entry = Some d
    /\ 0 <= p
    /\ (0 <= nr_duration entry -> p <= 100 /\ 0 <= d)
    /\ (forall x, In x (first :: others) -> nr_start_time x = None ->
        p = 0 /\ d = 0).
Proof.
  intros Hin. unfold startPctOf, durationPctOf.
  destruct (nan_gtb (waterfallSpan first others) (Some 0)) eqn:Hgt.
  - destruct (nan_gtb_Some _ Hgt) as [sp [Hsp Hpos]]. rewrite Hsp.
    unfold waterfallSpan, nan_sub in Hsp.
    destruct (nan_lift2_Some _ _ _ _ Hsp) as [M [st [HM [Hst Hspeq]]]].
    rewrite Hst.
    destruct (Math_max_Some _ _ _ HM) as [_ Hends].
    destruct (Hends (endTime entry) (in_map endTime _ _ Hin))
      as [v [Hv HvM]].
    unfold endTime, nan_add in Hv.
    destruct (nan_lift2_Some _ _ _ _ Hv) as [s0 [d0 [Hs0 [Hd0 Hveq]]]].
    injection Hd0 as <-. rewrite Hs0.
    assert (Hmin : st <= s0).
    { unfold waterfallStart in Hst.
      destruct (Math_min_Some _ _ _ Hst) as [[x0 [Hx0 Hle0]] Hrest].
      destruct Hin as [<- | Hin].
      - rewrite Hs0 in Hx0. injection Hx0 as <-. exact Hle0.
      - destruct (Hrest (nr_start_time entry)
                        (in_map nr_start_time _ _ Hin)) as [y0 [Hy0 Hle]].
        rewrite Hs0 in Hy0. injection Hy0 as <-. exact Hle. }
    cbn [nan_sub nan_div nan_mul nan_lift2].
    eexists. eexists. split; [reflexivity |]. split; [reflexivity |].
    assert (H1 : 0 <= (s0 - st) / sp)
      by (apply Qle_shift_div_l; [exact Hpos | lra]).
    split; [lra |]. split.
    + intros Hdur.
      assert (H2 : (s0 - st) / sp <= 1).
      { apply Qle_shift_div_r; [exact Hpos |]. subst sp v. lra. }
      assert (H3 : 0 <= nr_duration entry / sp)
        by (apply Qle_shift_div_l; [exact Hpos | lra]).
      split; lra.
    + intros x Hx Hnone. exfalso.
      destruct (Hends (endTime x) (in_map endTime _ _ Hx)) as [w [Hw _]].
      unfold endTime, nan_add in Hw. rewrite Hnone in Hw.
      cbn [nan_lift2] in Hw. discriminate Hw.
  - exists 0, 0. split; [reflexivity |]. split; [reflexivity |].
    split; [lra |]. split; [intros _; split; lra |].
    intros x _ _. split; reflexivity.
Qed.

(** On two records of [Samples]: the bar of the second one. *)
Lemma waterfall_bar_starts_on_axis_witness :
  exists p d,
    startPctOf
      (waterfallStart
         (parseEntry Samples.date_getTime None Samples.entry_full)
         [parseEntry Samples.date_getTime None Samples.entry_example])
      (waterfallSpan
         (parseEntry Samples.date_getTime None Samples.entry_full)
         [parseEntry Samples.date_getTime None Samples.entry_example])
      (parseEntry Samples.date_getTime None Samples.entry_example)
    = Some p
    /\ durationPctOf
         (waterfallSpan
            (parseEntry Samples.date_getTime None Samples.entry_full)
            [parseEntry Samples.date_getTime None Samples.entry_example])
         (parseEntry Samples.date_getTime None Samples.entry_example)
       = Some d
    /\ 0 <= p /\ p <= 100 /\ 0 <= d.
Proof.
  destruct (waterfall_bar_starts_on_axis
              (parseEntry Samples.date_getTime None Samples.entry_full)
              [parseEntry Samples.date_getTime None Samples.entry_example]
              (parseEntry Samples.date_getTime None Samples.entry_example)
              (or_intror (or_introl eq_refl)))
    as (p & d & Hp & Hd & H0 & Hdur & _).
  exists p, d. split; [exact Hp |]. split; [exact Hd |].
  split; [exact H0 |]. apply Hdur. vm_compute. discriminate.
Defined.

End Waterfall.

(** ** The label of a network row *)

Module SplitFacts.
Import JS JSMore.

Lemma split_nonempty (sep : ascii) (s : string) : split sep s <> [].
Proof.
  destruct s as [| c t]; cbn [split]; [discriminate |].
  destruct (Ascii.eqb c sep); [discriminate |].
  destruct (split sep t); discriminate.
Qed.

(** A string without the separator is its own single piece. *)
Lemma split_without_sep (sep : ascii) (s : string) :
  (forall c, In c (list_ascii_of_string s) -> c <> sep) ->
  split sep s = [s].
Proof.
  induction s as [| c t IH]; intros H; cbn [split]; [reflexivity |].
  destruct (Ascii.eqb_spec c sep) as [-> | _].
  - exfalso. apply (H sep); [left |]; reflexivity.
  - rewrite IH; [reflexivity |].
    intros c' Hc'. apply H. right. exact Hc'.
Qed.

(** Splitting around an occurrence of the separator. *)
Lemma split_app (sep : ascii) (a b : string) :
  split sep (a ++ String sep b) = (split sep a ++ split sep b)%list.
Proof.
  induction a as [| c a IH]; cbn [append split].
  - rewrite Ascii.eqb_refl. reflexivity.
  - destruct (Ascii.eqb c sep).
    + rewrite IH. reflexivity.
    + rewrite IH. destruct (split sep a) as [| p ps] eqn:E.
      * exfalso. exact (split_nonempty sep a E).
      * reflexivity.
Qed.

Lemma nth_last {A : Type} (l : list A) (a d : A) :
  nth (List.length (l ++ [a]) - 1) (l ++ [a]) d = a.
Proof.
  rewrite length_app. cbn [List.length].
  replace (List.length l + 1 - 1)%nat with (List.length l) by lia.
  rewrite app_nth2 by lia. rewrite Nat.sub_diag. reflexivity.
Qed.

Lemma substring_length_le (n : nat) (s : string) :
  (String.length (substring 0 n s) <= n)%nat.
Proof.
  revert s. induction n as [| n IH]; intros s.
  - destruct s; cbn; lia.
  - destruct s as [| c t]; cbn [substring String.length]; [lia |].
    specialize (IH t). lia.
Qed.

Lemma string_app_assoc (a b c : string) :
  ((a ++ b) ++ c)%string = (a ++ (b ++ c))%string.
Proof.
  induction a as [| x a IH]; cbn [append]; [reflexivity |].
  rewrite IH. reflexivity.
Qed.

Lemma in_app_string (c : ascii) (a b : string) :
  In c (list_ascii_of_string (a ++ b)) ->
  In c (list_ascii_of_string a) \/ In c (list_ascii_of_string b).
Proof.
  induction a as [| x a IH]; cbn [append list_ascii_of_string].
  - intros H. right. exact H.
  - intros [<- | H]; [left; left; reflexivity |].
    destruct (IH H) as [H' | H']; [left; right; exact H' | right; exact H'].
Qed.

End SplitFacts.

Module RowLabel.
Import JS JSMore Types Report ReportMore SplitFacts.

(** X15.  The label of a network row has at most 60 characters.  For a
URL made of a prefix, a slash and a non-empty last segment, the label is
the first 60 characters of that segment, whether the URL stops there,
goes on with a query string, or ends with one more slash. *)
Theorem row_label_is_last_segment (pre name query : string) :
  (forall u, (String.length (rowFilename u) <= 60)%nat)
  /\ ((forall c, In c (list_ascii_of_string pre) -> c <> "?"%char) ->
      (forall c, In c (list_ascii_of_string name) ->
                 c <> "?"%char /\ c <> "/"%char) ->
      name <> EmptyString ->
      rowFilename (pre ++ String "/" name) = substring 0 60 name
      /\ rowFilename (pre ++ String "/" name ++ String "?" query)
         = substring 0 60 name
      /\ rowFilename (pre ++ String "/" (name ++ String "/" EmptyString))
         = substring 0 60 name).
Proof.
  split; [intros u; apply substring_length_le |].
  intros Hpre Hname Hne.
  assert (Hq : forall c,
             In c (list_ascii_of_string (pre ++ String "/" name)) ->
             c <> "?"%char).
  { intros c Hc. apply in_app_string in Hc as [Hc | Hc];
      [exact (Hpre c Hc) |].
    destruct Hc as [<- | Hc]; [discriminate | exact (proj1 (Hname c Hc))]. }
  assert (Hslash : split "/" name = [name]).
  { apply split_without_sep. intros c Hc. exact (proj2 (Hname c Hc)). }
  assert (Hlabel : forall u,
             hd EmptyString (split "?" u) = (pre ++ String "/" name)%string
             -> rowFilename u = substring 0 60 name).
  { intros u Hu. unfold rowFilename. rewrite Hu, split_app, Hslash.
    rewrite nth_last. destruct name; [contradiction Hne; reflexivity |].
    reflexivity. }
  split; [| split].
  - apply Hlabel. rewrite (split_without_sep "?" _ Hq). reflexivity.
  - apply Hlabel.
    replace (pre ++ String "/" name ++ String "?" query)%string
      with ((pre ++ String "/" name) ++ String "?" query)%string.
    + rewrite split_app, (split_without_sep "?" _ Hq). reflexivity.
    + rewrite string_app_assoc. reflexivity.
  - unfold rowFilename.
    assert (Hq' : forall c,
               In c (list_ascii_of_string
                       (pre ++ String "/" (name ++ String "/" EmptyString)))
               -> c <> "?"%char).
    { intros c Hc. apply in_app_string in Hc as [Hc | Hc];
        [exact (Hpre c Hc) |].
      destruct Hc as [<- | Hc]; [discriminate |].
      apply in_app_string in Hc as [Hc | Hc];
        [exact (proj1 (Hname c Hc)) |].
      destruct Hc as [<- | []]. discriminate. }
    rewrite (split_without_sep "?" _ Hq'). cbn [hd].
    rewrite split_app, split_app, Hslash. cbn [split].
    replace (split "/" pre ++ [name] ++ [EmptyString])%list
      with ((split "/" pre ++ [name]) ++ [EmptyString])%list
      by (rewrite <- app_assoc; reflexivity).
    rewrite nth_last.
    rewrite !length_app. cbn [List.length].
    replace (List.length (split "/" pre) + 1 + 1 - 2)%nat
      with (List.length (split "/" pre)) by lia.
    replace (1 <? List.length (split "/" pre) + 1 + 1)%nat with true
      by (symmetry; apply Nat.ltb_lt; lia).
    rewrite <- app_assoc, app_nth2 by lia. rewrite Nat.sub_diag.
    reflexivity.
Qed.

Lemma row_label_is_last_segment_witness :
  rowFilename "https://example.com/assets/app.js?v=3" = "app.js".
Proof.
  apply (proj1 (proj2 (proj2 (row_label_is_last_segment
                                "https://example.com/assets" "app.js"
                                "v=3")
                               ltac:(intros c H; vm_compute in H;
                                     repeat (destruct H as [<- | H];
                                             [discriminate |]);
                                     destruct H)
                               ltac:(intros c H; vm_compute in H;
                                     repeat (destruct H as [<- | H];
                                             [split; discriminate |]);
                                     destruct H)
                               ltac:(discriminate)))).
Defined.

End RowLabel.

(** ** The files of a run *)

Module RunFiles.
Import JS JSMore Types Report ReportMore.

Lemma filter_head {A : Type} (p : A -> bool) (l : list A) (a : A)
    (rest : list A) :
  filter p l = a :: rest -> In a l /\ p a = true.
Proof.
  intros H. apply filter_In. rewrite H. left. reflexivity.
Qed.

Lemma filter_nil {A : Type} (p : A -> bool) (l : list A) :
  filter p l = [] -> forall x, In x l -> p x = false.
Proof.
  intros H x Hx. destruct (p x) eqn:E; [| reflexivity].
  assert (Hin : In x (filter p l)) by (apply filter_In; auto).
  rewrite H in Hin. destruct Hin.
Qed.

(** X16.  [findVideoFile] returns a file of the directory whose name
ends with [.webm] or [.mp4]; a [.mp4] file is returned only when the
directory has no [.webm] file; nothing is returned exactly when the
directory has neither. *)
Theorem video_file_webm_first (dir : list string) :
  (forall f, findVideoFile dir = Some f ->
     In f dir
     /\ (endsWith f ".webm" = true
         \/ (endsWith f ".mp4" = true
             /\ forall g, In g dir -> endsWith g ".webm" = false)))
  /\ (findVideoFile dir = None <->
      forall g, In g dir ->
                endsWith g ".webm" = false /\ endsWith g ".mp4" = false).
Proof.
  unfold findVideoFile. cbn [findByExtensions append].
  destruct (filter (fun f => endsWith f ".webm") dir) as [| w ws] eqn:Ew.
  - pose proof (filter_nil _ _ Ew) as Hnow.
    destruct (filter (fun f => endsWith f ".mp4") dir) as [| m ms] eqn:Em.
    + pose proof (filter_nil _ _ Em) as Hnom.
      split; [intros f H; discriminate H |].
      split; [intros _ g Hg; auto | reflexivity].
    + destruct (filter_head _ _ _ _ Em) as [Hin Hm].
      split.
      * intros f H. injection H as <-. split; [exact Hin |].
        right. split; [exact Hm | exact Hnow].
      * split; [discriminate |].
        intros H. destruct (H m Hin) as [_ H']. cbv beta in Hm. congruence.
  - destruct (filter_head _ _ _ _ Ew) as [Hin Hw].
    split.
    + intros f H. injection H as <-. split; [exact Hin | left; exact Hw].
    + split; [discriminate |].
      intros H. destruct (H w Hin) as [H' _]. cbv beta in Hw. congruence.
Qed.

Lemma video_file_webm_first_witness :
  In "run.webm" ["pageload.har"; "clip.mp4"; "run.webm"]
  /\ (endsWith "run.webm" ".webm" = true
      \/ (endsWith "run.webm" ".mp4" = true
          /\ forall g, In g ["pageload.har"; "clip.mp4"; "run.webm"] ->
                       endsWith g ".webm" = false)).
Proof.
  apply (proj1 (video_file_webm_first
                  ["pageload.har"; "clip.mp4"; "run.webm"])).
  reflexivity.
Defined.

(** X17.  [findFilmstripImages] lists exactly the [.png] and [.jpg]
files of the filmstrip directory, each once per occurrence, in ascending
order of their names, each with the path [filmstrip/] followed by its
name; without the directory the list is empty. *)
Theorem filmstrip_images_sorted (listing : list string) :
  Sorted (fun a b => String.leb a b = true)
         (map fi_filename (findFilmstripImages (Some listing)))
  /\ Permutation
       (filter (fun f => endsWith f ".png" || endsWith f ".jpg") listing)
       (map fi_filename (findFilmstripImages (Some listing)))
  /\ Forall (fun img => fi_path img = ("filmstrip/" ++ fi_filename img)%string)
            (findFilmstripImages (Some listing))
  /\ findFilmstripImages None = [].
Proof.
  cbn [findFilmstripImages]. rewrite map_map. cbn [fi_filename].
  rewrite map_id.
  split; [exact (StringSort.Sorted_sort _) |].
  split; [apply StringSort.Permuted_sort |].
  split; [| reflexivity].
  apply Forall_forall. intros img Himg.
  apply in_map_iff in Himg as [f [<- _]]. reflexivity.
Qed.

End RunFiles.

(** ** The label of a filmstrip image *)

Module ReplaceFacts.
Import JS JSMore.

(** [replace] passes over the characters that differ from the first
character of the pattern. *)
Lemma replace_skip (p : ascii) (pat' rep : string) (d rest : string) :
  (forall c, In c (list_ascii_of_string d) -> c <> p) ->
  replace (String p pat') rep (d ++ rest)
  = (d ++ replace (String p pat') rep rest)%string.
Proof.
  induction d as [| c d IH]; intros H; [reflexivity |].
  cbn [append]. cbn [replace String.prefix].
  destruct (ascii_dec p c) as [-> | _].
  - exfalso. apply (H c); [left |]; reflexivity.
  - rewrite IH; [reflexivity |].
    intros c' Hc'. apply H. right. exact Hc'.
Qed.

Lemma substring_all (s : string) : substring 0 (String.length s) s = s.
Proof.
  induction s as [| c s IH]; cbn [String.length substring]; [reflexivity |].
  rewrite IH. reflexivity.
Qed.

Lemma append_empty (s : string) : (s ++ "")%string = s.
Proof.
  induction s as [| c s IH]; cbn [append]; [reflexivity |].
  rewrite IH. reflexivity.
Qed.

Lemma string_length_app (a b : string) :
  String.length (a ++ b) = (String.length a + String.length b)%nat.
Proof.
  induction a as [| c a IH]; cbn [append String.length]; [reflexivity |].
  rewrite IH. reflexivity.
Qed.

Lemma substring_drop (a b : string) (n : nat) :
  substring (String.length a) n (a ++ b) = substring 0 n b.
Proof.
  induction a as [| c a IH]; cbn [append String.length substring];
    [reflexivity | exact IH].
Qed.

Lemma replace_eq (pat rep s : string) :
  replace pat rep s
  = if String.prefix pat s
    then (rep ++ substring (String.length pat)
                           (String.length s - String.length pat) s)%string
    else
      match s with
      | EmptyString => EmptyString
      | String c t => String c (replace pat rep t)
      end.
Proof. destruct s; reflexivity. Qed.

(** [replace] rewrites the pattern where the string starts with it. *)
Lemma replace_here (pat rep rest : string) :
  replace pat rep (pat ++ rest) = (rep ++ rest)%string.
Proof.
  rewrite replace_eq, ClassifyFacts.prefix_app.
  rewrite substring_drop, string_length_app.
  replace (String.length pat + String.length rest - String.length pat)%nat
    with (String.length rest) by lia.
  rewrite substring_all. reflexivity.
Qed.

Lemma digits_differ_from (x : ascii) (a : string) :
  isDigit x = false ->
  Forall (fun c => isDigit c = true) (list_ascii_of_string a) ->
  forall c, In c (list_ascii_of_string a) -> c <> x.
Proof.
  intros Hx Ha c Hc ->. rewrite Forall_forall in Ha.
  rewrite (Ha x Hc) in Hx. discriminate.
Qed.

End ReplaceFacts.

Module FilmstripLabel.
Import JS JSMore Types Report ReportMore ReplaceFacts SplitFacts.

(** X18.  The timestamp shown under a filmstrip image is derived from
its file name by removing [.png] and [frame_] and turning the first
underscore into a dot.  For frame numbers [d] and [e] made of digits,
[frame_d.png] is labelled [d] followed by [ms] and [frame_d_e.png] is
labelled [d.e] followed by [ms]; the extension [.jpg] is not removed:
[frame_d.jpg] is labelled [d.jpgms]. *)
Theorem filmstrip_timestamp_label (d e : string) :
  Forall (fun c => isDigit c = true) (list_ascii_of_string d) ->
  Forall (fun c => isDigit c = true) (list_ascii_of_string e) ->
  filmstripTimestamp ("frame_" ++ d ++ ".png") = (d ++ "ms")%string
  /\ filmstripTimestamp ("frame_" ++ d ++ "_" ++ e ++ ".png")
     = (d ++ "." ++ e ++ "ms")%string
  /\ filmstripTimestamp ("frame_" ++ d ++ ".jpg") = (d ++ ".jpgms")%string.
Proof.
  intros Hd He.
  pose proof (digits_differ_from "." d eq_refl Hd) as Hd_dot.
  pose proof (digits_differ_from "_" d eq_refl Hd) as Hd_und.
  pose proof (digits_differ_from "." e eq_refl He) as He_dot.
  assert (Hfd : forall c, In c (list_ascii_of_string ("frame_" ++ d)) ->
                          c <> "."%char).
  { intros c Hc. apply in_app_string in Hc as [Hc | Hc];
      [| exact (Hd_dot c Hc)].
    cbn in Hc. repeat (destruct Hc as [<- | Hc]; [discriminate |]).
    destruct Hc. }
  unfold filmstripTimestamp. split; [| split].
  - replace ("frame_" ++ d ++ ".png")%string
      with (("frame_" ++ d) ++ ".png")%string
      by (rewrite string_app_assoc; reflexivity).
    rewrite (replace_skip "." "png" "" _ ".png" Hfd).
    change (replace ".png" "" ".png") with EmptyString.
    rewrite append_empty, replace_here. cbn [append].
    rewrite <- (append_empty d) at 1.
    rewrite (replace_skip "_" "" "." d "" Hd_und).
    change (replace "_" "." "") with EmptyString.
    rewrite append_empty. reflexivity.
  - replace ("frame_" ++ d ++ "_" ++ e ++ ".png")%string
      with ((("frame_" ++ d) ++ "_") ++ e ++ ".png")%string
      by (rewrite !string_app_assoc; reflexivity).
    assert (Hfdu : forall c,
               In c (list_ascii_of_string (("frame_" ++ d) ++ "_")) ->
               c <> "."%char).
    { intros c Hc. apply in_app_string in Hc as [Hc | Hc];
        [exact (Hfd c Hc) |].
      destruct Hc as [<- | []]. discriminate. }
    rewrite (replace_skip "." "png" "" _ _ Hfdu).
    rewrite (replace_skip "." "png" "" e ".png" He_dot).
    change (replace ".png" "" ".png") with EmptyString.
    rewrite append_empty, !string_app_assoc, replace_here. cbn [append].
    rewrite (replace_skip "_" "" "." d _ Hd_und).
    change (String "_" e) with ("_" ++ e)%string.
    rewrite (replace_here "_" "." e). rewrite !string_app_assoc.
    reflexivity.
  - replace ("frame_" ++ d ++ ".jpg")%string
      with (("frame_" ++ d) ++ ".jpg")%string
      by (rewrite string_app_assoc; reflexivity).
    rewrite (replace_skip "." "png" "" _ ".jpg" Hfd).
    change (replace ".png" "" ".jpg") with ".jpg".
    rewrite string_app_assoc, replace_here. cbn [append].
    rewrite (replace_skip "_" "" "." d ".jpg" Hd_und).
    change (replace "_" "." ".jpg") with ".jpg".
    rewrite string_app_assoc. reflexivity.
Qed.

Lemma filmstrip_timestamp_label_witness :
  filmstripTimestamp "frame_12.jpg" = "12.jpgms".
Proof.
  refine (proj2 (proj2 (filmstrip_timestamp_label "12" "345" _ _)));
    repeat constructor.
Defined.

End FilmstripLabel.

(** ** Layout-shift overlays: what is listed and where *)

Module Overlays.
Import JS Types Report JSFacts TimingFacts ViewportFacts.

(** X19.  A rectangle of a shift whose left and width are not negative
and at most its right edge is scaled to a left and a width percentage
that each lie between 0 and 100 of the viewport of the shift; the same
holds for top and height against bottom. *)
Theorem overlay_rectangle_within_viewport (shift : LayoutShift)
    (s : LayoutShiftSource) (r : LayoutShiftSourceRect) :
  In s (shiftSources shift) ->
  r = rectOrEmpty (previousRect s) \/ r = rectOrEmpty (currentRect s) ->
  (0 <= orZero (rect_left r) ->
   orZero (rect_left r) <= orZero (rect_right r) ->
   0 <= orZero (rect_width r) ->
   orZero (rect_width r) <= orZero (rect_right r) ->
   (0 <= viewportPct (fst (shiftViewport (shiftSources shift)))
                     (rect_left r)
    /\ viewportPct (fst (shiftViewport (shiftSources shift))) (rect_left r)
       <= 100)
   /\ (0 <= viewportPct (fst (shiftViewport (shiftSources shift)))
                        (rect_width r)
       /\ viewportPct (fst (shiftViewport (shiftSources shift)))
                      (rect_width r)
          <= 100))
  /\ (0 <= orZero (rect_top r) ->
      orZero (rect_top r) <= orZero (rect_bottom r) ->
      0 <= orZero (rect_height r) ->
      orZero (rect_height r) <= orZero (rect_bottom r) ->
      (0 <= viewportPct (snd (shiftViewport (shiftSources shift)))
                        (rect_top r)
       /\ viewportPct (snd (shiftViewport (shiftSources shift)))
                      (rect_top r)
          <= 100)
      /\ (0 <= viewportPct (snd (shiftViewport (shiftSources shift)))
                           (rect_height r)
          /\ viewportPct (snd (shiftViewport (shiftSources shift)))
                         (rect_height r)
             <= 100)).
Proof.
  intros Hin Hr.
  assert (Hright : orZero (rect_right r)
                   <= fst (shiftViewport (shiftSources shift))).
  { unfold shiftViewport. rewrite fold_viewport_fst.
    destruct (maxFold_ge_elem _
                (fun s => orZero (rect_right (rectOrEmpty (previousRect s))))
                (fun s => orZero (rect_right (rectOrEmpty (currentRect s))))
                (shiftSources shift) defaultViewportWidth s Hin)
      as [H1 H2].
    destruct Hr as [-> | ->]; assumption. }
  assert (Hbottom : orZero (rect_bottom r)
                    <= snd (shiftViewport (shiftSources shift))).
  { unfold shiftViewport. rewrite fold_viewport_snd.
    destruct (maxFold_ge_elem _
                (fun s => orZero (rect_bottom (rectOrEmpty (previousRect s))))
                (fun s => orZero (rect_bottom (rectOrEmpty (currentRect s))))
                (shiftSources shift) defaultViewportHeight s Hin)
      as [H1 H2].
    destruct Hr as [-> | ->]; assumption. }
  unfold viewportPct.
  split; intros Ha Hae Hb Hbe; split; apply pctIf_range; lra.
Qed.

Lemma overlay_rectangle_within_viewport_witness :
  0 <= viewportPct (fst (shiftViewport (shiftSources Samples.shift_wide)))
                   (rect_width Samples.rect_full)
  /\ viewportPct (fst (shiftViewport (shiftSources Samples.shift_wide)))
                 (rect_width Samples.rect_full)
     <= 100.
Proof.
  refine (proj2 (proj1 (overlay_rectangle_within_viewport
                          Samples.shift_wide
                          {| previousRect := Some Samples.rect_full;
                             currentRect := Some Samples.rect_wide |}
                          Samples.rect_full _ _) _ _ _ _)).
  - left. reflexivity.
  - left. reflexivity.
  - vm_compute. discriminate.
  - vm_compute. discriminate.
  - vm_compute. discriminate.
  - vm_compute. discriminate.
Defined.

Lemma filterMap_nil {A B : Type} (f : A -> option B) (l : list A) :
  (forall a, In a l -> f a = None) -> filterMap f l = [].
Proof.
  induction l as [| a l IH]; intros H; cbn [filterMap]; [reflexivity |].
  rewrite (H a (or_introl eq_refl)). apply IH.
  intros a' Ha'. apply H. right. exact Ha'.
Qed.

Lemma filterMap_length {A B : Type} (f : A -> option B) (l : list A) :
  (List.length (filterMap f l) <= List.length l)%nat.
Proof.
  induction l as [| a l IH]; cbn [filterMap List.length]; [lia |].
  destruct (f a); cbn [List.length]; lia.
Qed.

(** X20.  The report lists an overlay only for a shift with at least one
rectangle of non-zero current width and height: every overlay listed
belongs to a shift of the run, has at least one rectangle and reports
their number; a shift whose rectangles all have a zero (or missing)
current width or height is left out; so there are at most as many
overlays as shifts. *)
Theorem overlays_have_rectangles (shifts : list LayoutShift) :
  (forall lv, In lv (layoutVisualData shifts) ->
     lv_sourceVisualData lv <> []
     /\ lv_sources lv = List.length (lv_sourceVisualData lv)
     /\ exists shift, In shift shifts /\ shiftVisual shift = Some lv)
  /\ (forall shift,
         (forall s, In s (shiftSources shift) ->
            orZero (rect_width (rectOrEmpty (currentRect s))) == 0
            \/ orZero (rect_height (rectOrEmpty (currentRect s))) == 0) ->
         shiftVisual shift = None)
  /\ (List.length (layoutVisualData shifts) <= List.length shifts)%nat.
Proof.
  split; [| split].
  - intros lv Hlv. unfold layoutVisualData in Hlv.
    destruct (filterMap_In _ _ _ Hlv) as [shift [Hin Hsv]].
    split; [| split; [| exists shift; auto]].
    + unfold shiftVisual in Hsv.
      destruct (filterMap _ (shiftSources shift)); [discriminate |].
      injection Hsv as <-. discriminate.
    + unfold shiftVisual in Hsv.
      destruct (filterMap _ (shiftSources shift)); [discriminate |].
      injection Hsv as <-. reflexivity.
  - intros shift Hall. unfold shiftVisual.
    rewrite filterMap_nil; [reflexivity |].
    intros s Hs. unfold sourceVisual.
    destruct (Hall s Hs) as [Hz | Hz]; apply Qeq_bool_iff in Hz;
      rewrite Hz; [| rewrite orb_true_r]; reflexivity.
  - apply filterMap_length.
Qed.

End Overlays.

Module OverlaysInstances.
Import JS Types Report.

(** A shift whose only source has no current rectangle gives no
overlay. *)
Lemma overlays_have_rectangles_witness :
  shiftVisual
    (mkLayoutShift (Some 40) (Some 0.1)
                   (Some [mkSource (Some Samples.rect_full) None]))
  = None.
Proof.
  apply (proj1 (proj2 (Overlays.overlays_have_rectangles []))).
  intros s [<- | []]. left. vm_compute. reflexivity.
Defined.

End OverlaysInstances.

(** ** Filmstrip frames *)

Module FrameFacts.
Import JS JSMore Types RunnerMore.

Lemma insertFrame_perm (f : FilmstripFrame) (l : list FilmstripFrame) :
  Permutation (f :: l) (insertFrame f l).
Proof.
  induction l as [| g l IH]; cbn [insertFrame]; [reflexivity |].
  destruct (num f <=? num g)%N; [reflexivity |].
  rewrite perm_swap. constructor. exact IH.
Qed.

Lemma sortFrames_perm (l : list FilmstripFrame) :
  Permutation l (sortFrames l).
Proof.
  induction l as [| f l IH]; cbn [sortFrames fold_right]; [constructor |].
  rewrite <- insertFrame_perm. constructor. exact IH.
Qed.

Lemma insertFrame_hd (f x : FilmstripFrame) (l : list FilmstripFrame) :
  (num x <= num f)%N -> HdRel (fun a b => (num a <= num b)%N) x l ->
  HdRel (fun a b => (num a <= num b)%N) x (insertFrame f l).
Proof.
  intros Hxf Hhd. destruct l as [| g l]; cbn [insertFrame].
  - constructor. exact Hxf.
  - destruct (num f <=? num g)%N; constructor; [exact Hxf |].
    inversion Hhd; assumption.
Qed.

Lemma insertFrame_sorted (f : FilmstripFrame) (l : list FilmstripFrame) :
  Sorted (fun a b => (num a <= num b)%N) l ->
  Sorted (fun a b => (num a <= num b)%N) (insertFrame f l).
Proof.
  induction 1 as [| g l Hs IH Hhd]; cbn [insertFrame].
  - repeat constructor.
  - destruct (N.leb_spec (num f) (num g)) as [Hle | Hlt].
    + constructor; [constructor; assumption | constructor; exact Hle].
    + constructor; [exact IH |].
      apply insertFrame_hd; [lia | exact Hhd].
Qed.

Lemma sortFrames_sorted (l : list FilmstripFrame) :
  Sorted (fun a b => (num a <= num b)%N) (sortFrames l).
Proof.
  induction l as [| f l IH]; cbn [sortFrames fold_right]; [constructor |].
  apply insertFrame_sorted. exact IH.
Qed.

(** A list sorted for one order is sorted for another one that the
first implies on the elements of the list. *)
Lemma Sorted_transfer {A : Type} (R R' : A -> A -> Prop) (P : A -> Prop)
    (l : list A) :
  (forall a b, P a -> P b -> R a b -> R' a b) ->
  Forall P l -> Sorted R l -> Sorted R' l.
Proof.
  intros Himp Hall Hs. induction Hs as [| a l Hs IH Hhd]; [constructor |].
  inversion Hall as [| ? ? Pa Pl]; subst.
  constructor; [exact (IH Pl) |].
  destruct Hhd as [| b l' Hab]; constructor.
  inversion Pl; subst. apply Himp; assumption.
Qed.

End FrameFacts.

Module Frames.
Import JS JSMore Types RunnerMore FrameFacts.

(** X21.  The frames of the filmstrip are the extracted files, each once,
in ascending order of their frame number; with a positive frame rate
they are also in ascending order of their time, which is the frame
number times 1000 divided by the frame rate, rounded down. *)
Theorem filmstrip_frames_in_order (frameRate : option number)
    (files : list string) :
  Permutation (map (frameOf (frameRateOf frameRate)) files)
              (createFilmStrip frameRate files)
  /\ Sorted (fun a b => (num a <= num b)%N)
            (createFilmStrip frameRate files)
  /\ Forall (fun f =>
               ms f = Math_floor (inject_Z (Z.of_N (num f) * 1000)
                                  / frameRateOf frameRate))
            (createFilmStrip frameRate files)
  /\ (0 < frameRateOf frameRate ->
      Sorted (fun a b => (ms a <= ms b)%Z)
             (createFilmStrip frameRate files)).
Proof.
  unfold createFilmStrip.
  assert (Hms : Forall (fun f =>
                   ms f = Math_floor (inject_Z (Z.of_N (num f) * 1000)
                                      / frameRateOf frameRate))
                  (sortFrames (map (frameOf (frameRateOf frameRate))
                                   files))).
  { apply Forall_forall. intros f Hf.
    apply (Permutation_in _ (Permutation_sym (sortFrames_perm _))) in Hf.
    apply in_map_iff in Hf as [name [<- _]]. reflexivity. }
  split; [apply sortFrames_perm |].
  split; [apply sortFrames_sorted |].
  split; [exact Hms |].
  intros Hpos.
  refine (Sorted_transfer _ _ _ _ _ Hms (sortFrames_sorted _)).
  intros a b Ha Hb Hab. cbv beta in Ha, Hb, Hab.
  rewrite Ha, Hb. unfold Math_floor.
  apply Qfloor_resp_le.
  apply Qmult_le_compat_r.
  - rewrite <- Zle_Qle. lia.
  - apply Qlt_le_weak, Qinv_lt_0_compat. exact Hpos.
Qed.

Lemma filmstrip_frames_in_order_witness :
  Sorted (fun a b => (ms a <= ms b)%Z)
         (createFilmStrip (Some 2)
                          ["filmstrip/frame_3.jpg"; "filmstrip/frame_1.jpg";
                           "filmstrip/frame_2.jpg"]).
Proof.
  apply (proj2 (proj2 (proj2 (filmstrip_frames_in_order
                                (Some 2)
                                ["filmstrip/frame_3.jpg";
                                 "filmstrip/frame_1.jpg";
                                 "filmstrip/frame_2.jpg"])))).
  vm_compute. reflexivity.
Defined.

End Frames.

(** ** The number of a frame *)

Module FrameNumberFacts.
Import JS JSMore Types RunnerMore ReplaceFacts SplitFacts.

Lemma list_of_app (a b : string) :
  list_ascii_of_string (a ++ b)
  = (list_ascii_of_string a ++ list_ascii_of_string b)%list.
Proof.
  induction a as [| c a IH]; cbn [append list_ascii_of_string app];
    [reflexivity |].
  rewrite IH. reflexivity.
Qed.

Lemma substring_prefix (a b : string) :
  substring 0 (String.length a) (a ++ b) = a.
Proof.
  induction a as [| c a IH]; cbn [append String.length substring].
  - destruct b; reflexivity.
  - rewrite IH. reflexivity.
Qed.

Lemma substring_shift (a b : string) (k m : nat) :
  substring (String.length a + k) m (a ++ b) = substring k m b.
Proof.
  induction a as [| c a IH]; cbn [append String.length substring Nat.add];
    [reflexivity | exact IH].
Qed.

Lemma get_shift (a b : string) (k : nat) :
  get (String.length a + k) (a ++ b) = get k b.
Proof.
  induction a as [| c a IH]; cbn [append String.length get Nat.add];
    [reflexivity | exact IH].
Qed.

Lemma takeWhile_all {A : Type} (p : A -> bool) (l rest : list A) :
  Forall (fun a => p a = true) l ->
  match rest with [] => True | a :: _ => p a = false end ->
  takeWhile p (l ++ rest) = l.
Proof.
  induction 1 as [| a l Ha _ IH]; intros Hrest; cbn [app takeWhile].
  - destruct rest as [| a rest]; cbn [takeWhile]; [reflexivity |].
    rewrite Hrest. reflexivity.
  - rewrite Ha, (IH Hrest). reflexivity.
Qed.

(** The digits a string ends with, when what precedes them does not end
with a digit. *)
Lemma trailingDigits_app (pre ds : string) :
  Forall (fun c => isDigit c = true) (list_ascii_of_string ds) ->
  (pre = EmptyString
   \/ exists p c, pre = (p ++ String c EmptyString)%string
                  /\ isDigit c = false) ->
  trailingDigits (pre ++ ds) = ds.
Proof.
  intros Hds Hpre. unfold trailingDigits.
  rewrite list_of_app, rev_app_distr.
  rewrite takeWhile_all.
  - rewrite rev_involutive. apply string_of_list_ascii_of_string.
  - apply Forall_rev. exact Hds.
  - destruct Hpre as [-> | [p [c [-> Hc]]]]; [exact I |].
    rewrite list_of_app, rev_app_distr. exact Hc.
Qed.

Lemma printed_digits (d : Decimal.uint) :
  Forall (fun c => isDigit c = true)
         (list_ascii_of_string (NilEmpty.string_of_uint d)).
Proof.
  induction d; cbn [NilEmpty.string_of_uint list_ascii_of_string];
    constructor; try reflexivity; assumption.
Qed.

Lemma digits_printed (n : N) :
  Forall (fun c => isDigit c = true)
         (list_ascii_of_string (digits (Z.of_N n)))
  /\ digits (Z.of_N n) <> EmptyString
  /\ parseInt (digits (Z.of_N n)) = n.
Proof.
  unfold digits, parseInt. rewrite N2Z.id.
  assert (Hnn : N.to_uint n <> Decimal.Nil).
  { destruct n as [| p]; [discriminate |].
    apply DecimalPos.Unsigned.to_uint_nonnil. }
  split; [| split].
  - unfold NilZero.string_of_uint.
    destruct (N.to_uint n) eqn:E; try (rewrite <- E; apply printed_digits).
    contradiction Hnn. reflexivity.
  - unfold NilZero.string_of_uint.
    destruct (N.to_uint n); cbn; discriminate.
  - rewrite (NilZero.usu _ Hnn). apply DecimalN.Unsigned.of_to.
Qed.

End FrameNumberFacts.

Module FrameNumber.
Import JS JSMore Types RunnerMore ReplaceFacts SplitFacts FrameNumberFacts.

(** X22.  The number of a frame is read back from its file name: for a
name made of a prefix that does not end with a digit, the decimal digits
of a number [n] below 2^53 and [.jpg], the frame has the number [n].  A
name that does not end with [jpg] gives the number 0. *)
Theorem frame_number_read_back (frameRate : number) (pre : string) (n : N) :
  (n < 2 ^ 53)%N ->
  (pre = EmptyString
   \/ exists p c, pre = (p ++ String c EmptyString)%string
                  /\ isDigit c = false) ->
  num (frameOf frameRate (pre ++ digits (Z.of_N n) ++ ".jpg")) = n
  /\ forall name,
       String.eqb (substring (String.length name - 3) 3 name) "jpg" = false ->
       num (frameOf frameRate name) = 0%N.
Proof.
  intros Hsafe Hpre. split.
  - destruct (digits_printed n) as [Hdig [Hne Hparse]].
    cbn [frameOf num].
    assert (Hm : matchNum (pre ++ digits (Z.of_N n) ++ ".jpg")
                 = Some (digits (Z.of_N n))).
    { unfold matchNum.
      replace (pre ++ digits (Z.of_N n) ++ ".jpg")%string
        with ((pre ++ digits (Z.of_N n)) ++ ".jpg")%string
        by (rewrite string_app_assoc; reflexivity).
      rewrite string_length_app. cbn [String.length].
      replace (String.length (pre ++ digits (Z.of_N n)) + 4 - 3)%nat
        with (String.length (pre ++ digits (Z.of_N n)) + 1)%nat by lia.
      replace (String.length (pre ++ digits (Z.of_N n)) + 4 - 4)%nat
        with (String.length (pre ++ digits (Z.of_N n)) + 0)%nat by lia.
      rewrite substring_shift, get_shift.
      cbn [substring get String.eqb Ascii.eqb Bool.eqb negb
           isLineTerminator].
      replace (String.length (pre ++ digits (Z.of_N n)) + 4 <? 4)%nat
        with false by (symmetry; apply Nat.ltb_ge; lia).
      rewrite Nat.add_0_r, substring_prefix.
      rewrite (trailingDigits_app pre _ Hdig Hpre).
      destruct (digits (Z.of_N n)); [contradiction Hne |]; reflexivity. }
    rewrite Hm. exact Hparse.
  - intros name Hext. cbn [frameOf num]. unfold matchNum.
    rewrite Hext. reflexivity.
Qed.

Lemma frame_number_read_back_witness :
  num (frameOf 1 "filmstrip/frame_1366x768_12.jpg") = 12%N.
Proof.
  refine (proj1 (frame_number_read_back 1 "filmstrip/frame_1366x768_" 12
                                        _ _)).
  - vm_compute. reflexivity.
  - right. exists "filmstrip/frame_1366x768", "_"%char.
    split; reflexivity.
Defined.

End FrameNumber.

(** ** [fillOutHar] as a whole *)

Module FillOut.
Import JS Types Runner MergeView MergeMoreFacts.

Lemma last_index_None {A : Type} (l : list A) :
  nth_error l (List.length l - 1) = None <-> l = [].
Proof.
  split; [| intros ->; reflexivity].
  intros H. apply nth_error_None in H.
  destruct l as [| a l]; [reflexivity | cbn [List.length] in H; lia].
Qed.

Lemma page_eta (page : HarPage) :
  {| pageTimings := pageTimings page |} = page.
Proof. destruct page. reflexivity. Qed.

(** X23.  On an archive with at least one page [fillOutHar] returns: it
rewrites the timings of the first page only, keeps the other pages, and
keeps every entry in place with its request, response, time and start
date; without metrics the pages are unchanged.  On an archive without
pages it throws exactly when there is a navigation timing record or at
least one LCP event to store. *)
Theorem fillOutHar_keeps_archive (metrics : option Metrics)
    (requests : list RequestData) (harData : HarData) :
  (forall page rest,
      pages harData = page :: rest ->
      exists out,
        fillOutHar metrics requests harData = Returned out
        /\ (exists page', pages out = page' :: rest)
        /\ map carried (har_entries out) = map carried (har_entries harData)
        /\ (metrics = None -> pages out = pages harData))
  /\ (pages harData = [] ->
      (fillOutHar metrics requests harData = Thrown "TypeError" <->
       exists m, metrics = Some m
                 /\ (navigationTiming m <> None
                     \/ exists e l, largestContentfulPaint m
                                    = Some (e :: l)))).
Proof.
  split.
  - intros page rest Hp. unfold fillOutHar. rewrite Hp.
    eexists. split; [reflexivity |]. cbn [pages har_entries].
    split; [eexists; reflexivity |].
    split; [apply mergeEntries_carried |].
    intros ->. cbn [filledPageTimings lcpEvent]. rewrite page_eta.
    reflexivity.
  - intros Hp. unfold fillOutHar. rewrite Hp. unfold touchesPages.
    destruct metrics as [m |].
    + unfold lcpEvent. destruct (navigationTiming m) as [nav |] eqn:Enav.
      * split; [| reflexivity]. intros _. exists m.
        split; [reflexivity | left; rewrite Enav; discriminate].
      * destruct (largestContentfulPaint m) as [l |] eqn:El.
        -- destruct l as [| e l].
           ++ cbn [nth_error List.length Nat.sub].
              split; [discriminate |].
              intros [m' [Hm [Hnav | [e [l Hl]]]]]; injection Hm as <-;
                [contradiction Hnav | rewrite El in Hl; discriminate].
           ++ destruct (nth_error (e :: l) (List.length (e :: l) - 1))
                eqn:En.
              ** split; [| reflexivity]. intros _. exists m.
                 split; [reflexivity |]. right. exists e, l. exact El.
              ** apply last_index_None in En. discriminate.
        -- split; [discriminate |].
           intros [m' [Hm [Hnav | [e [l Hl]]]]]; injection Hm as <-;
             [contradiction Hnav | rewrite El in Hl; discriminate].
    + split; [discriminate |]. intros [m [Hm _]]. discriminate.
Qed.

Lemma fillOutHar_keeps_archive_witness :
  exists out,
    fillOutHar None MoreSamples.samples3 Samples.har_recorded
    = Returned out
    /\ pages out = pages Samples.har_recorded.
Proof.
  destruct (proj1 (fillOutHar_keeps_archive
                     None MoreSamples.samples3 Samples.har_recorded)
                  _ _ eq_refl) as [out [Hout [_ [_ Hpages]]]].
  exists out. split; [exact Hout | exact (Hpages eq_refl)].
Defined.

End FillOut.

(** ** Test identifiers *)

Module TestIds.
Import JS JSMore Types RunnerMore ReplaceFacts SplitFacts FrameNumberFacts.

Lemma pad2_table :
  forallb (fun x => (Nat.eqb (String.length (pad2 x)) 2
                     && N.eqb (parseInt (pad2 x)) (N.of_nat x))%bool)
          (seq 0 100) = true.
Proof. vm_compute. reflexivity. Qed.

Lemma pad2_two_digits (x : nat) :
  (x < 100)%nat ->
  String.length (pad2 x) = 2%nat /\ parseInt (pad2 x) = N.of_nat x.
Proof.
  intros Hx. pose proof pad2_table as H. rewrite forallb_forall in H.
  specialize (H x). rewrite in_seq in H.
  assert (Hb := H ltac:(lia)). apply andb_true_iff in Hb as [H1 H2].
  split; [apply Nat.eqb_eq, H1 | apply N.eqb_eq, H2].
Qed.

(** X24.  A test identifier has fixed columns: for a year of four digits
and date fields below 100, it is 20 characters followed by the UUID;
each two-digit field reads back as its value, and the month field shows
the month counted from 1. *)
Theorem test_id_has_fixed_columns
    (year month date hour minute second : nat) (uuid : string) :
  String.length (digits (Z.of_nat year)) = 4%nat ->
  (month < 12)%nat -> (date < 100)%nat ->
  (hour < 100)%nat -> (minute < 100)%nat -> (second < 100)%nat ->
  String.length (generateTestID year month date hour minute second uuid)
  = (20 + String.length uuid)%nat
  /\ substring 20 (String.length uuid)
               (generateTestID year month date hour minute second uuid)
     = uuid
  /\ parseInt (substring 5 2
                 (generateTestID year month date hour minute second uuid))
     = N.of_nat (month + 1)
  /\ parseInt (substring 8 2
                 (generateTestID year month date hour minute second uuid))
     = N.of_nat date.
Proof.
  intros Hyear Hm Hd Hh Hmi Hs.
  destruct (pad2_two_digits (month + 1) ltac:(lia)) as [Lm Pm].
  destruct (pad2_two_digits date Hd) as [Ld Pd].
  destruct (pad2_two_digits hour Hh) as [Lh _].
  destruct (pad2_two_digits minute Hmi) as [Lmi _].
  destruct (pad2_two_digits second Hs) as [Ls _].
  unfold generateTestID.
  split; [| split; [| split]].
  - rewrite !string_length_app. cbn [String.length].
    rewrite Hyear, Lm, Ld, Lh, Lmi, Ls. lia.
  - replace (digits (Z.of_nat year) ++ "_" ++ pad2 (month + 1) ++ "_"
             ++ pad2 date ++ "_" ++ pad2 hour ++ "_" ++ pad2 minute ++ "_"
             ++ pad2 second ++ "_" ++ uuid)%string
      with ((digits (Z.of_nat year) ++ "_" ++ pad2 (month + 1) ++ "_"
             ++ pad2 date ++ "_" ++ pad2 hour ++ "_" ++ pad2 minute ++ "_"
             ++ pad2 second ++ "_") ++ uuid)%string
      by (rewrite !string_app_assoc; reflexivity).
    replace 20%nat
      with (String.length
              (digits (Z.of_nat year) ++ "_" ++ pad2 (month + 1) ++ "_"
               ++ pad2 date ++ "_" ++ pad2 hour ++ "_" ++ pad2 minute
               ++ "_" ++ pad2 second ++ "_") + 0)%nat
      by (rewrite !string_length_app; cbn [String.length];
          rewrite Hyear, Lm, Ld, Lh, Lmi, Ls; lia).
    rewrite substring_shift. apply substring_all.
  - replace (digits (Z.of_nat year) ++ "_" ++ pad2 (month + 1) ++ "_"
             ++ pad2 date ++ "_" ++ pad2 hour ++ "_" ++ pad2 minute ++ "_"
             ++ pad2 second ++ "_" ++ uuid)%string
      with ((digits (Z.of_nat year) ++ "_")
            ++ pad2 (month + 1)
            ++ ("_" ++ pad2 date ++ "_" ++ pad2 hour ++ "_" ++ pad2 minute
                ++ "_" ++ pad2 second ++ "_" ++ uuid))%string
      by (rewrite !string_app_assoc; reflexivity).
    replace 5%nat with (String.length (digits (Z.of_nat year) ++ "_") + 0)%nat
      by (rewrite string_length_app; cbn [String.length]; rewrite Hyear;
          lia).
    rewrite substring_shift. rewrite <- Lm at 1.
    rewrite substring_prefix. exact Pm.
  - replace (digits (Z.of_nat year) ++ "_" ++ pad2 (month + 1) ++ "_"
             ++ pad2 date ++ "_" ++ pad2 hour ++ "_" ++ pad2 minute ++ "_"
             ++ pad2 second ++ "_" ++ uuid)%string
      with ((digits (Z.of_nat year) ++ "_" ++ pad2 (month + 1) ++ "_")
            ++ pad2 date
            ++ ("_" ++ pad2 hour ++ "_" ++ pad2 minute
                ++ "_" ++ pad2 second ++ "_" ++ uuid))%string
      by (rewrite !string_app_assoc; reflexivity).
    replace 8%nat
      with (String.length
              (digits (Z.of_nat year) ++ "_" ++ pad2 (month + 1) ++ "_")
            + 0)%nat
      by (rewrite !string_length_app; cbn [String.length];
          rewrite Hyear, Lm; lia).
    rewrite substring_shift. rewrite <- Ld at 1.
    rewrite substring_prefix. exact Pd.
Qed.

Lemma test_id_has_fixed_columns_witness :
  String.length
    (generateTestID 2026 0 5 9 3 7 "123e4567-e89b-12d3-a456-426614174000")
  = 56%nat.
Proof.
  refine (proj1 (test_id_has_fixed_columns
                   2026 0 5 9 3 7 "123e4567-e89b-12d3-a456-426614174000"
                   _ _ _ _ _ _)); [reflexivity | lia ..].
Defined.

End TestIds.

(** ** From the recorded archive to the rows of the report *)

Module Rows.
Import JS Types Report Runner Pipeline MergeView MergeMoreFacts ParserFacts.

Lemma map_parseEntry_url (g : string -> option number) (ps : option string)
    (es : list HarEntry) :
  map nr_url (map (parseEntry g ps) es) = map (fun e => url (request e)) es.
Proof.
  rewrite map_map. apply map_ext. intros e. apply parseEntry_url.
Qed.

(** X25.  Whatever live samples are merged into it, a recorded archive
with at least one entry gives the report one record per recorded
request, in the order of the recording and with the recorded URLs. *)
Theorem report_records_follow_archive (g : string -> option number)
    (rs : list RequestData) (l : list HarEntry) (lcpURL : option string) :
  l <> [] ->
  exists records,
    parseHarData g
      (mkHarLog (Some (mkHarLogBody (Some (mergeEntries rs l lcpURL)))))
    = Some records
    /\ List.length records = List.length l
    /\ map nr_url records = map (fun e => url (request e)) l.
Proof.
  intros Hne.
  assert (Hne' : mergeEntries rs l lcpURL <> []).
  { intros H. apply (f_equal (map carried)) in H.
    rewrite mergeEntries_carried in H. destruct l; [contradiction Hne |];
      [reflexivity | discriminate H]. }
  destruct (parseHarData_records g
              (mkHarLog (Some (mkHarLogBody
                                 (Some (mergeEntries rs l lcpURL))))) Hne')
    as [ps Hps].
  rewrite Hps. eexists. split; [reflexivity |].
  cbn [archiveEntries log entries]. split.
  - rewrite length_map, <- (length_map carried), mergeEntries_carried.
    apply length_map.
  - rewrite map_parseEntry_url.
    pose proof (mergeEntries_carried lcpURL rs l) as H.
    apply (f_equal (map (fun c => url (fst (fst (fst (fst c))))))) in H.
    rewrite !map_map in H. exact H.
Qed.

Lemma report_records_follow_archive_witness :
  exists records,
    parseHarData Samples.date_getTime
      (mkHarLog (Some (mkHarLogBody
         (Some (mergeEntries MoreSamples.samples3 MoreSamples.archive3
                             None)))))
    = Some records
    /\ List.length records = 3%nat.
Proof.
  destruct (report_records_follow_archive
              Samples.date_getTime MoreSamples.samples3 MoreSamples.archive3
              None ltac:(discriminate)) as [records [Hr [Hlen _]]].
  exists records. split; [exact Hr | exact Hlen].
Defined.

End Rows.
